(** * Backtest simulation and validation engine: a shallow embedding

  The Python sources compute on IEEE doubles.  The embedding computes on
  exact rationals ([Q]): every arithmetic expression of the source is
  kept as written, rounding is not modelled.  Equalities between amounts
  are therefore stated with [==] ([Qeq]).  Calendar dates are day
  ordinals in [Z], symbols are strings, Python dicts that are iterated
  are association lists in insertion order. *)

From Stdlib Require Import QArith Qround Qabs Qminmax Lqa.
From Stdlib Require Import ZArith Lia List String Bool Permutation.
Import ListNotations.

Local Open Scope Z_scope.
Local Open Scope Q_scope.

(** ** Python and numpy primitives used by the sources *)

Module Py.

Definition Qltb (a b : Q) : bool := negb (Qle_bool b a).
Definition Qgtb (a b : Q) : bool := Qltb b a.
Definition Qgeb (a b : Q) : bool := Qle_bool b a.

(** [int(x)] on a finite float: truncation toward zero. *)
Definition int (x : Q) : Z := Z.quot (Qnum x) (Z.pos (Qden x)).

(** Number of elements of [range(lo, hi, step)], as CPython computes it. *)
Definition range_len (lo hi step : Z) : Z :=
  if ((0 <? step) && (lo <? hi))%Z then ((hi - lo - 1) / step + 1)%Z
  else if ((step <? 0) && (hi <? lo))%Z then ((lo - hi - 1) / (- step) + 1)%Z
  else 0%Z.

(** [range(lo, hi, step)]; [step = 0] raises [ValueError]. *)
Definition range (lo hi step : Z) : option (list Z) :=
  if (step =? 0)%Z then None
  else Some (map (fun k => (lo + Z.of_nat k * step)%Z)
                 (seq 0 (Z.to_nat (range_len lo hi step)))).

(** [xs[a:b]] for [0 <= a <= b]. *)
Definition slice {A} (xs : list A) (a b : Z) : list A :=
  firstn (Z.to_nat b - Z.to_nat a) (skipn (Z.to_nat a) xs).

Definition len {A} (xs : list A) : Z := Z.of_nat (List.length xs).

Definition sum (xs : list Q) : Q := fold_left Qplus xs 0.

(** [np.mean] of a non-empty list ([nan] on an empty one, not modelled
    here: every caller below guards the empty case). *)
Definition mean (xs : list Q) : Q := sum xs / inject_Z (len xs).

Fixpoint minimum (x : Q) (xs : list Q) : Q :=
  match xs with
  | [] => x
  | y :: ys => minimum (Qmin x y) ys
  end.

Fixpoint maximum (x : Q) (xs : list Q) : Q :=
  match xs with
  | [] => x
  | y :: ys => maximum (Qmax x y) ys
  end.

Definition count {A} (p : A -> bool) (xs : list A) : Z := len (filter p xs).

End Py.

(** ** Python dicts with string keys, in insertion order *)

Module Dict.

Definition t (A : Type) : Type := list (string * A).

(** [m.get(k)] *)
Fixpoint lookup {A} (k : string) (m : t A) : option A :=
  match m with
  | [] => None
  | (k', v) :: rest => if String.eqb k' k then Some v else lookup k rest
  end.

(** [del m[k]] *)
Fixpoint remove {A} (k : string) (m : t A) : t A :=
  match m with
  | [] => []
  | (k', v) :: rest =>
      if String.eqb k' k then remove k rest else (k', v) :: remove k rest
  end.

(** [m[k] = v]: the value is replaced in place, a new key goes last. *)
Fixpoint insert {A} (k : string) (v : A) (m : t A) : t A :=
  match m with
  | [] => [(k, v)]
  | (k', v') :: rest =>
      if String.eqb k' k then (k, v) :: rest else (k', v') :: insert k v rest
  end.

End Dict.

(** ** enhanced_backtesting_part2.py: WalkForwardAnalyzer *)

Module WalkForward.

Section Analyzer.

(** A row of the input frame, the strategy object and what
    [strategy.backtest] returns.  [strategy.train] mutates the strategy,
    so the strategy is threaded through the loop.  The two methods are
    the caller's; they are taken to return (an exception of theirs would
    end the analysis with the empty dict). *)
Variables (row strategy test_results : Type).
Variable train : strategy -> list row -> strategy.
Variable backtest : strategy -> list row -> test_results.
(** [Some r] when the result has a ['performance'] entry, [r] being its
    [get('total_return', 0)]. *)
Variable performance_total_return : test_results -> option Q.
Variable sqrt : Q -> Q.

Record analyzer := {
  train_period : Z;
  test_period : Z;
  step_size : Z
}.

Definition default_analyzer : analyzer :=
  {| train_period := 252; test_period := 63; step_size := 21 |}.

Record window := {
  train_start : Z;
  train_end : Z;
  test_start : Z;
  test_end : Z;
  window_results : test_results
}.

Record analysis := {
  total_periods : Z;
  avg_test_return : Q;
  std_test_return : Q;
  min_test_return : Q;
  max_test_return : Q;
  positive_periods : Z;
  negative_periods : Z
}.

(** One iteration of the loop body of [run_walk_forward]. *)
Definition walk_step (self : analyzer) (data : list row)
    (acc : strategy * list window) (start_idx : Z) : strategy * list window :=
  let '(s, results) := acc in
  let train_start := start_idx in
  let train_end := (start_idx + train_period self)%Z in
  let test_start := train_end in
  let test_end := (test_start + test_period self)%Z in
  let train_data := Py.slice data train_start train_end in
  let s' := train s train_data in
  let test_data := Py.slice data test_start test_end in
  let r := backtest s' test_data in
  (s', results ++ [ {| train_start := train_start; train_end := train_end;
                       test_start := test_start; test_end := test_end;
                       window_results := r |} ]).

(** The [results] list built by the loop of [run_walk_forward];
    [None] when [range] raises. *)
Definition walk_forward_windows (self : analyzer) (s : strategy)
    (data : list row) : option (list window) :=
  match Py.range 0 (Py.len data - train_period self - test_period self)
                 (step_size self) with
  | None => None
  | Some starts => Some (snd (fold_left (walk_step self data) starts (s, [])))
  end.

Fixpoint test_returns (results : list window) : list Q :=
  match results with
  | [] => []
  | w :: ws =>
      match performance_total_return (window_results w) with
      | Some r => r :: test_returns ws
      | None => test_returns ws
      end
  end.

Definition std (xs : list Q) : Q :=
  let m := Py.mean xs in
  sqrt (Py.mean (map (fun x => (x - m) * (x - m)) xs)).

(** [_analyze_walk_forward_results]; [None] is the empty dict, returned
    for no results and when [np.min] raises on an empty list. *)
Definition _analyze_walk_forward_results (results : list window)
    : option analysis :=
  match results with
  | [] => None
  | _ =>
      match test_returns results with
      | [] => None
      | r :: rs =>
          Some {| total_periods := Py.len results;
                  avg_test_return := Py.mean (r :: rs);
                  std_test_return := std (r :: rs);
                  min_test_return := Py.minimum r rs;
                  max_test_return := Py.maximum r rs;
                  positive_periods := Py.count (fun x => Py.Qgtb x 0) (r :: rs);
                  negative_periods := Py.count (fun x => Py.Qltb x 0) (r :: rs) |}
      end
  end.

(** [run_walk_forward]: the [except] branch returns the empty dict. *)
Definition run_walk_forward (self : analyzer) (s : strategy)
    (data : list row) : option analysis :=
  match walk_forward_windows self s data with
  | None => None
  | Some results => _analyze_walk_forward_results results
  end.

(** The window count the specification announces. *)
Definition spec_window_count (self : analyzer) (n : Z) : Z :=
  ((n - train_period self - test_period self) / step_size self + 1)%Z.

(** The shape of a window on a frame of [n] rows: it starts at a
    multiple of the step, the test range begins where the train range
    ends, both have the configured lengths and the test range ends before
    the last row. *)
Definition window_shape (self : analyzer) (n : Z) (w : window) : Prop :=
  exists k : Z,
    (0 <= k)%Z /\
    train_start w = (k * step_size self)%Z /\
    train_end w = (train_start w + train_period self)%Z /\
    test_start w = train_end w /\
    test_end w = (test_start w + test_period self)%Z /\
    (test_end w < n)%Z.

End Analyzer.

Arguments window_shape {test_results}.
Arguments train_start {test_results}.
Arguments train_end {test_results}.
Arguments test_start {test_results}.
Arguments test_end {test_results}.
Arguments window_results {test_results}.
Arguments walk_step {row strategy test_results}.
Arguments walk_forward_windows {row strategy test_results}.
Arguments test_returns {test_results}.
Arguments _analyze_walk_forward_results {test_results}.
Arguments run_walk_forward {row strategy test_results}.

End WalkForward.

(** ** pandas series operations on finite values

    A division is the one place where the sources leave the finite
    numbers: numpy yields [nan] for [0/0] and a signed infinity for
    [x/0].  [Series.min] skips [nan] and is [nan] when nothing is left. *)

Module Series.

Inductive xfloat : Type :=
| Fin (q : Q)
| NegInf
| PosInf
| NaN.

Definition fdiv (a b : Q) : xfloat :=
  if Qeq_bool b 0 then
    if Qeq_bool a 0 then NaN
    else if Py.Qltb 0 a then PosInf else NegInf
  else Fin (a / b).

(** Equality of results up to the representation of a rational. *)
Definition xeq (a b : xfloat) : Prop :=
  match a, b with
  | Fin x, Fin y => x == y
  | NegInf, NegInf => True
  | PosInf, PosInf => True
  | NaN, NaN => True
  | _, _ => False
  end.

(** [a > b] on floats; false when either side is [nan]. *)
Definition xgtb (a b : xfloat) : bool :=
  match a, b with
  | Fin x, Fin y => Py.Qltb y x
  | Fin _, NegInf => true
  | PosInf, Fin _ => true
  | PosInf, NegInf => true
  | _, _ => false
  end.

Definition xltb (a b : xfloat) : bool := xgtb b a.

(** [a <= b] on floats; false when either side is [nan]. *)
Definition xleb (a b : xfloat) : bool :=
  match a, b with
  | Fin x, Fin y => Qle_bool x y
  | NegInf, NaN => false
  | NegInf, _ => true
  | Fin _, PosInf => true
  | PosInf, PosInf => true
  | _, _ => false
  end.

(** Minimum of two values, a [nan] being skipped. *)
Definition xmin (a b : xfloat) : xfloat :=
  match a, b with
  | NaN, _ => b
  | _, NaN => a
  | NegInf, _ => NegInf
  | _, NegInf => NegInf
  | PosInf, _ => b
  | _, PosInf => a
  | Fin x, Fin y => Fin (Qmin x y)
  end.

Definition min (xs : list xfloat) : xfloat := fold_left xmin xs NaN.

Fixpoint cumprod_from (acc : Q) (xs : list Q) : list Q :=
  match xs with
  | [] => []
  | x :: r => let a := acc * x in a :: cumprod_from a r
  end.

Definition cumprod (xs : list Q) : list Q :=
  match xs with
  | [] => []
  | x :: r => x :: cumprod_from x r
  end.

Fixpoint expanding_max_from (m : Q) (xs : list Q) : list Q :=
  match xs with
  | [] => []
  | x :: r => let m' := Qmax m x in m' :: expanding_max_from m' r
  end.

(** [s.expanding().max()] *)
Definition expanding_max (xs : list Q) : list Q :=
  match xs with
  | [] => []
  | x :: r => x :: expanding_max_from x r
  end.

Fixpoint zip_with {A B C} (f : A -> B -> C) (xs : list A) (ys : list B)
    : list C :=
  match xs, ys with
  | x :: xs', y :: ys' => f x y :: zip_with f xs' ys'
  | _, _ => []
  end.

(** [(s - running_max) / running_max], element by element. *)
Definition drawdown (s running_max : list Q) : list xfloat :=
  zip_with (fun c m => fdiv (c - m) m) s running_max.

(** [abs(x)] *)
Definition xabs (a : xfloat) : xfloat :=
  match a with
  | Fin x => Fin (Qabs x)
  | NegInf => PosInf
  | PosInf => PosInf
  | NaN => NaN
  end.

Definition xneg (a : xfloat) : xfloat :=
  match a with
  | Fin x => Fin (- x)
  | NegInf => PosInf
  | PosInf => NegInf
  | NaN => NaN
  end.

(** [a + b] on floats. *)
Definition xadd (a b : xfloat) : xfloat :=
  match a, b with
  | NaN, _ => NaN
  | _, NaN => NaN
  | Fin x, Fin y => Fin (x + y)
  | PosInf, NegInf => NaN
  | NegInf, PosInf => NaN
  | PosInf, _ => PosInf
  | NegInf, _ => NegInf
  | Fin _, PosInf => PosInf
  | Fin _, NegInf => NegInf
  end.

Definition xsub (a b : xfloat) : xfloat := xadd a (xneg b).

(** [a / b] on floats (zero is unsigned). *)
Definition xdiv (a b : xfloat) : xfloat :=
  match a, b with
  | NaN, _ => NaN
  | _, NaN => NaN
  | Fin x, Fin y => fdiv x y
  | Fin _, _ => Fin 0
  | PosInf, Fin y => if Py.Qltb y 0 then NegInf else PosInf
  | NegInf, Fin y => if Py.Qltb y 0 then PosInf else NegInf
  | _, _ => NaN
  end.

(** [a != 0] on floats; true for [nan]. *)
Definition xnonzero (a : xfloat) : bool :=
  match a with
  | Fin x => negb (Qeq_bool x 0)
  | _ => true
  end.


(** A finite value equal to zero. *)
Definition xzero (a : xfloat) : Prop :=
  match a with
  | Fin q => q == 0
  | _ => False
  end.

(** [s.prod()]; 1 on an empty series. *)
Definition prod (xs : list Q) : Q := fold_left Qmult xs 1.

End Series.

(** ** enhanced_backtesting_part2.py: the three max-drawdown methods *)

Module RiskManager.

(** The body runs in a [try]; no operation of it raises on a numeric
    series, so the [except] branch (which returns 0.0) is never taken. *)
Definition _calculate_max_drawdown (returns : list Q) : Series.xfloat :=
  let cumulative := Series.cumprod (map (fun r => 1 + r) returns) in
  let running_max := Series.expanding_max cumulative in
  let drawdown := Series.drawdown cumulative running_max in
  Series.min drawdown.

End RiskManager.

Module PerformanceAnalytics.

Definition _calculate_max_drawdown (returns : list Q) : Series.xfloat :=
  let cumulative := Series.cumprod (map (fun r => 1 + r) returns) in
  let running_max := Series.expanding_max cumulative in
  let drawdown := Series.drawdown cumulative running_max in
  Series.min drawdown.

(** [(1 + returns).prod() - 1] *)
Definition _calculate_total_return (returns : list Q) : Q :=
  Series.prod (map (fun r => 1 + r) returns) - 1.

Section Ratios.

(** [x ** y] on floats: numpy's power, [nan] where it is undefined. *)
Variable pow : Q -> Q -> Series.xfloat.

Definition _calculate_annualized_return (returns : list Q) : Series.xfloat :=
  let total_return := _calculate_total_return returns in
  let years := inject_Z (Py.len returns) / 252 in
  if Py.Qgtb years 0
  then Series.xsub (pow (1 + total_return) (1 / years)) (Series.Fin 1)
  else Series.Fin 0.

Definition _calculate_calmar_ratio (returns : list Q) : Series.xfloat :=
  let annualized_return := _calculate_annualized_return returns in
  let max_drawdown := Series.xabs (_calculate_max_drawdown returns) in
  if Series.xnonzero max_drawdown
  then Series.xdiv annualized_return max_drawdown
  else Series.Fin 0.

End Ratios.

Definition _calculate_recovery_factor (returns : list Q) : Series.xfloat :=
  let total_return := _calculate_total_return returns in
  let max_drawdown := Series.xabs (_calculate_max_drawdown returns) in
  if Series.xnonzero max_drawdown
  then Series.xdiv (Series.Fin total_return) max_drawdown
  else Series.Fin 0.

End PerformanceAnalytics.

(** ** enhanced_backtesting_part2.py: EnhancedReporting *)

Module EnhancedReporting.

Import Series.

(** The entries of the [performance] dict the risk report reads; [None]
    is an absent key, read as 0. *)
Record performance := {
  volatility : option xfloat;
  max_drawdown : option xfloat;
  sharpe_ratio : option xfloat
}.

Definition get0 (o : option xfloat) : xfloat :=
  match o with
  | Some v => v
  | None => Fin 0
  end.

Definition _assess_risk_level (p : performance) : string :=
  let volatility := get0 (volatility p) in
  let max_dd := xabs (get0 (max_drawdown p)) in
  let sharpe := get0 (sharpe_ratio p) in
  if xltb volatility (Fin (15 # 100)) && xltb max_dd (Fin (10 # 100))
     && xgtb sharpe (Fin 1) then "Low"
  else if xltb volatility (Fin (25 # 100)) && xltb max_dd (Fin (20 # 100))
          && xgtb sharpe (Fin (5 # 10)) then "Medium"
  else "High".

Definition _generate_risk_recommendations (p : performance) : list string :=
  let volatility := get0 (volatility p) in
  let max_dd := xabs (get0 (max_drawdown p)) in
  let sharpe := get0 (sharpe_ratio p) in
  let recommendations :=
    (if xgtb volatility (Fin (25 # 100))
     then ["High volatility detected. Consider reducing position sizes."%string]
     else [])
    ++ (if xgtb max_dd (Fin (20 # 100))
        then ["Large maximum drawdown. Implement stricter stop-losses."%string]
        else [])
    ++ (if xltb sharpe (Fin (5 # 10))
        then ["Low risk-adjusted returns. Review strategy parameters."%string]
        else []) in
  match recommendations with
  | [] => ["Risk metrics are within acceptable ranges."%string]
  | _ => recommendations
  end.

End EnhancedReporting.

(** ** enhanced_backtesting_part2.py: MonteCarloSimulator *)

Module MonteCarloSimulator.

Import Series.

Definition _calculate_max_drawdown (portfolio_values : list Q) : xfloat :=
  let running_max := expanding_max portfolio_values in
  let drawdown := Series.drawdown portfolio_values running_max in
  Series.min drawdown.

Record sim_result := {
  simulation : Z;
  final_value : Q;
  total_return : xfloat;
  max_drawdown : xfloat
}.

Record analysis := {
  n_simulations_done : Z;
  avg_total_return : xfloat;
  std_total_return : xfloat;
  min_total_return : xfloat;
  max_total_return : xfloat;
  avg_max_drawdown : xfloat;
  std_max_drawdown : xfloat;
  min_max_drawdown : xfloat;
  max_max_drawdown : xfloat;
  avg_final_value : xfloat;
  std_final_value : xfloat;
  min_final_value : xfloat;
  max_final_value : xfloat;
  positive_simulations : Z;
  negative_simulations : Z;
  return_95 : xfloat * xfloat;
  drawdown_95 : xfloat * xfloat
}.

(** numpy is outside the repository: its statistics and its process-wide
    random generator are the interface the simulator is written against. *)
Class Numpy := {
  rng : Type;
  (** [RandomState.choice(n, size=k, replace=True)]: [k] positions below
      [n] and the advanced generator. *)
  np_choice : rng -> nat -> nat -> list nat * rng;
  np_mean : list xfloat -> xfloat;
  np_std : list xfloat -> xfloat;
  np_min : list xfloat -> xfloat;
  np_max : list xfloat -> xfloat;
  np_percentile : list xfloat -> Q -> xfloat
}.

Section Simulator.

Context {numpy : Numpy}.

(** [returns.sample(n=len(returns), replace=True)] with no [random_state]:
    pandas draws the positions from numpy's global generator. *)
Definition sample (returns : list Q) (g : rng) : list Q * rng :=
  let n := List.length returns in
  let '(idx, g') := np_choice g n n in
  (map (fun i => nth i returns 0) idx, g').

(** One iteration of the loop of [run_monte_carlo]; [None] when
    [portfolio_values.iloc[-1]] raises [IndexError]. *)
Definition simulate (returns : list Q) (initial_capital : Q) (i : Z) (g : rng)
    : option sim_result * rng :=
  let '(bootstrapped_returns, g') := sample returns g in
  let cumulative_returns := cumprod (map (fun r => 1 + r) bootstrapped_returns) in
  let portfolio_values := map (fun c => initial_capital * c) cumulative_returns in
  match rev portfolio_values with
  | [] => (None, g')
  | final_value :: _ =>
      let max_drawdown := _calculate_max_drawdown portfolio_values in
      (Some {| simulation := i;
               final_value := final_value;
               total_return := fdiv (final_value - initial_capital) initial_capital;
               max_drawdown := max_drawdown |}, g')
  end.

Fixpoint simulations (returns : list Q) (initial_capital : Q) (ixs : list Z)
    (results : list sim_result) (g : rng) : option (list sim_result) * rng :=
  match ixs with
  | [] => (Some results, g)
  | i :: ixs' =>
      match simulate returns initial_capital i g with
      | (None, g') => (None, g')
      | (Some r, g') => simulations returns initial_capital ixs' (results ++ [r]) g'
      end
  end.

(** [_analyze_monte_carlo_results]; [None] is the empty dict. *)
Definition _analyze_monte_carlo_results (results : list sim_result)
    : option analysis :=
  match results with
  | [] => None
  | _ =>
      let total_returns := map total_return results in
      let max_drawdowns := map max_drawdown results in
      let final_values := map (fun r => Fin (final_value r)) results in
      Some {| n_simulations_done := Py.len results;
              avg_total_return := np_mean total_returns;
              std_total_return := np_std total_returns;
              min_total_return := np_min total_returns;
              max_total_return := np_max total_returns;
              avg_max_drawdown := np_mean max_drawdowns;
              std_max_drawdown := np_std max_drawdowns;
              min_max_drawdown := np_min max_drawdowns;
              max_max_drawdown := np_max max_drawdowns;
              avg_final_value := np_mean final_values;
              std_final_value := np_std final_values;
              min_final_value := np_min final_values;
              max_final_value := np_max final_values;
              positive_simulations :=
                Py.count (fun r => xgtb r (Fin 0)) total_returns;
              negative_simulations :=
                Py.count (fun r => xltb r (Fin 0)) total_returns;
              return_95 := (np_percentile total_returns (25 # 10),
                            np_percentile total_returns (975 # 10));
              drawdown_95 := (np_percentile max_drawdowns (25 # 10),
                              np_percentile max_drawdowns (975 # 10)) |}
  end.

(** [run_monte_carlo] as a computation on the global generator: the
    analysis and the generator state left behind. *)
Definition run_monte_carlo (n_simulations : Z) (returns : list Q)
    (initial_capital : Q) (g : rng) : option analysis * rng :=
  let ixs := map Z.of_nat (seq 0 (Z.to_nat n_simulations)) in
  match simulations returns initial_capital ixs [] g with
  | (None, g') => (None, g')
  | (Some results, g') => (_analyze_monte_carlo_results results, g')
  end.


(** What the simulator relies on in [choice]: a draw of size [k] has [k]
    positions. *)
Definition choice_sized : Prop :=
  forall (g : rng) (n k : nat), List.length (fst (np_choice g n k)) = k.

End Simulator.

(** A stand-in for numpy to run the simulator on: the generator is a
    counter and draw [j] of a call is position [(g + j) mod n]; the mean,
    minimum and maximum are those of finite values; the standard
    deviation and the percentiles are not computed. *)
Definition finite_values (xs : list xfloat) : option (list Q) :=
  fold_right (fun x acc =>
                match x, acc with
                | Fin q, Some qs => Some (q :: qs)
                | _, _ => None
                end) (Some []) xs.

Definition counter_numpy : Numpy :=
  {| rng := nat;
     np_choice := fun g n k =>
       (map (fun j => Nat.modulo (g + j) n) (seq 0 k), (g + k)%nat);
     np_mean := fun xs =>
       match finite_values xs with
       | Some (q :: qs) => Fin (Py.mean (q :: qs))
       | _ => NaN
       end;
     np_std := fun _ => NaN;
     np_min := fun xs =>
       match finite_values xs with
       | Some (q :: qs) => Fin (Py.minimum q qs)
       | _ => NaN
       end;
     np_max := fun xs =>
       match finite_values xs with
       | Some (q :: qs) => Fin (Py.maximum q qs)
       | _ => NaN
       end;
     np_percentile := fun _ _ => NaN |}.




End MonteCarloSimulator.

(** ** Back-testing parameters (the [default_params] dict of both engines) *)

Module Params.

Record t := {
  initial_capital : Q;
  commission : Q;
  slippage : Q;
  position_size : Q;
  max_positions : Z
}.

Definition default_params : t :=
  {| initial_capital := 100000;
     commission := 1 # 1000;
     slippage := 5 # 10000;
     position_size := 1 # 10;
     max_positions := 10 |}.



End Params.

(** ** enhanced_backtesting_engine.py: EnhancedBacktester._execute_trades *)

Module EnhancedBacktester.

Import Series.

(** A row of the [signals] frame; [Signal = None] is a [nan] signal. *)
Record signal_row := {
  date : Z;
  Signal : option Q;
  Price : Q
}.

Record trade := {
  symbol : string;
  entry_date : option Z;
  exit_date : Z;
  entry_price : Q;
  exit_price : Q;
  position : Q;
  shares : Q;
  gross_pnl : Q;
  commission : Q;
  net_pnl : Q;
  return_ : xfloat;
  cash_after : Q
}.

(** The local variables of [_execute_trades]. *)
Record state := {
  trades : list trade;
  cur_position : Q;
  cur_entry_price : Q;
  cur_entry_date : option Z;
  cash : Q
}.

Definition initial_state (parameters : Params.t) : state :=
  {| trades := [];
     cur_position := 0;
     cur_entry_price := 0;
     cur_entry_date := None;
     cash := Params.initial_capital parameters |}.

(** "Apply slippage" *)
Definition execution_price (parameters : Params.t) (signal price : Q) : Q :=
  if Py.Qgtb signal 0 then price * (1 + Params.slippage parameters)
  else if Py.Qltb signal 0 then price * (1 - Params.slippage parameters)
  else price.

(** "Close existing position if signal changes" *)
Definition close_position (sym : string) (parameters : Params.t)
    (d : Z) (signal execution_price : Q) (st : state) : state :=
  if negb (Qeq_bool (cur_position st) 0)
     && negb (Qeq_bool signal (cur_position st)) then
    let exit_price := execution_price in
    let shares := Qabs (cur_position st) in
    let gross_pnl := (exit_price - cur_entry_price st) * shares in
    let commission := exit_price * shares * Params.commission parameters in
    let net_pnl := gross_pnl - commission in
    let cash' := cash st + (exit_price * shares - commission) in
    {| trades := trades st ++
         [ {| symbol := sym;
              entry_date := cur_entry_date st;
              exit_date := d;
              entry_price := cur_entry_price st;
              exit_price := exit_price;
              position := cur_position st;
              shares := shares;
              gross_pnl := gross_pnl;
              commission := commission;
              net_pnl := net_pnl;
              return_ := fdiv net_pnl (cur_entry_price st * shares);
              cash_after := cash' |} ];
       cur_position := 0;
       cur_entry_price := cur_entry_price st;
       cur_entry_date := cur_entry_date st;
       cash := cash' |}
  else st.

(** The share count of an entry: [int(position_value / execution_price)].
    A zero execution price makes the quotient infinite or [nan] and [int]
    raises: [None]. *)
Definition entry_shares (parameters : Params.t) (cash execution_price : Q)
    : option Z :=
  let position_value := cash * Params.position_size parameters in
  if Qeq_bool execution_price 0 then None
  else Some (Py.int (position_value / execution_price)).

(** "Open new position" *)
Definition open_position (parameters : Params.t) (d : Z)
    (signal execution_price : Q) (st : state) : option state :=
  if negb (Qeq_bool signal 0) && Qeq_bool (cur_position st) 0 then
    match entry_shares parameters (cash st) execution_price with
    | None => None
    | Some shares =>
        if (0 <? shares)%Z then
          let commission :=
            execution_price * inject_Z shares * Params.commission parameters in
          Some {| trades := trades st;
                  cur_position := signal * inject_Z shares;
                  cur_entry_price := execution_price;
                  cur_entry_date := Some d;
                  cash := cash st - (execution_price * inject_Z shares + commission) |}
        else Some st
    end
  else Some st.

(** The body of the loop over [signals.iterrows()]. *)
Definition step (sym : string) (parameters : Params.t) (st : state)
    (row : signal_row) : option state :=
  match Signal row with
  | None => Some st
  | Some signal =>
      let price := Price row in
      let ep := execution_price parameters signal price in
      let st1 := close_position sym parameters (date row) signal ep st in
      open_position parameters (date row) signal ep st1
  end.

Fixpoint run (sym : string) (parameters : Params.t) (st : state)
    (signals : list signal_row) : option state :=
  match signals with
  | [] => Some st
  | row :: rest =>
      match step sym parameters st row with
      | None => None
      | Some st' => run sym parameters st' rest
      end
  end.

(** "Close final position if still open" *)
Definition close_final (sym : string) (parameters : Params.t)
    (signals : list signal_row) (st : state) : list trade :=
  if negb (Qeq_bool (cur_position st) 0) then
    match rev signals with
    | [] => trades st
    | last :: _ =>
        let exit_price := Price last * (1 - Params.slippage parameters) in
        let shares := Qabs (cur_position st) in
        let gross_pnl := (exit_price - cur_entry_price st) * shares in
        let commission := exit_price * shares * Params.commission parameters in
        let net_pnl := gross_pnl - commission in
        trades st ++
          [ {| symbol := sym;
               entry_date := cur_entry_date st;
               exit_date := date last;
               entry_price := cur_entry_price st;
               exit_price := exit_price;
               position := cur_position st;
               shares := shares;
               gross_pnl := gross_pnl;
               commission := commission;
               net_pnl := net_pnl;
               return_ := fdiv net_pnl (cur_entry_price st * shares);
               cash_after := cash st + exit_price * shares - commission |} ]
    end
  else trades st.

(** [_execute_trades]: any exception is caught and the empty list is
    returned. *)
Definition _execute_trades (signals : list signal_row) (sym : string)
    (parameters : Params.t) : list trade :=
  match run sym parameters (initial_state parameters) signals with
  | None => []
  | Some st => close_final sym parameters signals st
  end.

(** What the specification asks of a trade's net P&L: the price move on
    the traded quantity, less a commission on the entry and on the exit,
    each being execution price x quantity x commission rate. *)
Definition spec_net_pnl (parameters : Params.t) (t : trade) : Q :=
  (exit_price t - entry_price t) * shares t
  - entry_price t * shares t * Params.commission parameters
  - exit_price t * shares t * Params.commission parameters.

(** The net P&L as [_execute_trades] computes it. *)
Definition exit_only_net_pnl (parameters : Params.t) (t : trade) : Prop :=
  net_pnl t
  = (exit_price t - entry_price t) * shares t
    - exit_price t * shares t * Params.commission parameters.

(** A buy at 100 closed by a flat signal at 110. *)
Definition round_trip_signals : list signal_row :=
  [ {| date := 0; Signal := Some 1; Price := 100 |};
    {| date := 1; Signal := Some 0; Price := 110 |} ].

(** A signal of a long / short / flat strategy, or [nan]. *)
Definition unit_signal (row : signal_row) : Prop :=
  match Signal row with
  | None => True
  | Some s => s == 1 \/ s == - (1) \/ s == 0
  end.

(** What a round trip leaves in the cash: the net P&L less the commission
    of the entry. *)
Definition cash_effect (parameters : Params.t) (t : trade) : Q :=
  net_pnl t - entry_price t * shares t * Params.commission parameters.

Definition total_cash_effect (parameters : Params.t) (ts : list trade) : Q :=
  fold_right Qplus 0 (map (cash_effect parameters) ts).

(** The cash account of [_execute_trades]: the cash and what the open
    position cost are the initial capital and the effect of the closed
    trades, and a flat account holds the cash of its last trade. *)
Definition cash_ledger (parameters : Params.t) (st : state) : Prop :=
  cash st
  + cur_entry_price st * Qabs (cur_position st)
    * (1 + Params.commission parameters)
  == Params.initial_capital parameters
     + total_cash_effect parameters (trades st)
  /\ (cur_position st == 0 ->
      forall ts t, trades st = ts ++ [t] -> cash_after t == cash st).

(** No row has a negative price. *)
Definition nonnegative_prices (signals : list signal_row) : Prop :=
  Forall (fun row => 0 <= Price row) signals.

(** The cash is never negative, neither now nor after a recorded trade. *)
Definition solvent (st : state) : Prop :=
  0 <= cash st /\ Forall (fun t => 0 <= cash_after t) (trades st).

End EnhancedBacktester.

(** ** polygon_backtesting_engine.py: PolygonBacktestingEngine *)

Module PolygonBacktestingEngine.

Import Series.

(** The part of a symbol's frame the momentum strategy reads: the date
    index (unique, ascending) with the [Close] column. *)
Definition frame := list (Z * Q).

Module Position.
Record t := {
  quantity : Q;
  entry_price : Q;
  entry_date : Z;
  cost : Q
}.
End Position.

Module Trade.
Record t := {
  symbol : string;
  entry_date : Z;
  exit_date : Z;
  entry_price : Q;
  exit_price : Q;
  quantity : Q;
  pnl : Q;
  pnl_pct : xfloat
}.
End Trade.

Record results := {
  trades : list Trade.t;
  positions : Dict.t Position.t;
  portfolio_value : list Q;
  cash : Q;
  total_value : Q;
  dates : list Z
}.

(** [config['parameters']] with the defaults of the [get] calls. *)
Record config := {
  lookback_period : nat;
  momentum_threshold : Q;
  holding_period : Z
}.

Definition momentum_template : config :=
  {| lookback_period := 20; momentum_threshold := 2 # 100; holding_period := 5 |}.

Record candidate := {
  c_symbol : string;
  c_momentum : xfloat;
  c_price : Q
}.

(** [df.loc[date, 'Close']] when [date in df.index]. *)
Fixpoint loc (df : frame) (d : Z) : option Q :=
  match df with
  | [] => None
  | (d', c) :: rest => if (d' =? d)%Z then Some c else loc rest d
  end.

(** [df.index.get_loc(date)] *)
Fixpoint get_loc (df : frame) (d : Z) : option nat :=
  match df with
  | [] => None
  | (d', _) :: rest =>
      if (d' =? d)%Z then Some O
      else match get_loc rest d with Some i => Some (S i) | None => None end
  end.

(** [xs[i]] with Python's negative positions. *)
Definition index {A} (xs : list A) (i : Z) : option A :=
  let n := Py.len xs in
  if ((0 <=? i) && (i <? n))%Z then nth_error xs (Z.to_nat i)
  else if ((- n <=? i) && (i <? 0))%Z then nth_error xs (Z.to_nat (i + n))
  else None.

Fixpoint insert_date (d : Z) (ds : list Z) : list Z :=
  match ds with
  | [] => [d]
  | e :: rest =>
      if (d <? e)%Z then d :: ds
      else if (d =? e)%Z then ds
      else e :: insert_date d rest
  end.

(** [sorted(list(all_dates))] for the union of the frames' indexes. *)
Definition all_dates (data : Dict.t frame) : list Z :=
  fold_left (fun acc sf => fold_left (fun a r => insert_date (fst r) a) (snd sf) acc)
            data [].

Definition initial_results (params : Params.t) : results :=
  {| trades := [];
     positions := [];
     portfolio_value := [];
     cash := Params.initial_capital params;
     total_value := Params.initial_capital params;
     dates := [] |}.

(** "Update portfolio value" *)
Definition mark_to_market (data : Dict.t frame) (d : Z) (r : results)
    : results :=
  let portfolio_value :=
    fold_left
      (fun pv sp =>
         match Dict.lookup (fst sp) data with
         | Some df =>
             match loc df d with
             | Some current_price => pv + Position.quantity (snd sp) * current_price
             | None => pv
             end
         | None => pv
         end)
      (positions r) (cash r) in
  {| trades := trades r;
     positions := positions r;
     portfolio_value := PolygonBacktestingEngine.portfolio_value r ++ [portfolio_value];
     cash := cash r;
     total_value := portfolio_value;
     dates := dates r ++ [d] |}.

(** The exit of one held symbol ("Check holding period"). *)
Definition exit_symbol (data : Dict.t frame) (params : Params.t)
    (cfg : config) (d : Z) (r : results) (sym : string) : results :=
  match Dict.lookup sym (positions r), Dict.lookup sym data with
  | Some position, Some df =>
      match loc df d with
      | Some current_price =>
          let days_held := (d - Position.entry_date position)%Z in
          if (holding_period cfg <=? days_held)%Z then
            let exit_value :=
              Position.quantity position * current_price
              * (1 - Params.commission params) in
            let trade :=
              {| Trade.symbol := sym;
                 Trade.entry_date := Position.entry_date position;
                 Trade.exit_date := d;
                 Trade.entry_price := Position.entry_price position;
                 Trade.exit_price := current_price;
                 Trade.quantity := Position.quantity position;
                 Trade.pnl := exit_value - Position.cost position;
                 Trade.pnl_pct :=
                   fdiv (exit_value - Position.cost position)
                        (Position.cost position) |} in
            {| trades := trades r ++ [trade];
               positions := Dict.remove sym (positions r);
               portfolio_value := portfolio_value r;
               cash := cash r + exit_value;
               total_value := total_value r;
               dates := dates r |}
          else r
      | None => r
      end
  | _, _ => r
  end.

(** "Check for exit signals": over [list(results['positions'].keys())]. *)
Definition exits (data : Dict.t frame) (params : Params.t)
    (cfg : config) (d : Z) (r : results) : results :=
  fold_left (exit_symbol data params cfg d) (map fst (positions r)) r.

(** "Calculate momentum": the candidate a symbol contributes, if any. *)
Definition momentum_candidate (cfg : config) (d : Z) (r : results)
    (sf : string * frame) : option candidate :=
  let '(sym, df) := sf in
  match Dict.lookup sym (positions r), loc df d, get_loc df d with
  | None, Some close, Some i =>
      if (lookback_period cfg <=? List.length df)%nat then
        match index df (Z.of_nat i - Z.of_nat (lookback_period cfg)) with
        | Some (_, lookback_close) =>
            let momentum := fdiv (close - lookback_close) lookback_close in
            if xgtb momentum (Fin (momentum_threshold cfg)) then
              Some {| c_symbol := sym; c_momentum := momentum; c_price := close |}
            else None
        | None => None
        end
      else None
  | _, _, _ => None
  end.

Fixpoint candidates (cfg : config) (d : Z) (r : results)
    (data : Dict.t frame) : list candidate :=
  match data with
  | [] => []
  | sf :: rest =>
      match momentum_candidate cfg d r sf with
      | Some c => c :: candidates cfg d r rest
      | None => candidates cfg d r rest
      end
  end.

Fixpoint insert_desc (c : candidate) (l : list candidate) : list candidate :=
  match l with
  | [] => [c]
  | e :: rest =>
      if xltb (c_momentum c) (c_momentum e) then e :: insert_desc c rest
      else c :: l
  end.

(** [candidates.sort(key=momentum, reverse=True)]: stable, descending. *)
Definition sort_desc (l : list candidate) : list candidate :=
  fold_right insert_desc [] l.

(** The entry of one candidate ("Calculate position size").  On a zero
    price the quotient is infinite or [nan]; then [quantity > 0] or
    [cost <= cash] is false and nothing is bought. *)
Definition enter (params : Params.t) (d : Z) (r : results) (c : candidate)
    : results :=
  let price := c_price c in
  let position_value := cash r * Params.position_size params in
  if Qeq_bool price 0 then r
  else
    let quantity := position_value / price in
    if Py.Qgtb quantity 0 then
      let cost := quantity * price * (1 + Params.commission params) in
      if Qle_bool cost (cash r) then
        {| trades := trades r;
           positions :=
             Dict.insert (c_symbol c)
               {| Position.quantity := quantity;
                  Position.entry_price := price;
                  Position.entry_date := d;
                  Position.cost := cost |}
               (positions r);
           portfolio_value := portfolio_value r;
           cash := cash r - cost;
           total_value := total_value r;
           dates := dates r |}
      else r
    else r.

(** "Check for entry signals" *)
Definition entries (data : Dict.t frame) (params : Params.t)
    (cfg : config) (d : Z) (r : results) : results :=
  if (Py.len (positions r) <? Params.max_positions params)%Z then
    let cs := sort_desc (candidates cfg d r data) in
    let room := (Params.max_positions params - Py.len (positions r))%Z in
    fold_left (enter params d) (firstn (Z.to_nat room) cs) r
  else r.

(** The body of the loop over [all_dates]. *)
Definition step (data : Dict.t frame) (params : Params.t)
    (cfg : config) (r : results) (d : Z) : results :=
  entries data params cfg d (exits data params cfg d (mark_to_market data d r)).

(** The ledger after each simulated date, in order. *)
Fixpoint run_states (data : Dict.t frame) (params : Params.t)
    (cfg : config) (r : results) (ds : list Z) : list results :=
  match ds with
  | [] => []
  | d :: rest =>
      let r' := step data params cfg r d in
      r' :: run_states data params cfg r' rest
  end.

Definition _run_momentum_strategy (data : Dict.t frame)
    (params : Params.t) (cfg : config) : results :=
  fold_left (step data params cfg) (all_dates data) (initial_results params).

(** The specification's net P&L of a trade, with both commissions. *)
Definition spec_net_pnl (params : Params.t) (t : Trade.t) : Q :=
  (Trade.exit_price t - Trade.entry_price t) * Trade.quantity t
  - Trade.entry_price t * Trade.quantity t * Params.commission params
  - Trade.exit_price t * Trade.quantity t * Params.commission params.

(** No negative closing price in any frame. *)
Definition nonnegative_closes (data : Dict.t frame) : Prop :=
  Forall (fun sf => Forall (fun row => 0 <= snd row) (snd sf)) data.

(** The ledger property behind the P&L of a trade: a held position's cost
    is its quantity at the entry price plus the entry commission, and
    every recorded trade has the specification's net P&L. *)
Definition pnl_invariant (params : Params.t) (r : results) : Prop :=
  Forall (fun sp =>
            Position.cost (snd sp)
            == Position.quantity (snd sp) * Position.entry_price (snd sp)
               * (1 + Params.commission params))
         (positions r) /\
  Forall (fun t => Trade.pnl t == spec_net_pnl params t) (trades r).

(** The specification's three-bar scenario: closes 100, 110, 121 for
    [TEST], look-back 1, threshold 0.05. *)
Definition scenario_data : Dict.t frame :=
  [ ("TEST"%string, [ (0%Z, 100); (1%Z, 110); (2%Z, 121) ]) ].


(** Two ledgers with the same recorded curve. *)
Definition same_record (a b : results) : Prop :=
  portfolio_value a = portfolio_value b /\ dates a = dates b /\
  total_value a = total_value b.

(** The cost basis of the open positions and the realised P&L. *)
Definition open_cost (r : results) : Q :=
  fold_right Qplus 0 (map (fun sp => Position.cost (snd sp)) (positions r)).

Definition realised_pnl (r : results) : Q :=
  fold_right Qplus 0 (map Trade.pnl (trades r)).

(** The books balance: cash plus the cost of what is held is the initial
    capital plus the realised P&L. *)
Definition balanced (params : Params.t) (r : results) : Prop :=
  cash r + open_cost r == Params.initial_capital params + realised_pnl r.

(** A balanced ledger with one position per symbol. *)
Definition ledger_ok (params : Params.t) (r : results) : Prop :=
  balanced params r /\ NoDup (map fst (positions r)).

(** Every recorded trade lasted at least the holding period. *)
Definition held_long_enough (cfg : config) (r : results) : Prop :=
  Forall (fun t => (holding_period cfg
                    <= Trade.exit_date t - Trade.entry_date t)%Z)
         (trades r).

(** The scenario with a holding period of one day, so that the position
    bought on the second bar is sold on the third. *)
Definition one_day_config : config :=
  {| lookback_period := 1; momentum_threshold := 5 # 100; holding_period := 1 |}.

(** The ledger property behind a non-negative cash: the cash is not
    negative and no held quantity is. *)
Definition cash_invariant (r : results) : Prop :=
  0 <= cash r /\
  Forall (fun sp => 0 <= Position.quantity (snd sp)) (positions r).

(** *** The mean-reversion strategy *)

(** [config['parameters']] of the mean-reversion strategy, with the
    defaults of the [get] calls. *)
Record reversion_config := {
  rsi_period : Z;
  oversold_threshold : Q;
  overbought_threshold : Q;
  rv_holding_period : Z
}.

Definition mean_reversion_template : reversion_config :=
  {| rsi_period := 14; oversold_threshold := 30; overbought_threshold := 70;
     rv_holding_period := 10 |}.

(** The purchase of [sym] at [price] ("Calculate position size"), as in
    the momentum strategy. *)
Definition buy (params : Params.t) (d : Z) (r : results) (sym : string)
    (price : Q) : results :=
  let position_value := cash r * Params.position_size params in
  if Qeq_bool price 0 then r
  else
    let quantity := position_value / price in
    if Py.Qgtb quantity 0 then
      let cost := quantity * price * (1 + Params.commission params) in
      if Qle_bool cost (cash r) then
        {| trades := trades r;
           positions :=
             Dict.insert sym
               {| Position.quantity := quantity;
                  Position.entry_price := price;
                  Position.entry_date := d;
                  Position.cost := cost |}
               (positions r);
           portfolio_value := portfolio_value r;
           cash := cash r - cost;
           total_value := total_value r;
           dates := dates r |}
      else r
    else r.

Section MeanReversion.

(** The ['rsi'] column of the frames: [rsi sym d] is
    [data[sym].loc[d, 'rsi']], a float that is [nan] on the first rows. *)
Variable rsi : string -> Z -> xfloat.

(** The exit of one held symbol ("Check exit conditions"). *)
Definition reversion_exit_symbol (data : Dict.t frame) (params : Params.t)
    (cfg : reversion_config) (d : Z) (r : results) (sym : string) : results :=
  match Dict.lookup sym (positions r), Dict.lookup sym data with
  | Some position, Some df =>
      match loc df d with
      | Some current_price =>
          let days_held := (d - Position.entry_date position)%Z in
          if (rv_holding_period cfg <=? days_held)%Z
             || xgtb (rsi sym d) (Fin (overbought_threshold cfg)) then
            let exit_value :=
              Position.quantity position * current_price
              * (1 - Params.commission params) in
            let trade :=
              {| Trade.symbol := sym;
                 Trade.entry_date := Position.entry_date position;
                 Trade.exit_date := d;
                 Trade.entry_price := Position.entry_price position;
                 Trade.exit_price := current_price;
                 Trade.quantity := Position.quantity position;
                 Trade.pnl := exit_value - Position.cost position;
                 Trade.pnl_pct :=
                   fdiv (exit_value - Position.cost position)
                        (Position.cost position) |} in
            {| trades := trades r ++ [trade];
               positions := Dict.remove sym (positions r);
               portfolio_value := portfolio_value r;
               cash := cash r + exit_value;
               total_value := total_value r;
               dates := dates r |}
          else r
      | None => r
      end
  | _, _ => r
  end.

Definition reversion_exits (data : Dict.t frame) (params : Params.t)
    (cfg : reversion_config) (d : Z) (r : results) : results :=
  fold_left (reversion_exit_symbol data params cfg d)
            (map fst (positions r)) r.

(** The body of the loop over [data.items()] ("Check for entry signals"). *)
Definition reversion_enter (params : Params.t) (cfg : reversion_config)
    (d : Z) (r : results) (sf : string * frame) : results :=
  let '(sym, df) := sf in
  match Dict.lookup sym (positions r), loc df d with
  | None, Some price =>
      if xltb (rsi sym d) (Fin (oversold_threshold cfg))
      then buy params d r sym price
      else r
  | _, _ => r
  end.

(** The number of positions is compared with [max_positions] once, before
    the loop over the symbols. *)
Definition reversion_entries (data : Dict.t frame) (params : Params.t)
    (cfg : reversion_config) (d : Z) (r : results) : results :=
  if (Py.len (positions r) <? Params.max_positions params)%Z
  then fold_left (reversion_enter params cfg d) data r
  else r.

Definition reversion_step (data : Dict.t frame) (params : Params.t)
    (cfg : reversion_config) (r : results) (d : Z) : results :=
  reversion_entries data params cfg d
    (reversion_exits data params cfg d (mark_to_market data d r)).

(** The ledger after each simulated date, in order. *)
Fixpoint reversion_run_states (data : Dict.t frame) (params : Params.t)
    (cfg : reversion_config) (r : results) (ds : list Z) : list results :=
  match ds with
  | [] => []
  | d :: rest =>
      let r' := reversion_step data params cfg r d in
      r' :: reversion_run_states data params cfg r' rest
  end.

Definition _run_mean_reversion_strategy (data : Dict.t frame)
    (params : Params.t) (cfg : reversion_config) : results :=
  fold_left (reversion_step data params cfg) (all_dates data)
            (initial_results params).

(** Every recorded trade left on its holding period or on an overbought
    RSI. *)
Definition exit_rule (cfg : reversion_config) (r : results) : Prop :=
  Forall (fun t =>
            (rv_holding_period cfg
             <= Trade.exit_date t - Trade.entry_date t)%Z
            \/ xgtb (rsi (Trade.symbol t) (Trade.exit_date t))
                    (Fin (overbought_threshold cfg)) = true)
         (trades r).

End MeanReversion.

(** An RSI column for the three-bar scenario: oversold on the first bar,
    overbought on the second. *)
Definition scenario_rsi (sym : string) (d : Z) : xfloat :=
  if (d =? 0)%Z then Fin 25 else if (d =? 1)%Z then Fin 75 else NaN.

End PolygonBacktestingEngine.

(** ** The result validators

    backtest_validator.py and backtest_validation_framework.py declare
    the same data classes, the same reference table and the same
    known-data-point check; they differ in thresholds, tolerances and in
    the categories they aggregate. *)

Module Validation.

Import Series.

Inductive issue : Type :=
| NoTradesToValidate
| PnlMismatch (i : Z) (expected actual : Q)
| NoPortfolioValues
| PortfolioValueMismatch (i : Z) (expected actual : Q)
| NoTradesForPerformance
| TotalTradesMismatch (expected actual : Z)
| WinningTradesMismatch (expected actual : Z)
| TotalPnlMismatch (expected actual : Q).

(** The dict a sub-check returns. *)
Record check := {
  check_score : Q;
  check_total : option Z;
  check_correct : option Z;
  issues : list issue
}.

Record details := {
  performance_metrics : option check;
  trade_analysis : option check;
  portfolio_calculations : option check;
  risk_metrics : option check
}.

Definition empty_details : details :=
  {| performance_metrics := None; trade_analysis := None;
     portfolio_calculations := None; risk_metrics := None |}.

Record ValidationResult := {
  test_name : string;
  passed : bool;
  score : Q;
  result_details : details;
  error_message : option string;
  recommendations : list string
}.

Record AccuracyMetrics := {
  data_accuracy : Q;
  calculation_accuracy : Q;
  strategy_accuracy : Q;
  overall_accuracy : Q;
  confidence_level : Q;
  validation_score : Q
}.

Record thresholds := {
  data_quality : Q;
  th_calculation_accuracy : Q;
  strategy_consistency : Q;
  th_overall_accuracy : Q;
  min_trades : Z;
  max_data_gaps : Q;
  price_tolerance : Q;
  volume_tolerance : Q
}.

(** An entry of the reference table. *)
Record known_point := {
  kp_open : Q;
  kp_close : Q;
  kp_volume : Q
}.

(** [self.validation_data]: symbol -> date string -> reference values. *)
Definition validation_data : Dict.t (Dict.t known_point) :=
  [ ("AAPL"%string,
      [ ("2021-01-04"%string,
          {| kp_open := 13352 # 100; kp_close := 12941 # 100; kp_volume := 1433019 |});
        ("2021-12-31"%string,
          {| kp_open := 17809 # 100; kp_close := 17757 # 100; kp_volume := 1051585 |});
        ("2022-01-03"%string,
          {| kp_open := 17783 # 100; kp_close := 18201 # 100; kp_volume := 1044879 |}) ]);
    ("MSFT"%string,
      [ ("2021-01-04"%string,
          {| kp_open := 22242 # 100; kp_close := 21769 # 100; kp_volume := 37130100 |});
        ("2021-12-31"%string,
          {| kp_open := 33632 # 100; kp_close := 33469 # 100; kp_volume := 21113900 |});
        ("2022-01-03"%string,
          {| kp_open := 33469 # 100; kp_close := 33678 # 100; kp_volume := 25892900 |}) ]) ].

(** A row of a price frame. *)
Record bar := {
  Open : Q;
  High : Q;
  Low : Q;
  Close : Q;
  Volume : Q
}.

(** A price frame: the index label of each row (the date that
    [pd.to_datetime] makes of a date string) and the row. *)
Definition frame := list (string * bar).

(** The rows of [df] labelled [d]. *)
Definition rows_at (df : frame) (d : string) : list bar :=
  map snd (filter (fun r => String.eqb (fst r) d) df).

(** "Check with tolerance" on one row. *)
Definition within_tolerance (th : thresholds) (row : bar)
    (expected_data : known_point) : bool :=
  let open_tolerance :=
    fdiv (Qabs (Open row - kp_open expected_data)) (kp_open expected_data) in
  let close_tolerance :=
    fdiv (Qabs (Close row - kp_close expected_data)) (kp_close expected_data) in
  let volume_tolerance :=
    fdiv (Qabs (Volume row - kp_volume expected_data)) (kp_volume expected_data) in
  xleb open_tolerance (Fin (price_tolerance th))
  && xleb close_tolerance (Fin (price_tolerance th))
  && xleb volume_tolerance (Fin (Validation.volume_tolerance th)).

(** The body of the loop over the known points: whether the point is
    counted.  With a date that labels several rows [df.loc] is a frame,
    the condition raises and the [except] clause leaves the count alone. *)
Definition point_correct (th : thresholds) (df : frame)
    (p : string * known_point) : bool :=
  match rows_at df (fst p) with
  | [row] => within_tolerance th row (snd p)
  | _ => false
  end.

Definition _validate_known_data_points (th : thresholds) (sym : string)
    (df : frame) : Q :=
  match Dict.lookup sym validation_data with
  | None => 1
  | Some known_points =>
      let correct_points := Py.count (point_correct th df) known_points in
      let total_points := Py.len known_points in
      if (0 <? total_points)%Z
      then inject_Z correct_points / inject_Z total_points
      else 1
  end.

(** A trade as the validators read it. *)
Record trade := {
  entry_price : Q;
  exit_price : Q;
  quantity : Q;
  pnl : Q
}.

(** [backtest_results['performance']] with the keys the validators read. *)
Record performance := {
  total_trades : option Z;
  winning_trades : option Z;
  total_pnl : option Q
}.

(** The [backtest_results] dict; [None] is an absent key. *)
Record backtest_results := {
  br_trades : option (list trade);
  br_portfolio_value : option (list Q);
  br_performance : option performance
}.

Inductive exn : Type :=
| IndexError.

Definition get {A} (o : option A) (default : A) : A :=
  match o with
  | Some v => v
  | None => default
  end.

(** [abs(expected - actual) / abs(expected) if expected != 0 else 0] *)
Definition relative_error (expected actual : Q) : Q :=
  if negb (Qeq_bool expected 0)
  then Qabs (expected - actual) / Qabs expected
  else 0.

Fixpoint enumerate_from {A} (i : Z) (xs : list A) : list (Z * A) :=
  match xs with
  | [] => []
  | x :: r => (i, x) :: enumerate_from (i + 1)%Z r
  end.

Section Checks.

(** The two files differ in the expected P&L of a trade and in the
    tolerance of each comparison. *)
Variable expected_trade_pnl : trade -> Q.
Variable tolerance : Q.

Definition trade_ok (t : trade) : bool :=
  Qle_bool (relative_error (expected_trade_pnl t) (pnl t)) tolerance.

Definition _validate_trade_calculations (trades : list trade) : check :=
  match trades with
  | [] => {| check_score := 0; check_total := None; check_correct := None;
             issues := [NoTradesToValidate] |}
  | _ =>
      let correct_trades := Py.count trade_ok trades in
      {| check_score := inject_Z correct_trades / inject_Z (Py.len trades);
         check_total := Some (Py.len trades);
         check_correct := Some correct_trades;
         issues :=
           map (fun it => PnlMismatch (fst it) (expected_trade_pnl (snd it))
                                      (pnl (snd it)))
               (filter (fun it => negb (trade_ok (snd it)))
                       (enumerate_from 0 trades)) |}
  end.

(** "Recalculate portfolio values from trades" *)
Fixpoint calculated_values (current_value : Q) (trades : list trade) : list Q :=
  match trades with
  | [] => []
  | t :: r =>
      let current_value := current_value + pnl t in
      current_value :: calculated_values current_value r
  end.

Definition value_ok (cp : Q * Q) : bool :=
  xleb (fdiv (Qabs (fst cp - snd cp)) (snd cp)) (Fin tolerance).

Definition _validate_portfolio_calculations (trades : list trade)
    (portfolio_values : list Q) (initial_capital : Q) : check :=
  match portfolio_values with
  | [] => {| check_score := 0; check_total := None; check_correct := None;
             issues := [NoPortfolioValues] |}
  | _ =>
      let calculated := initial_capital :: calculated_values initial_capital trades in
      let pairs := zip_with pair calculated portfolio_values in
      let min_length := Py.len pairs in
      let correct_values := Py.count value_ok pairs in
      {| check_score :=
           if (0 <? min_length)%Z
           then inject_Z correct_values / inject_Z min_length else 0;
         check_total := Some min_length;
         check_correct := Some correct_values;
         issues :=
           map (fun ip => PortfolioValueMismatch (fst ip) (fst (snd ip))
                                                 (snd (snd ip)))
               (filter (fun ip => negb (value_ok (snd ip)))
                       (enumerate_from 0 pairs)) |}
  end.

Definition _validate_performance_metrics (results : backtest_results) : check :=
  let perf :=
    get (br_performance results)
        {| total_trades := None; winning_trades := None; total_pnl := None |} in
  let trades := get (br_trades results) [] in
  match trades with
  | [] => {| check_score := 0; check_total := None; check_correct := None;
             issues := [NoTradesForPerformance] |}
  | _ =>
      let expected_total_trades := Py.len trades in
      let actual_total_trades := get (total_trades perf) 0%Z in
      let ok1 := (expected_total_trades =? actual_total_trades)%Z in
      let expected_winning_trades :=
        Py.count (fun t => Py.Qgtb (pnl t) 0) trades in
      let actual_winning_trades := get (winning_trades perf) 0%Z in
      let ok2 := (expected_winning_trades =? actual_winning_trades)%Z in
      let expected_total_pnl := Py.sum (map pnl trades) in
      let actual_total_pnl := get (total_pnl perf) 0 in
      let ok3 :=
        Qle_bool (relative_error expected_total_pnl actual_total_pnl) tolerance in
      let correct_metrics :=
        ((if ok1 then 1 else 0) + (if ok2 then 1 else 0)
         + (if ok3 then 1 else 0))%Z in
      {| check_score := inject_Z correct_metrics / 3;
         check_total := Some 3%Z;
         check_correct := Some correct_metrics;
         issues :=
           (if ok1 then []
            else [TotalTradesMismatch expected_total_trades actual_total_trades])
           ++ (if ok2 then []
               else [WinningTradesMismatch expected_winning_trades
                                           actual_winning_trades])
           ++ (if ok3 then []
               else [TotalPnlMismatch expected_total_pnl actual_total_pnl]) |}
  end.

End Checks.

(** The reference values of AAPL on 2021-01-04. *)
Definition aapl_2021_01_04 : known_point :=
  {| kp_open := 13352 # 100; kp_close := 12941 # 100; kp_volume := 1433019 |}.

(** A row that carries exactly these reference values. *)
Definition aapl_reference_row : bar :=
  {| Open := 13352 # 100; High := 13499 # 100; Low := 12947 # 100;
     Close := 12941 # 100; Volume := 1433019 |}.

Definition aapl_2021_12_31 : known_point :=
  {| kp_open := 17809 # 100; kp_close := 17757 # 100; kp_volume := 1051585 |}.

Definition aapl_2022_01_03 : known_point :=
  {| kp_open := 17783 # 100; kp_close := 18201 # 100; kp_volume := 1044879 |}.

(** The AAPL entries of the reference table. *)
Definition aapl_points : Dict.t known_point :=
  [ ("2021-01-04"%string, aapl_2021_01_04);
    ("2021-12-31"%string, aapl_2021_12_31);
    ("2022-01-03"%string, aapl_2022_01_03) ].

(** The AAPL sample frame of [main()] in backtest_validator.py. *)
Definition sample_data : frame :=
  [ ("2021-01-04"%string, aapl_reference_row);
    ("2021-01-05"%string,
      {| Open := 12941 # 100; High := 13174 # 100; Low := 12743 # 100;
         Close := 13092 # 100; Volume := 1009765 |});
    ("2021-01-06"%string,
      {| Open := 13092 # 100; High := 13205 # 100; Low := 12872 # 100;
         Close := 13196 # 100; Volume := 1087139 |}) ].

(** The row with its close multiplied by [f]. *)
Definition perturb_close (f : Q) (row : bar) : bar :=
  {| Open := Open row; High := High row; Low := Low row;
     Close := Close row * f; Volume := Volume row |}.

(** A validation result of a given score, the other fields being those
    of a result without error. *)
Definition result_with_score (name : string) (s : Q) (ok : bool)
    : ValidationResult :=
  {| test_name := name; passed := ok; score := s;
     result_details := empty_details; error_message := None;
     recommendations := [] |}.

End Validation.

(** What a call does: it returns a value or raises. *)
Inductive outcome (A : Type) : Type :=
| Returns (a : A)
| Raises (e : Validation.exn).

Arguments Returns {A} a.
Arguments Raises {A} e.

(** ** backtest_validator.py: BacktestValidator *)

Module BacktestValidator.

Import Validation.

Definition thresholds : Validation.thresholds :=
  {| data_quality := 70 # 100;
     th_calculation_accuracy := 60 # 100;
     strategy_consistency := 80 # 100;
     th_overall_accuracy := 75 # 100;
     min_trades := 10;
     max_data_gaps := 5 # 100;
     price_tolerance := 1 # 1000;
     volume_tolerance := 10 # 100 |}.

Definition _validate_known_data_points (sym : string) (df : frame) : Q :=
  Validation._validate_known_data_points thresholds sym df.

(** "Calculate expected P&L (including commission)" *)
Definition expected_pnl (t : trade) : Q :=
  let entry_cost := entry_price t * quantity t * (1 + (1 # 1000)) in
  let exit_value := exit_price t * quantity t * (1 - (1 # 1000)) in
  exit_value - entry_cost.

Definition tolerance : Q := 5 # 100.

Definition validate_calculations (results : backtest_results)
    : outcome ValidationResult :=
  let trades := get (br_trades results) [] in
  let portfolio_values := get (br_portfolio_value results) [] in
  match get (br_portfolio_value results) [100000] with
  | [] => Raises IndexError
  | initial_capital :: _ =>
      match trades with
      | [] =>
          Returns {| test_name := "Calculation Validation";
                     passed := false;
                     score := 0;
                     result_details := empty_details;
                     error_message := Some "No trades to validate"%string;
                     recommendations :=
                       [ "Ensure strategy generates trades"%string;
                         "Check strategy parameters"%string ] |}
      | _ =>
          let trade_validation :=
            _validate_trade_calculations expected_pnl tolerance trades in
          let portfolio_validation :=
            _validate_portfolio_calculations tolerance trades portfolio_values
                                             initial_capital in
          let performance_validation :=
            _validate_performance_metrics tolerance results in
          let scores :=
            [ check_score trade_validation;
              check_score portfolio_validation;
              check_score performance_validation ] in
          let overall_score := Py.mean scores in
          let below :=
            Py.Qltb overall_score (th_calculation_accuracy thresholds) in
          Returns {| test_name := "Calculation Validation";
                     passed :=
                       Py.Qgeb overall_score (th_calculation_accuracy thresholds);
                     score := overall_score;
                     result_details :=
                       {| performance_metrics := Some performance_validation;
                          trade_analysis := Some trade_validation;
                          portfolio_calculations := Some portfolio_validation;
                          risk_metrics := None |};
                     error_message := None;
                     recommendations :=
                       if below then
                         [ "Calculation accuracy below threshold"%string;
                           "Review trade P&L calculations"%string;
                           "Verify portfolio value calculations"%string ]
                       else [] |}
      end
  end.

(** [_calculate_accuracy_metrics] reads the data and the calculation
    results; this validator has no strategy check. *)
Definition _calculate_accuracy_metrics
    (data_validation calculation_validation : ValidationResult)
    : AccuracyMetrics :=
  let data_accuracy := score data_validation in
  let calculation_accuracy := score calculation_validation in
  let overall_accuracy := (data_accuracy + calculation_accuracy) / 2 in
  let confidence_level := Qmin 1 (overall_accuracy * (11 # 10)) in
  let validation_score :=
    data_accuracy * (4 # 10) + calculation_accuracy * (6 # 10) in
  {| data_accuracy := data_accuracy;
     calculation_accuracy := calculation_accuracy;
     strategy_accuracy := 1;
     overall_accuracy := overall_accuracy;
     confidence_level := confidence_level;
     validation_score := validation_score |}.

End BacktestValidator.

(** ** backtest_validation_framework.py: BacktestValidator *)

Module ValidationFramework.

Import Validation.

Definition thresholds : Validation.thresholds :=
  {| data_quality := 95 # 100;
     th_calculation_accuracy := 99 # 100;
     strategy_consistency := 90 # 100;
     th_overall_accuracy := 95 # 100;
     min_trades := 10;
     max_data_gaps := 5 # 100;
     price_tolerance := 1 # 1000;
     volume_tolerance := 10 # 100 |}.

Definition _validate_known_data_points (sym : string) (df : frame) : Q :=
  Validation._validate_known_data_points thresholds sym df.

(** "Calculate expected P&L" *)
Definition expected_pnl (t : trade) : Q :=
  (exit_price t - entry_price t) * quantity t.

Definition tolerance : Q := 1 # 1000.

Section Calculations.

(** [_validate_risk_metrics]: a sanity check of the volatility and of the
    drawdown of the reported curve.  Its statistics (sample standard
    deviation, square root) are numpy's; the check is a parameter here. *)
Variable _validate_risk_metrics : list Q -> check.

Definition validate_calculations (results : backtest_results)
    : outcome ValidationResult :=
  let trades := get (br_trades results) [] in
  let portfolio_values := get (br_portfolio_value results) [] in
  match get (br_portfolio_value results) [100000] with
  | [] => Raises IndexError
  | initial_capital :: _ =>
      match trades with
      | [] =>
          Returns {| test_name := "Calculation Validation";
                     passed := false;
                     score := 0;
                     result_details := empty_details;
                     error_message := Some "No trades to validate"%string;
                     recommendations :=
                       [ "Ensure strategy generates trades"%string;
                         "Check strategy parameters"%string ] |}
      | _ =>
          let trade_validation :=
            _validate_trade_calculations expected_pnl tolerance trades in
          let portfolio_validation :=
            _validate_portfolio_calculations tolerance trades portfolio_values
                                             initial_capital in
          let performance_validation :=
            _validate_performance_metrics tolerance results in
          let risk_validation := _validate_risk_metrics portfolio_values in
          let scores :=
            [ check_score trade_validation;
              check_score portfolio_validation;
              check_score performance_validation;
              check_score risk_validation ] in
          let overall_score := Py.mean scores in
          let below :=
            Py.Qltb overall_score (th_calculation_accuracy thresholds) in
          Returns {| test_name := "Calculation Validation";
                     passed :=
                       Py.Qgeb overall_score (th_calculation_accuracy thresholds);
                     score := overall_score;
                     result_details :=
                       {| performance_metrics := Some performance_validation;
                          trade_analysis := Some trade_validation;
                          portfolio_calculations := Some portfolio_validation;
                          risk_metrics := Some risk_validation |};
                     error_message := None;
                     recommendations :=
                       if below then
                         [ "Calculation accuracy below threshold"%string;
                           "Review trade P&L calculations"%string;
                           "Verify portfolio value calculations"%string;
                           "Check performance metric calculations"%string ]
                       else [] |}
      end
  end.

End Calculations.

Definition _calculate_accuracy_metrics
    (data_validation calculation_validation strategy_validation
       : ValidationResult) : AccuracyMetrics :=
  let data_accuracy := score data_validation in
  let calculation_accuracy := score calculation_validation in
  let strategy_accuracy := score strategy_validation in
  let overall_accuracy :=
    (data_accuracy + calculation_accuracy + strategy_accuracy) / 3 in
  let confidence_level := Qmin 1 (overall_accuracy * (11 # 10)) in
  let validation_score :=
    data_accuracy * (3 # 10) + calculation_accuracy * (4 # 10)
    + strategy_accuracy * (3 # 10) in
  {| data_accuracy := data_accuracy;
     calculation_accuracy := calculation_accuracy;
     strategy_accuracy := strategy_accuracy;
     overall_accuracy := overall_accuracy;
     confidence_level := confidence_level;
     validation_score := validation_score |}.

End ValidationFramework.

(** The entries of a trade of the Polygon engine that the validators
    read. *)
Definition validator_trade (t : PolygonBacktestingEngine.Trade.t)
    : Validation.trade :=
  {| Validation.entry_price := PolygonBacktestingEngine.Trade.entry_price t;
     Validation.exit_price := PolygonBacktestingEngine.Trade.exit_price t;
     Validation.quantity := PolygonBacktestingEngine.Trade.quantity t;
     Validation.pnl := PolygonBacktestingEngine.Trade.pnl t |}.

(** What [run_backtest] hands to [run_comprehensive_validation]: the
    ledger of the strategy run, which has no ['performance'] entry. *)
Definition validator_results (r : PolygonBacktestingEngine.results)
    : Validation.backtest_results :=
  {| Validation.br_trades :=
       Some (map validator_trade (PolygonBacktestingEngine.trades r));
     Validation.br_portfolio_value :=
       Some (PolygonBacktestingEngine.portfolio_value r);
     Validation.br_performance := None |}.

(** A round trip at positive prices, with a positive quantity and a price
    move, whose recorded P&L is net of a 0.1 % commission on each leg. *)
Definition commissioned_trade (t : Validation.trade) : Prop :=
  0 < Validation.entry_price t /\ 0 < Validation.exit_price t /\
  0 < Validation.quantity t /\
  ~ Validation.exit_price t == Validation.entry_price t /\
  Validation.pnl t == BacktestValidator.expected_pnl t.

(** The arithmetic mean of the three category scores of a report. *)
Definition mean_of_categories (m : Validation.AccuracyMetrics) : Q :=
  (Validation.data_accuracy m + Validation.calculation_accuracy m
   + Validation.strategy_accuracy m) / 3.

(** * Properties *)

(** ** Python primitives *)

Module PyFacts.

Lemma range_length (lo hi step : Z) (l : list Z) :
  Py.range lo hi step = Some l ->
  Py.len l = Z.max 0 (Py.range_len lo hi step).
Proof.
  unfold Py.range, Py.len. destruct (step =? 0)%Z; [discriminate|].
  intros [= <-]. rewrite length_map, length_seq. lia.
Qed.

(** With a positive step the range from 0 holds the multiples of the
    step strictly below the bound. *)
Lemma range_len_pos (hi step : Z) :
  (0 < step)%Z -> (0 < hi)%Z ->
  Py.range_len 0 hi step = ((hi - 1) / step + 1)%Z.
Proof.
  intros Hs Hh. unfold Py.range_len.
  destruct (Z.ltb_spec 0 step); [|lia].
  destruct (Z.ltb_spec 0 hi); [|lia].
  simpl. f_equal. f_equal. lia.
Qed.

Lemma range_len_empty (hi step : Z) :
  (0 < step)%Z -> (hi <= 0)%Z -> Py.range_len 0 hi step = 0%Z.
Proof.
  intros Hs Hh. unfold Py.range_len.
  destruct (Z.ltb_spec 0 step); [|lia].
  destruct (Z.ltb_spec 0 hi); [lia|].
  destruct (Z.ltb_spec step 0); [lia|]. reflexivity.
Qed.

Lemma range_In (hi step x : Z) (l : list Z) :
  (0 < step)%Z -> Py.range 0 hi step = Some l ->
  In x l <-> (exists k, (0 <= k)%Z /\ x = (k * step)%Z /\ (x < hi)%Z).
Proof.
  intros Hs. unfold Py.range.
  destruct (Z.eqb_spec step 0); [lia|]. intros [= <-].
  rewrite in_map_iff. split.
  - intros (k & <- & Hk). apply in_seq in Hk. exists (Z.of_nat k).
    split; [lia|]. split; [lia|].
    destruct (Z.le_gt_cases hi 0) as [Hh|Hh].
    + rewrite range_len_empty in Hk by lia. simpl in Hk. lia.
    + rewrite range_len_pos in Hk by lia.
      assert (Z.of_nat k <= (hi - 1) / step)%Z by lia.
      assert (step * ((hi - 1) / step) <= hi - 1)%Z
        by (apply Z.mul_div_le; lia).
      nia.
  - intros (k & Hk & -> & Hlt). exists (Z.to_nat k). split; [lia|].
    apply in_seq. split; [lia|]. simpl.
    assert (0 < hi)%Z by nia.
    rewrite range_len_pos by lia.
    assert (k <= (hi - 1) / step)%Z by (apply Z.div_le_lower_bound; nia).
    lia.
Qed.

(** On a non-negative number [int] is the floor. *)
Lemma int_floor (x : Q) : 0 <= x -> Py.int x = Qfloor x.
Proof.
  destruct x as [n d]. unfold Qle, Py.int, Qfloor. simpl. intros H.
  apply Z.quot_div_nonneg; lia.
Qed.

Lemma Qltb_lt (a b : Q) : Py.Qltb a b = true <-> a < b.
Proof.
  unfold Py.Qltb. rewrite negb_true_iff.
  destruct (Qle_bool b a) eqn:E.
  - apply Qle_bool_iff in E. split; [discriminate|]. intros H.
    exfalso. apply (Qlt_not_le _ _ H E).
  - split; [intros _|reflexivity]. apply Qnot_le_lt. intros H.
    apply Qle_bool_iff in H. congruence.
Qed.

Lemma Qgtb_gt (a b : Q) : Py.Qgtb a b = true <-> b < a.
Proof. apply Qltb_lt. Qed.

Example range_0_10_3 : Py.range 0 10 3 = Some [0; 3; 6; 9]%Z.
Proof. reflexivity. Qed.

Example range_excludes_bound : Py.range 0 9 3 = Some [0; 3; 6]%Z.
Proof. reflexivity. Qed.

Example int_truncates : Py.int (- (7 # 2)) = (-3)%Z /\ Py.int (7 # 2) = 3%Z.
Proof. split; reflexivity. Qed.

End PyFacts.

(** ** Dicts *)

Module DictFacts.

Lemma lookup_cons {A} (k k' : string) (v : A) (m : Dict.t A) :
  Dict.lookup k ((k', v) :: m) = if String.eqb k' k then Some v else Dict.lookup k m.
Proof. reflexivity. Qed.

Lemma lookup_In {A} (k : string) (m : Dict.t A) (v : A) :
  Dict.lookup k m = Some v -> exists k', In (k', v) m.
Proof.
  induction m as [|[k' v'] m IH]; simpl; [discriminate|].
  destruct (String.eqb k' k).
  - intros [= ->]. exists k'. left. reflexivity.
  - intros H. destruct (IH H) as [k'' Hin]. exists k''. right. exact Hin.
Qed.

Lemma Forall_remove {A} (P : string * A -> Prop) (k : string)
    (m : Dict.t A) :
  Forall P m -> Forall P (Dict.remove k m).
Proof.
  induction 1 as [|[k' v] m Hx _ IH]; simpl; [constructor|].
  destruct (String.eqb k' k); [exact IH|constructor; assumption].
Qed.

Lemma Forall_insert {A} (P : string * A -> Prop) (k : string) (v : A)
    (m : Dict.t A) :
  Forall P m -> P (k, v) -> Forall P (Dict.insert k v m).
Proof.
  intros H Hv. induction H as [|[k' v'] m Hx Hm IH]; simpl.
  - constructor; [exact Hv|constructor].
  - destruct (String.eqb k' k); constructor; assumption.
Qed.

End DictFacts.

(** ** Walk-forward windows *)

Module WalkForwardFacts.

Import WalkForward.

Section Windows.

Variables (row strategy test_results : Type).
Variable train : strategy -> list row -> strategy.
Variable backtest : strategy -> list row -> test_results.

Lemma fold_walk_step_length (self : analyzer) (data : list row)
    (starts : list Z) (acc : strategy * list (window test_results)) :
  List.length (snd (fold_left (walk_step train backtest self data) starts acc))
  = (List.length (snd acc) + List.length starts)%nat.
Proof.
  revert acc. induction starts as [|i starts IH]; intros [s ws]; simpl.
  - lia.
  - rewrite IH. simpl. rewrite length_app. simpl. lia.
Qed.

(** The loop produces one window for each start [0, step, 2 step, ...]
    that is strictly below [n - train - test]: their number is the
    quotient rounded up. *)
Lemma walk_forward_window_count (self : analyzer) (s : strategy)
    (data : list row) :
  (0 < step_size self)%Z ->
  exists ws,
    walk_forward_windows train backtest self s data = Some ws /\
    Py.len ws =
      let room := (Py.len data - train_period self - test_period self)%Z in
      if (0 <? room)%Z then ((room - 1) / step_size self + 1)%Z else 0%Z.
Proof.
  intros Hs. unfold walk_forward_windows.
  destruct (Py.range 0 _ (step_size self)) as [starts|] eqn:E.
  - eexists. split; [reflexivity|].
    unfold Py.len at 1. rewrite fold_walk_step_length. simpl.
    pose proof (PyFacts.range_length _ _ _ _ E) as L. unfold Py.len in L at 1.
    rewrite L. cbv zeta.
    destruct (Z.ltb_spec 0 (Py.len data - train_period self - test_period self)).
    + rewrite PyFacts.range_len_pos by lia.
      assert (0 <= (Py.len data - train_period self - test_period self - 1)
                   / step_size self)%Z by (apply Z.div_pos; lia).
      lia.
    + rewrite PyFacts.range_len_empty by lia. reflexivity.
  - unfold Py.range in E. destruct (Z.eqb_spec (step_size self) 0); [lia|discriminate].
Qed.

End Windows.

(** On 336 rows, one step beyond the exact fit, the starts 0 and 21 both
    fit the data; the loop visits only the first. *)
Example walk_forward_336_rows :
  option_map (map (fun w => (train_start w, test_end w)))
    (walk_forward_windows (fun (s : unit) (_ : list unit) => s)
       (fun (_ : unit) (l : list unit) => tt) default_analyzer tt
       (repeat tt 336))
  = Some [ (0%Z, 315%Z) ]
  /\ spec_window_count default_analyzer 336 = 2%Z.
Proof. split; reflexivity. Qed.

(** C3, at a frame of exactly [train_period + test_period] rows: the
    default analyzer (252 training rows, 63 test rows, step 21) run on any
    315 rows builds no window and returns the empty analysis, where the
    announced count floor((315 - 252 - 63) / 21) + 1 is 1. *)
Theorem C3_exact_fit_yields_no_window :
  forall (row strategy test_results : Type)
         (train : strategy -> list row -> strategy)
         (backtest : strategy -> list row -> test_results)
         (ptr : test_results -> option Q) (sqrt : Q -> Q)
         (s : strategy) (r : row),
    let data := repeat r 315 in
    walk_forward_windows train backtest default_analyzer s data = Some [] /\
    run_walk_forward train backtest ptr sqrt default_analyzer s data = None /\
    spec_window_count default_analyzer (Py.len data) = 1%Z.
Proof.
  intros. unfold run_walk_forward, walk_forward_windows.
  assert (L : Py.len data = 315%Z)
    by (unfold data, Py.len; rewrite repeat_length; reflexivity).
  rewrite L. split; [reflexivity|]. split; reflexivity.
Qed.

(** *** What the windows look like *)

Section Geometry.

Variables (row strategy test_results : Type).
Variable train : strategy -> list row -> strategy.
Variable backtest : strategy -> list row -> test_results.
Variable performance_total_return : test_results -> option Q.
Variable sqrt : Q -> Q.

Lemma fold_walk_step_Forall (P : window test_results -> Prop)
    (self : analyzer) (data : list row) (starts : list Z)
    (acc : strategy * list (window test_results)) :
  (forall start r, In start starts ->
     P {| train_start := start;
          train_end := (start + train_period self)%Z;
          test_start := (start + train_period self)%Z;
          test_end := (start + train_period self + test_period self)%Z;
          window_results := r |}) ->
  Forall P (snd acc) ->
  Forall P (snd (fold_left (walk_step train backtest self data) starts acc)).
Proof.
  revert acc. induction starts as [|i starts IH]; intros [s ws] Hnew Hacc; simpl.
  - exact Hacc.
  - apply IH.
    + intros start r Hin. apply Hnew. right. exact Hin.
    + simpl. apply Forall_app. split; [exact Hacc|].
      constructor; [|constructor]. apply Hnew. left. reflexivity.
Qed.

Lemma slice_length {A} (xs : list A) (a b : Z) :
  (0 <= a)%Z -> (a <= b)%Z -> (b <= Py.len xs)%Z ->
  Py.len (Py.slice xs a b) = (b - a)%Z.
Proof.
  unfold Py.len, Py.slice. intros Ha Hb Hl.
  rewrite length_firstn, length_skipn. lia.
Qed.

Lemma walk_forward_window_shapes (self : analyzer) (s : strategy)
    (data : list row) (ws : list (window test_results)) :
  (0 < step_size self)%Z ->
  walk_forward_windows train backtest self s data = Some ws ->
  Forall (window_shape self (Py.len data)) ws.
Proof.
  intros Hs. unfold walk_forward_windows.
  destruct (Py.range 0 _ (step_size self)) as [starts|] eqn:E; [|discriminate].
  intros [= <-]. apply fold_walk_step_Forall; [|constructor].
  intros start r Hin.
  apply (PyFacts.range_In _ _ start _ Hs E) in Hin.
  destruct Hin as (k & Hk & -> & Hlt).
  exists k. simpl. repeat split; try lia.
Qed.

(** X2: with a positive step and non-negative window lengths, every
    window of the walk-forward loop starts at a multiple of the step,
    trains on exactly [train_period] rows and tests on exactly
    [test_period] rows that begin where the training rows end, and its
    test range ends strictly before the last row of the data. *)
Theorem walk_forward_window_geometry (self : analyzer) (s : strategy)
    (data : list row) (ws : list (window test_results)) :
  (0 < step_size self)%Z ->
  (0 <= train_period self)%Z ->
  (0 <= test_period self)%Z ->
  walk_forward_windows train backtest self s data = Some ws ->
  Forall (fun w =>
            window_shape self (Py.len data) w /\
            Py.len (Py.slice data (train_start w) (train_end w))
            = train_period self /\
            Py.len (Py.slice data (test_start w) (test_end w))
            = test_period self)
         ws.
Proof.
  intros Hs Ht Hw Hws.
  pose proof (walk_forward_window_shapes self s data ws Hs Hws) as H.
  eapply Forall_impl; [|exact H].
  intros w Hshape. split; [exact Hshape|].
  destruct Hshape as (k & Hk & E1 & E2 & E3 & E4 & Hlt).
  assert (0 <= train_start w)%Z by nia.
  split; rewrite slice_length; lia.
Qed.


End Geometry.



Lemma walk_forward_window_geometry_witness :
  exists ws,
    walk_forward_windows (fun (s : unit) (_ : list unit) => s)
      (fun (_ : unit) (_ : list unit) => tt) default_analyzer tt
      (repeat tt 400) = Some ws /\
    Forall (fun w => (test_end w < 400)%Z /\ test_start w = train_end w) ws.
Proof.
  destruct (walk_forward_window_count unit unit unit
              (fun (s : unit) (_ : list unit) => s)
              (fun (_ : unit) (_ : list unit) => tt) default_analyzer tt
              (repeat tt 400)) as (ws & H1 & _); [reflexivity|].
  exists ws. split; [exact H1|].
  pose proof (walk_forward_window_geometry unit unit unit
                (fun (s : unit) (_ : list unit) => s)
                (fun (_ : unit) (_ : list unit) => tt) default_analyzer
                tt (repeat tt 400) ws eq_refl) as G.
  assert (G' := G ltac:(discriminate) ltac:(discriminate) H1).
  eapply Forall_impl; [|exact G'].
  intros w [(k & _ & _ & _ & E3 & _ & Hlt) _]. split; [exact Hlt|exact E3].
Defined.


End WalkForwardFacts.

(** ** Maximum drawdown *)

Module DrawdownFacts.

Import Series.

Lemma xeq_refl (a : xfloat) : xeq a a.
Proof. destruct a; simpl; auto. reflexivity. Qed.

Lemma xeq_sym (a b : xfloat) : xeq a b -> xeq b a.
Proof. destruct a, b; simpl; auto. intros H. symmetry. exact H. Qed.

Lemma xeq_trans (a b c : xfloat) : xeq a b -> xeq b c -> xeq a c.
Proof.
  destruct a, b, c; simpl; auto; try contradiction.
  intros H1 H2. rewrite H1. exact H2.
Qed.

Lemma xmin_compat (a a' b b' : xfloat) :
  xeq a a' -> xeq b b' -> xeq (xmin a b) (xmin a' b').
Proof.
  destruct a, a', b, b'; simpl; auto; try contradiction.
  intros H1 H2. rewrite H1, H2. reflexivity.
Qed.

Lemma fold_xmin_compat (xs ys : list xfloat) (a b : xfloat) :
  Forall2 xeq xs ys -> xeq a b ->
  xeq (fold_left xmin xs a) (fold_left xmin ys b).
Proof.
  intros H. revert a b.
  induction H as [|x y xs ys Hxy _ IH]; intros a b Hab; simpl.
  - exact Hab.
  - apply IH. apply xmin_compat; assumption.
Qed.

Lemma min_compat (xs ys : list xfloat) :
  Forall2 xeq xs ys -> xeq (Series.min xs) (Series.min ys).
Proof.
  intros H. unfold Series.min. apply fold_xmin_compat; [exact H|exact I].
Qed.

Lemma Qmax_scale (c m x : Q) : 0 < c -> Qmax (c * m) (c * x) = c * Qmax m x.
Proof.
  intros Hc. unfold Qmax, GenericMinMax.gmax.
  destruct (Qcompare_spec m x) as [E|L|G];
    destruct (Qcompare_spec (c * m) (c * x)) as [E'|L'|G']; try reflexivity.
  - exfalso. rewrite E in L'. apply (Qlt_irrefl _ L').
  - exfalso. apply Qmult_inj_l in E'; [|intros Z; rewrite Z in Hc; apply (Qlt_irrefl _ Hc)].
    rewrite E' in L. apply (Qlt_irrefl _ L).
  - exfalso. apply Qmult_lt_l in G'; [|exact Hc].
    apply (Qlt_irrefl m). apply Qlt_trans with x; assumption.
  - exfalso. apply Qmult_lt_l in L'; [|exact Hc].
    apply (Qlt_irrefl m). apply Qlt_trans with x; assumption.
Qed.

Lemma expanding_max_from_scale (c m : Q) (xs : list Q) :
  0 < c ->
  expanding_max_from (c * m) (map (fun x => c * x) xs)
  = map (fun x => c * x) (expanding_max_from m xs).
Proof.
  intros Hc. revert m. induction xs as [|x xs IH]; intros m; simpl.
  - reflexivity.
  - rewrite Qmax_scale by exact Hc. rewrite IH. reflexivity.
Qed.

Lemma expanding_max_scale (c : Q) (xs : list Q) :
  0 < c ->
  expanding_max (map (fun x => c * x) xs)
  = map (fun x => c * x) (expanding_max xs).
Proof.
  intros Hc. destruct xs as [|x xs]; simpl; [reflexivity|].
  rewrite expanding_max_from_scale by exact Hc. reflexivity.
Qed.

Lemma Qeq_bool_scale (c x : Q) :
  0 < c -> Qeq_bool (c * x) 0 = Qeq_bool x 0.
Proof.
  intros Hc. destruct (Qeq_bool x 0) eqn:E.
  - apply Qeq_bool_iff in E. apply Qeq_bool_iff. rewrite E. ring.
  - destruct (Qeq_bool (c * x) 0) eqn:E'; [|reflexivity].
    apply Qeq_bool_iff in E'. apply Qmult_integral in E'.
    destruct E' as [Z|Z].
    + rewrite Z in Hc. exfalso. apply (Qlt_irrefl _ Hc).
    + apply Qeq_bool_iff in Z. congruence.
Qed.

(** A drawdown is a ratio: scaling the curve by a positive capital leaves
    it unchanged, also where the division is by zero. *)
Lemma fdiv_scale (c x m : Q) :
  0 < c -> xeq (fdiv (c * x - c * m) (c * m)) (fdiv (x - m) m).
Proof.
  intros Hc. unfold fdiv.
  rewrite (Qeq_bool_scale c m Hc).
  assert (E : c * x - c * m == c * (x - m)) by ring.
  assert (Hnum : Qeq_bool (c * x - c * m) 0 = Qeq_bool (x - m) 0).
  { rewrite <- (Qeq_bool_scale c (x - m) Hc).
    destruct (Qeq_bool (c * x - c * m) 0) eqn:A;
      destruct (Qeq_bool (c * (x - m)) 0) eqn:B; try reflexivity.
    - apply Qeq_bool_iff in A. rewrite E in A. apply Qeq_bool_iff in A. congruence.
    - apply Qeq_bool_iff in B. rewrite <- E in B. apply Qeq_bool_iff in B. congruence. }
  assert (Hsgn : Py.Qltb 0 (c * x - c * m) = Py.Qltb 0 (x - m)).
  { destruct (Py.Qltb 0 (x - m)) eqn:A.
    - apply PyFacts.Qltb_lt in A. apply PyFacts.Qltb_lt. rewrite E.
      apply Qmult_lt_0_compat; assumption.
    - destruct (Py.Qltb 0 (c * x - c * m)) eqn:B; [|reflexivity].
      apply PyFacts.Qltb_lt in B. rewrite E in B.
      assert (0 < x - m).
      { apply (Qmult_lt_l _ _ c Hc). setoid_replace (c * 0) with 0 by ring. exact B. }
      apply PyFacts.Qltb_lt in H. congruence. }
  destruct (Qeq_bool m 0) eqn:Zm.
  - rewrite Hnum. destruct (Qeq_bool (x - m) 0); simpl; [exact I|].
    rewrite Hsgn. destruct (Py.Qltb 0 (x - m)); exact I.
  - simpl. assert (~ m == 0).
    { intros Z. apply Qeq_bool_iff in Z. congruence. }
    assert (~ c == 0).
    { intros Z. rewrite Z in Hc. apply (Qlt_irrefl _ Hc). }
    field. split; assumption.
Qed.

Lemma drawdown_scale (c : Q) (s m : list Q) :
  0 < c ->
  Forall2 xeq (drawdown (map (fun x => c * x) s) (map (fun x => c * x) m))
              (drawdown s m).
Proof.
  intros Hc. revert m. induction s as [|x s IH]; intros [|y m]; simpl;
    try constructor.
  - apply fdiv_scale. exact Hc.
  - apply IH.
Qed.

(** C5: on a return series, the max drawdown of PerformanceAnalytics and
    of RiskManager are the same value, and MonteCarloSimulator's max
    drawdown of the portfolio values obtained by compounding these returns
    from a positive initial capital is that value too. *)
Theorem C5_max_drawdown_agree (returns : list Q) (initial_capital : Q) :
  0 < initial_capital ->
  let portfolio_values :=
    map (fun c => initial_capital * c)
        (cumprod (map (fun r => 1 + r) returns)) in
  RiskManager._calculate_max_drawdown returns
  = PerformanceAnalytics._calculate_max_drawdown returns /\
  xeq (MonteCarloSimulator._calculate_max_drawdown portfolio_values)
      (PerformanceAnalytics._calculate_max_drawdown returns).
Proof.
  intros Hc pv. split; [reflexivity|].
  unfold MonteCarloSimulator._calculate_max_drawdown,
    PerformanceAnalytics._calculate_max_drawdown, pv.
  cbv zeta. apply min_compat.
  rewrite expanding_max_scale by exact Hc.
  apply drawdown_scale. exact Hc.
Qed.

Lemma C5_max_drawdown_agree_witness :
  let returns := [1 # 10; - (1 # 5); 1 # 20] in
  0 < 100000 /\
  xeq (MonteCarloSimulator._calculate_max_drawdown
         (map (fun c => 100000 * c) (cumprod (map (fun r => 1 + r) returns))))
      (PerformanceAnalytics._calculate_max_drawdown returns) /\
  xeq (PerformanceAnalytics._calculate_max_drawdown returns) (Fin (- (1 # 5))).
Proof.
  intros returns. split; [reflexivity|]. split.
  - exact (proj2 (C5_max_drawdown_agree returns 100000 eq_refl)).
  - vm_compute. reflexivity.
Defined.

End DrawdownFacts.

(** ** Monte Carlo simulation *)

Module MonteCarloFacts.

Import Series MonteCarloSimulator.

Section Determinism.

Context {numpy : Numpy}.


Lemma simulate_generator (returns : list Q) (initial_capital : Q) (i : Z)
    (g : rng) :
  snd (simulate returns initial_capital i g)
  = snd (np_choice g (List.length returns) (List.length returns)).
Proof.
  unfold simulate, sample. destruct (np_choice g _ _) as [idx g']. simpl.
  destruct (rev _); reflexivity.
Qed.



(** A run leaves the process-wide generator advanced: a second run in
    the same process starts from the state the first one left. *)
Lemma run_monte_carlo_one_simulation_generator (returns : list Q)
    (initial_capital : Q) (g : rng) :
  snd (run_monte_carlo 1 returns initial_capital g)
  = snd (np_choice g (List.length returns) (List.length returns)).
Proof.
  unfold run_monte_carlo. simpl.
  pose proof (simulate_generator returns initial_capital 0 g) as G.
  destruct (simulate returns initial_capital 0%Z g) as [[r|] h]; simpl in *;
    exact G.
Qed.

End Determinism.




End MonteCarloFacts.

(** ** The Polygon engine's momentum back-test *)

Module PolygonFacts.

Import Series PolygonBacktestingEngine.

Lemma fold_left_invariant {A B} (I : A -> Prop) (f : A -> B -> A)
    (l : list B) (a : A) :
  (forall a x, I a -> I (f a x)) -> I a -> I (fold_left f l a).
Proof.
  intros Hf. revert a. induction l as [|x l IH]; simpl; intros a Ha.
  - exact Ha.
  - apply IH. apply Hf. exact Ha.
Qed.

(** *** A property kept by the three ledger operations is kept by a run *)

Section Invariant.

Variable data : Dict.t frame.
Variable params : Params.t.
Variable cfg : config.
Variable I : results -> Prop.

Hypothesis I_mark : forall d r, I r -> I (mark_to_market data d r).
Hypothesis I_exit : forall d r sym, I r -> I (exit_symbol data params cfg d r sym).
Hypothesis I_enter : forall d r c, I r -> I (enter params d r c).

Lemma step_invariant (r : results) (d : Z) : I r -> I (step data params cfg r d).
Proof.
  intros H. unfold step, entries, exits.
  set (r1 := mark_to_market data d r).
  assert (H1 : I r1) by (apply I_mark; exact H).
  set (r2 := fold_left _ _ r1).
  assert (H2 : I r2).
  { apply fold_left_invariant; [|exact H1]. intros; apply I_exit; assumption. }
  destruct (Py.len (positions r2) <? Params.max_positions params)%Z; [|exact H2].
  apply fold_left_invariant; [|exact H2]. intros; apply I_enter; assumption.
Qed.


Lemma run_invariant :
  I (initial_results params) -> I (_run_momentum_strategy data params cfg).
Proof.
  intros H. unfold _run_momentum_strategy.
  apply fold_left_invariant; [|exact H]. intros; apply step_invariant; assumption.
Qed.

End Invariant.

(** The returned ledger is the last of the per-date ledgers. *)
Lemma run_states_last (data : Dict.t frame) (params : Params.t)
    (cfg : config) (ds : list Z) (r dflt : results) :
  last (run_states data params cfg r ds) dflt
  = match ds with
    | [] => dflt
    | _ => fold_left (step data params cfg) ds r
    end.
Proof.
  revert r. induction ds as [|d ds IH]; intros r; [reflexivity|].
  destruct ds as [|d' ds']; [reflexivity|].
  change (last (run_states data params cfg (step data params cfg r d) (d' :: ds')) dflt
          = fold_left (step data params cfg) (d' :: ds') (step data params cfg r d)).
  apply IH.
Qed.

(** *** Cash *)

Lemma loc_nonnegative (df : frame) (d : Z) (c : Q) :
  Forall (fun row => 0 <= snd row) df -> loc df d = Some c -> 0 <= c.
Proof.
  induction 1 as [|[d' c'] df Hx _ IH]; simpl; [discriminate|].
  destruct (d' =? d)%Z; [intros [= <-]; exact Hx|exact IH].
Qed.

Lemma lookup_nonnegative (data : Dict.t frame) (sym : string) (df : frame) :
  nonnegative_closes data -> Dict.lookup sym data = Some df ->
  Forall (fun row => 0 <= snd row) df.
Proof.
  intros H L. destruct (DictFacts.lookup_In _ _ _ L) as [k Hin].
  unfold nonnegative_closes in H. rewrite Forall_forall in H.
  exact (H _ Hin).
Qed.

(** The branches that leave the ledger as it is. *)
Ltac ledger_unchanged :=
  split; [apply Qle_refl | split; assumption].

(** An exit adds a non-negative amount to the cash. *)
Lemma exit_adds_nonnegative (data : Dict.t frame) (params : Params.t)
    (cfg : config) (d : Z) (r : results) (sym : string) :
  Params.commission params <= 1 -> nonnegative_closes data ->
  cash_invariant r ->
  cash r <= cash (exit_symbol data params cfg d r sym) /\
  cash_invariant (exit_symbol data params cfg d r sym).
Proof.
  intros Hc Hd [Hcash Hpos]. unfold exit_symbol.
  destruct (Dict.lookup sym (positions r)) as [p|] eqn:Lp; [|ledger_unchanged].
  destruct (Dict.lookup sym data) as [df|] eqn:Ld; [|ledger_unchanged].
  destruct (loc df d) as [price|] eqn:Ll; [|ledger_unchanged].
  destruct (holding_period cfg <=? d - Position.entry_date p)%Z;
    [|ledger_unchanged].
  assert (Hprice : 0 <= price)
    by (eapply loc_nonnegative;
        [eapply lookup_nonnegative; eassumption|eassumption]).
  assert (Hq : 0 <= Position.quantity p).
  { destruct (DictFacts.lookup_In _ _ _ Lp) as [k Hin].
    rewrite Forall_forall in Hpos. exact (Hpos _ Hin). }
  assert (Hv : 0 <= Position.quantity p * price * (1 - Params.commission params)).
  { apply Qmult_le_0_compat; [apply Qmult_le_0_compat|]; lra. }
  simpl. split; [lra|]. split; simpl; [lra|].
  apply DictFacts.Forall_remove. exact Hpos.
Qed.


Lemma enter_cash_invariant (params : Params.t) (d : Z) (r : results)
    (c : candidate) :
  cash_invariant r -> cash_invariant (enter params d r c).
Proof.
  intros [Hcash Hpos]. unfold enter.
  destruct (Qeq_bool (c_price c) 0); [split; assumption|].
  destruct (Py.Qgtb _ 0) eqn:Eq; [|split; assumption].
  destruct (Qle_bool _ (cash r)) eqn:E; [|split; assumption].
  apply Qle_bool_iff in E. apply PyFacts.Qgtb_gt in Eq.
  split; simpl; [lra|].
  apply DictFacts.Forall_insert; [exact Hpos|]. simpl. apply Qlt_le_weak. exact Eq.
Qed.

Lemma mark_cash_invariant (data : Dict.t frame) (d : Z) (r : results) :
  cash_invariant r -> cash_invariant (mark_to_market data d r).
Proof. intros H. exact H. Qed.



End PolygonFacts.

(** ** Net P&L of a trade *)

Module PnlFacts.

Import Series.

(** *** PolygonBacktestingEngine: both commissions are in the P&L *)

Section Polygon.

Import PolygonBacktestingEngine.

Lemma exit_pnl_invariant (data : Dict.t frame) (params : Params.t)
    (cfg : config) (d : Z) (r : results) (sym : string) :
  pnl_invariant params r ->
  pnl_invariant params (exit_symbol data params cfg d r sym).
Proof.
  intros [Hpos Htr]. unfold exit_symbol.
  destruct (Dict.lookup sym (positions r)) as [p|] eqn:Lp; [|split; assumption].
  destruct (Dict.lookup sym data) as [df|]; [|split; assumption].
  destruct (loc df d) as [price|]; [|split; assumption].
  destruct (holding_period cfg <=? d - Position.entry_date p)%Z;
    [|split; assumption].
  split; simpl.
  - apply DictFacts.Forall_remove. exact Hpos.
  - apply Forall_app. split; [exact Htr|]. constructor; [|constructor].
    unfold spec_net_pnl. simpl.
    destruct (DictFacts.lookup_In _ _ _ Lp) as [k Hin].
    rewrite Forall_forall in Hpos. specialize (Hpos _ Hin). simpl in Hpos.
    rewrite Hpos. ring.
Qed.

Lemma enter_pnl_invariant (params : Params.t) (d : Z) (r : results)
    (c : candidate) :
  pnl_invariant params r -> pnl_invariant params (enter params d r c).
Proof.
  intros [Hpos Htr]. unfold enter.
  destruct (Qeq_bool (c_price c) 0); [split; assumption|].
  destruct (Py.Qgtb _ 0); [|split; assumption].
  destruct (Qle_bool _ (cash r)); [|split; assumption].
  split; simpl; [|exact Htr].
  apply DictFacts.Forall_insert; [exact Hpos|]. simpl. reflexivity.
Qed.

(** X8: every trade the momentum back-test records has the net P&L
    (exit - entry) x quantity - entry commission - exit commission, each
    commission being price x quantity x commission rate. *)
Lemma polygon_trade_pnl (data : Dict.t frame) (params : Params.t)
    (cfg : config) (t : Trade.t) :
  In t (trades (_run_momentum_strategy data params cfg)) ->
  Trade.pnl t == spec_net_pnl params t.
Proof.
  intros Hin.
  assert (H : pnl_invariant params (_run_momentum_strategy data params cfg)).
  { apply (PolygonFacts.run_invariant data params cfg (pnl_invariant params)).
    - intros d r Hr. exact Hr.
    - intros. apply exit_pnl_invariant. assumption.
    - intros. apply enter_pnl_invariant. assumption.
    - split; constructor. }
  destruct H as [_ Htr]. rewrite Forall_forall in Htr. exact (Htr _ Hin).
Qed.

Lemma polygon_trade_pnl_witness :
  exists t,
    In t (trades (_run_momentum_strategy scenario_data Params.default_params
                                         one_day_config)) /\
    Trade.pnl t == spec_net_pnl Params.default_params t /\
    Trade.pnl t == 979.
Proof.
  eexists. split; [left; reflexivity|]. split.
  - apply (polygon_trade_pnl scenario_data Params.default_params one_day_config).
    left. reflexivity.
  - vm_compute. reflexivity.
Defined.

End Polygon.

(** *** EnhancedBacktester: the entry commission is not in the P&L *)

Section Enhanced.

Import EnhancedBacktester.

Lemma close_position_trades (sym : string) (parameters : Params.t) (d : Z)
    (signal ep : Q) (st : state) :
  Forall (exit_only_net_pnl parameters) (trades st) ->
  Forall (exit_only_net_pnl parameters)
         (trades (close_position sym parameters d signal ep st)).
Proof.
  intros H. unfold close_position.
  destruct (negb _ && negb _); [|exact H]. simpl.
  apply Forall_app. split; [exact H|]. constructor; [|constructor]. reflexivity.
Qed.

Lemma open_position_trades (parameters : Params.t) (d : Z) (signal ep : Q)
    (st st' : state) :
  open_position parameters d signal ep st = Some st' -> trades st' = trades st.
Proof.
  unfold open_position. destruct (negb _ && _); [|intros [= <-]; reflexivity].
  destruct (entry_shares _ _ _) as [n|]; [|discriminate].
  destruct (0 <? n)%Z; intros [= <-]; reflexivity.
Qed.

Lemma run_trades (sym : string) (parameters : Params.t)
    (signals : list signal_row) (st st' : state) :
  Forall (exit_only_net_pnl parameters) (trades st) ->
  run sym parameters st signals = Some st' ->
  Forall (exit_only_net_pnl parameters) (trades st').
Proof.
  revert st. induction signals as [|row rest IH]; intros st H; simpl.
  - intros [= <-]. exact H.
  - destruct (step sym parameters st row) as [st1|] eqn:E; [|discriminate].
    apply IH. unfold step in E. destruct (Signal row) as [signal|].
    + apply open_position_trades in E. rewrite E.
      apply close_position_trades. exact H.
    + injection E as <-. exact H.
Qed.

(** Every trade of [_execute_trades] has the net P&L
    (exit - entry) x shares - exit commission: the commission paid on the
    entry, which the same function takes from the cash, is not deducted. *)
Lemma enhanced_trade_pnl (signals : list signal_row) (sym : string)
    (parameters : Params.t) (t : trade) :
  In t (_execute_trades signals sym parameters) ->
  net_pnl t - spec_net_pnl parameters t
  == entry_price t * shares t * Params.commission parameters.
Proof.
  intros Hin.
  assert (H : Forall (exit_only_net_pnl parameters)
                     (_execute_trades signals sym parameters)).
  { unfold _execute_trades.
    destruct (run sym parameters (initial_state parameters) signals) as [st|] eqn:E;
      [|constructor].
    pose proof (run_trades sym parameters signals (initial_state parameters) st
                  (Forall_nil _) E) as Hst.
    unfold close_final. destruct (negb _); [|exact Hst].
    destruct (rev signals); [exact Hst|].
    apply Forall_app. split; [exact Hst|]. constructor; [|constructor].
    reflexivity. }
  rewrite Forall_forall in H. specialize (H _ Hin).
  unfold exit_only_net_pnl in H. rewrite H. unfold spec_net_pnl. ring.
Qed.

End Enhanced.

(** C1, on EnhancedBacktester: with the default parameters (commission
    0.1 %, slippage 0.05 %, 10 % of 100000 per position), a buy signal at
    price 100 followed by a flat signal at price 110 records one trade of
    99 shares whose net P&L is 974.16, where (exit - entry) x quantity
    less the entry and the exit commission is 964.25505: the difference
    is the entry commission 9.90495, far above 1e-6. *)
Theorem C1_enhanced_net_pnl_omits_entry_commission :
  let signals :=
    [ {| EnhancedBacktester.date := 0; EnhancedBacktester.Signal := Some 1;
         EnhancedBacktester.Price := 100 |};
      {| EnhancedBacktester.date := 1; EnhancedBacktester.Signal := Some 0;
         EnhancedBacktester.Price := 110 |} ] in
  exists t,
    EnhancedBacktester._execute_trades signals "TEST" Params.default_params = [t]
    /\ EnhancedBacktester.shares t == 99
    /\ EnhancedBacktester.net_pnl t == 97416 # 100
    /\ EnhancedBacktester.spec_net_pnl Params.default_params t == 96425505 # 100000
    /\ ~ Qabs (EnhancedBacktester.net_pnl t
               - EnhancedBacktester.spec_net_pnl Params.default_params t)
         <= 1 # 1000000.
Proof.
  intros signals. eexists. split; [vm_compute; reflexivity|].
  split; [vm_compute; reflexivity|].
  split; [vm_compute; reflexivity|].
  split; [vm_compute; reflexivity|].
  vm_compute. intros H. apply H. reflexivity.
Qed.

End PnlFacts.

(** ** Position sizing *)

Module SizingFacts.

Import Series.



Lemma Qeq_bool_false (a : Q) : ~ a == 0 -> Qeq_bool a 0 = false.
Proof.
  intros H. destruct (Qeq_bool a 0) eqn:E; [|reflexivity].
  apply Qeq_bool_iff in E. contradiction.
Qed.



End SizingFacts.

(** ** The result validators *)

Module ValidationFacts.

Import Series Validation.

(** The two validators run the same known-data-point check. *)
Lemma known_data_points_same (sym : string) (df : frame) :
  BacktestValidator._validate_known_data_points sym df
  = ValidationFramework._validate_known_data_points sym df.
Proof. reflexivity. Qed.

(** C10: for a symbol other than AAPL and MSFT, the symbols of the
    reference table, the known-data-point check of either validator
    returns 1.0 whatever the price frame holds. *)
Theorem C10_symbol_without_reference_scores_one (sym : string) (df : frame) :
  sym <> "AAPL"%string -> sym <> "MSFT"%string ->
  Dict.lookup sym validation_data = None /\
  BacktestValidator._validate_known_data_points sym df = 1 /\
  ValidationFramework._validate_known_data_points sym df = 1.
Proof.
  intros Ha Hm.
  assert (L : Dict.lookup sym validation_data = None).
  { unfold validation_data. rewrite !DictFacts.lookup_cons.
    destruct (String.eqb_spec "AAPL" sym) as [E|_]; [congruence|].
    destruct (String.eqb_spec "MSFT" sym) as [E|_]; [congruence|]. reflexivity. }
  split; [exact L|].
  unfold BacktestValidator._validate_known_data_points,
    ValidationFramework._validate_known_data_points,
    Validation._validate_known_data_points.
  rewrite L. split; reflexivity.
Qed.

Lemma C10_symbol_without_reference_scores_one_witness :
  let df := [ ("2021-01-04"%string,
               {| Open := -1; High := 0; Low := 5; Close := 0; Volume := -3 |}) ] in
  "GOOG"%string <> "AAPL"%string /\ "GOOG"%string <> "MSFT"%string /\
  BacktestValidator._validate_known_data_points "GOOG" df = 1.
Proof.
  intros df. split; [discriminate|]. split; [discriminate|].
  apply (C10_symbol_without_reference_scores_one "GOOG" df); discriminate.
Defined.

(** *** The AAPL reference point of 2021-01-04 *)

Lemma within_tolerance_close (th : thresholds) (row : bar) (p : known_point) :
  within_tolerance th row p = true ->
  xleb (fdiv (Qabs (Close row - kp_close p)) (kp_close p))
       (Fin (price_tolerance th)) = true.
Proof.
  unfold within_tolerance. intros H.
  apply andb_true_iff in H. destruct H as [H _].
  apply andb_true_iff in H. destruct H as [_ H]. exact H.
Qed.

Lemma xleb_fdiv_fin (a b t : Q) :
  0 < b -> xleb (fdiv a b) (Fin t) = true <-> a <= t * b.
Proof.
  intros Hb. unfold fdiv.
  assert (Hnz : ~ b == 0)
    by (intros Z; rewrite Z in Hb; apply (Qlt_irrefl _ Hb)).
  destruct (Qeq_bool b 0) eqn:E; [apply Qeq_bool_iff in E; contradiction|].
  unfold xleb. rewrite Qle_bool_iff. split; intros H.
  - setoid_replace a with (a / b * b) by (field; exact Hnz).
    apply Qmult_le_compat_r; [exact H|apply Qlt_le_weak; exact Hb].
  - apply Qle_shift_div_r; assumption.
Qed.

(** A close within 0.1 % of 129.41 is more than 0.1 % away from it once
    changed by 5 %, upwards or downwards. *)
Lemma perturbed_close_fails (f : Q) (row : bar) :
  f == 105 # 100 \/ f == 95 # 100 ->
  within_tolerance BacktestValidator.thresholds row aapl_2021_01_04 = true ->
  within_tolerance BacktestValidator.thresholds (perturb_close f row)
                   aapl_2021_01_04 = false.
Proof.
  intros Hf H. apply within_tolerance_close in H.
  apply (xleb_fdiv_fin _ (12941 # 100) (1 # 1000)) in H; [|reflexivity].
  unfold within_tolerance.
  destruct (xleb (fdiv (Qabs (Close (perturb_close f row) - _)) _) _) eqn:E;
    [|rewrite andb_false_r; reflexivity].
  exfalso.
  apply (xleb_fdiv_fin _ (12941 # 100) (1 # 1000)) in E; [|reflexivity].
  change (Close (perturb_close f row)) with (Close row * f) in E.
  apply Qabs_Qle_condition in H. apply Qabs_Qle_condition in E.
  destruct H as [H1 H2], E as [E1 E2].
  change (kp_close aapl_2021_01_04) with (12941 # 100) in *.
  destruct Hf as [Hf|Hf]; rewrite Hf in E1, E2; lra.
Qed.

Lemma aapl_lookup : Dict.lookup "AAPL" validation_data = Some aapl_points.
Proof. reflexivity. Qed.

Lemma filter_cons {A} (f : A -> bool) (x : A) (l : list A) :
  filter f (x :: l) = if f x then x :: filter f l else filter f l.
Proof. reflexivity. Qed.

(** The score of an AAPL frame in terms of the three reference dates. *)
Lemma aapl_score (df : frame) :
  BacktestValidator._validate_known_data_points "AAPL" df
  = inject_Z (Py.count (point_correct BacktestValidator.thresholds df) aapl_points)
    / 3.
Proof. reflexivity. Qed.

(** C7 as stated fails: the AAPL sample frame of the validator's own
    [main()], whose 2021-01-04 row carries exactly the reference values,
    scores 1/3, because the reference dates 2021-12-31 and 2022-01-03 are
    not in the frame and still count in the denominator. *)
Lemma C7_matching_row_alone_scores_one_third :
  rows_at sample_data "2021-01-04" = [aapl_reference_row] /\
  within_tolerance BacktestValidator.thresholds aapl_reference_row
                   aapl_2021_01_04 = true /\
  BacktestValidator._validate_known_data_points "AAPL" sample_data == 1 # 3 /\
  ValidationFramework._validate_known_data_points "AAPL" sample_data == 1 # 3 /\
  ~ BacktestValidator._validate_known_data_points "AAPL" sample_data == 1.
Proof.
  split; [reflexivity|]. split; [vm_compute; reflexivity|].
  split; [vm_compute; reflexivity|]. split; [vm_compute; reflexivity|].
  vm_compute. discriminate.
Qed.

(** C7 as amended: when the frame has one row dated 2021-01-04 and this
    row matches the AAPL reference within the 0.1 % price and 10 % volume
    tolerances, the point is counted as correct and the score is the
    number of the three reference dates counted as correct, over 3: it is
    1.0 exactly when the points of 2021-12-31 and 2022-01-03 are counted
    too, and 1/3 when the frame has no row at these two dates.  Changing
    the close of the matching row by 5 % makes the row fail the check: in
    a frame that holds the changed row the point is not counted. *)
Theorem C7_known_point_check (df : frame) (row : bar) :
  rows_at df "2021-01-04" = [row] ->
  within_tolerance BacktestValidator.thresholds row aapl_2021_01_04 = true ->
  let th := BacktestValidator.thresholds in
  let score := BacktestValidator._validate_known_data_points "AAPL" df in
  point_correct th df ("2021-01-04"%string, aapl_2021_01_04) = true
  /\ score = ValidationFramework._validate_known_data_points "AAPL" df
  /\ score
     = inject_Z (Py.count (point_correct th df) aapl_points) / 3
  /\ (score == 1 <->
      point_correct th df ("2021-12-31"%string, aapl_2021_12_31) = true /\
      point_correct th df ("2022-01-03"%string, aapl_2022_01_03) = true)
  /\ (rows_at df "2021-12-31" = [] -> rows_at df "2022-01-03" = [] ->
      score == 1 # 3)
  /\ (forall (f : Q) (df' : frame),
        f == 105 # 100 \/ f == 95 # 100 ->
        rows_at df' "2021-01-04" = [perturb_close f row] ->
        within_tolerance th (perturb_close f row) aapl_2021_01_04 = false /\
        point_correct th df' ("2021-01-04"%string, aapl_2021_01_04) = false /\
        ~ BacktestValidator._validate_known_data_points "AAPL" df' == 1).
Proof.
  intros Hrow Hok th score.
  assert (P1 : point_correct th df ("2021-01-04"%string, aapl_2021_01_04) = true).
  { unfold point_correct. cbn [fst snd]. rewrite Hrow. exact Hok. }
  assert (Count : forall df0 b1 b2 b3,
            point_correct th df0 ("2021-01-04"%string, aapl_2021_01_04) = b1 ->
            point_correct th df0 ("2021-12-31"%string, aapl_2021_12_31) = b2 ->
            point_correct th df0 ("2022-01-03"%string, aapl_2022_01_03) = b3 ->
            Py.count (point_correct th df0) aapl_points
            = ((if b1 then 1 else 0) + (if b2 then 1 else 0)
               + (if b3 then 1 else 0))%Z).
  { intros df0 b1 b2 b3 E1 E2 E3. unfold Py.count, aapl_points.
    rewrite !filter_cons, E1, E2, E3. destruct b1, b2, b3; reflexivity. }
  split; [exact P1|]. split; [reflexivity|]. split; [reflexivity|].
  split; [|split].
  - unfold score. rewrite aapl_score. fold th.
    destruct (point_correct th df ("2021-12-31"%string, aapl_2021_12_31)) eqn:E2;
      destruct (point_correct th df ("2022-01-03"%string, aapl_2022_01_03)) eqn:E3;
      rewrite (Count df _ _ _ P1 E2 E3); split;
      try (intros H; vm_compute in H; discriminate);
      try (intros [? ?]; discriminate).
    + intros _. split; reflexivity.
    + intros _. reflexivity.
  - intros N2 N3. unfold score. rewrite aapl_score. fold th.
    rewrite (Count df true false false P1).
    + reflexivity.
    + unfold point_correct. cbn [fst snd]. rewrite N2. reflexivity.
    + unfold point_correct. cbn [fst snd]. rewrite N3. reflexivity.
  - intros f df' Hf Hrow'.
    assert (W : within_tolerance th (perturb_close f row) aapl_2021_01_04 = false)
      by (apply perturbed_close_fails; assumption).
    assert (P1' : point_correct th df' ("2021-01-04"%string, aapl_2021_01_04) = false).
    { unfold point_correct. cbn [fst snd]. rewrite Hrow'. exact W. }
    split; [exact W|]. split; [exact P1'|].
    rewrite aapl_score. fold th.
    destruct (point_correct th df' ("2021-12-31"%string, aapl_2021_12_31)) eqn:E2;
      destruct (point_correct th df' ("2022-01-03"%string, aapl_2022_01_03)) eqn:E3;
      rewrite (Count df' _ _ _ P1' E2 E3); vm_compute; discriminate.
Qed.

Lemma C7_known_point_check_witness :
  rows_at sample_data "2021-01-04" = [aapl_reference_row] /\
  within_tolerance BacktestValidator.thresholds aapl_reference_row
                   aapl_2021_01_04 = true /\
  BacktestValidator._validate_known_data_points "AAPL" sample_data == 1 # 3 /\
  within_tolerance BacktestValidator.thresholds
                   (perturb_close (105 # 100) aapl_reference_row)
                   aapl_2021_01_04 = false.
Proof.
  assert (H1 : rows_at sample_data "2021-01-04" = [aapl_reference_row])
    by reflexivity.
  assert (H2 : within_tolerance BacktestValidator.thresholds aapl_reference_row
                                aapl_2021_01_04 = true)
    by (vm_compute; reflexivity).
  destruct (C7_known_point_check sample_data aapl_reference_row H1 H2)
    as (_ & _ & _ & _ & H5 & H6).
  split; [exact H1|]. split; [exact H2|]. split.
  - apply H5; reflexivity.
  - apply (H6 (105 # 100)
              [ ("2021-01-04"%string, perturb_close (105 # 100) aapl_reference_row) ]).
    + left. reflexivity.
    + reflexivity.
Defined.

(** *** Aggregation of the category scores *)

(** C8 as stated fails on backtest_validator.py: with a data score and a
    calculation score of 0 the report has overall accuracy 0, while the
    mean of its three category scores (0, 0 and the constant strategy
    accuracy 1) is 1/3. *)
Lemma C8_validator_overall_is_not_mean_of_three :
  let m := BacktestValidator._calculate_accuracy_metrics
             (result_with_score "Data Quality Validation" 0 false)
             (result_with_score "Calculation Validation" 0 false) in
  overall_accuracy m == 0 /\
  mean_of_categories m == 1 # 3 /\
  ~ overall_accuracy m == mean_of_categories m.
Proof.
  split; [vm_compute; reflexivity|]. split; [vm_compute; reflexivity|].
  vm_compute. discriminate.
Qed.

(** C8 as amended: the overall accuracy is the arithmetic mean of the
    category scores the validator computes.  In
    backtest_validation_framework.py these are the data, calculation and
    strategy scores; in backtest_validator.py they are the data and the
    calculation score, the reported strategy accuracy being the constant
    1.0, which is left out of the mean. *)
Theorem C8_overall_accuracy
    (data_validation calculation_validation strategy_validation
       : ValidationResult) :
  let fw := ValidationFramework._calculate_accuracy_metrics
              data_validation calculation_validation strategy_validation in
  let bv := BacktestValidator._calculate_accuracy_metrics
              data_validation calculation_validation in
  data_accuracy fw = score data_validation
  /\ calculation_accuracy fw = score calculation_validation
  /\ strategy_accuracy fw = score strategy_validation
  /\ overall_accuracy fw == mean_of_categories fw
  /\ overall_accuracy bv
     == (score data_validation + score calculation_validation) / 2
  /\ strategy_accuracy bv = 1.
Proof.
  intros fw bv. repeat split; try reflexivity.
Qed.

(** *** Calculation validation without trades *)

(** With no trade and a portfolio-value series that is absent or not
    empty, both validators return the failed result of score 0. *)
Lemma validate_calculations_no_trades (results : backtest_results)
    (risk : list Q -> check) :
  get (br_trades results) [] = [] ->
  get (br_portfolio_value results) [100000] <> [] ->
  exists v,
    BacktestValidator.validate_calculations results = Returns v /\
    ValidationFramework.validate_calculations risk results = Returns v /\
    passed v = false /\ score v = 0 /\
    error_message v = Some "No trades to validate"%string.
Proof.
  intros Ht Hp.
  unfold BacktestValidator.validate_calculations,
    ValidationFramework.validate_calculations.
  rewrite Ht. destruct (get (br_portfolio_value results) [100000]) as [|c l];
    [contradiction|].
  eexists. repeat split.
Qed.

(** C9, at an empty portfolio-value series: for a back-test result with
    an empty trade list and an empty ['portfolio_value'] list, the
    calculation validation of both validators raises [IndexError] when it
    reads the initial capital, before it looks at the trades; no
    [ValidationResult] is returned. *)
Theorem C9_empty_portfolio_series_raises :
  let results := {| br_trades := Some [];
                    br_portfolio_value := Some [];
                    br_performance := None |} in
  BacktestValidator.validate_calculations results = Raises IndexError /\
  (forall risk : list Q -> check,
     ValidationFramework.validate_calculations risk results = Raises IndexError).
Proof.
  split; [reflexivity|]. intros risk. reflexivity.
Qed.

End ValidationFacts.

(** ** Performance analytics *)

Module AnalyticsFacts.

Import Series.















(** *** A curve that never falls *)

Lemma fdiv_zero (c m : Q) : 0 < m -> c == m -> xzero (fdiv (c - m) m).
Proof.
  intros Hm E. unfold fdiv. destruct (Qeq_bool m 0) eqn:Z.
  - apply Qeq_bool_iff in Z. lra.
  - simpl. rewrite E. field. intros N. lra.
Qed.

Lemma drawdown_from_zero (acc m0 : Q) (fs : list Q) :
  0 < acc -> m0 == acc -> Forall (fun f => 1 <= f) fs ->
  Forall xzero (drawdown (cumprod_from acc fs)
                         (expanding_max_from m0 (cumprod_from acc fs))).
Proof.
  intros Ha Hm H. revert acc m0 Ha Hm.
  induction H as [|f fs Hf _ IH]; intros acc m0 Ha Hm; simpl; constructor.
  - assert (Hge : acc <= acc * f).
    { setoid_replace acc with (acc * 1) at 1 by ring.
      apply Qmult_le_l; assumption. }
    assert (E : Qmax m0 (acc * f) == acc * f).
    { apply Q.max_r. rewrite Hm. exact Hge. }
    apply fdiv_zero; [rewrite E; lra|symmetry; exact E].
  - assert (Hge : acc <= acc * f).
    { setoid_replace acc with (acc * 1) at 1 by ring.
      apply Qmult_le_l; assumption. }
    apply IH; [lra|]. apply Q.max_r. rewrite Hm. exact Hge.
Qed.

Lemma xmin_zero (a b : xfloat) : xzero a -> xzero b -> xzero (xmin a b).
Proof.
  destruct a as [x| | |], b as [y| | |]; simpl; try contradiction.
  intros Hx Hy. destruct (Q.min_spec x y) as [[_ E]|[_ E]]; rewrite E; assumption.
Qed.

Lemma fold_xmin_zero (xs : list xfloat) (a : xfloat) :
  xzero a -> Forall xzero xs -> xzero (fold_left xmin xs a).
Proof.
  intros Ha H. revert a Ha. induction H as [|y ys Hy _ IH]; intros a Ha; simpl.
  - exact Ha.
  - apply IH. apply xmin_zero; assumption.
Qed.

Lemma min_zero (xs : list xfloat) :
  xs <> [] -> Forall xzero xs -> xzero (Series.min xs).
Proof.
  intros Hne H. destruct H as [|x xs Hx H]; [contradiction|].
  unfold Series.min. simpl. apply fold_xmin_zero; [|exact H].
  destruct x; exact Hx.
Qed.

(** With no negative return the curve never falls below its running
    maximum: the max drawdown is zero. *)
Lemma no_loss_no_drawdown (returns : list Q) :
  returns <> [] -> Forall (fun r => 0 <= r) returns ->
  xzero (PerformanceAnalytics._calculate_max_drawdown returns).
Proof.
  intros Hne H. unfold PerformanceAnalytics._calculate_max_drawdown. cbv zeta.
  destruct H as [|r rs Hr H]; [contradiction|].
  apply min_zero; [simpl; discriminate|].
  simpl. constructor.
  - apply fdiv_zero; [lra|reflexivity].
  - apply drawdown_from_zero; [lra|reflexivity|].
    apply Forall_map. eapply Forall_impl; [|exact H]. intros x Hx. simpl in Hx. lra.
Qed.

(** X14: for a non-empty series without a negative return the max drawdown
    is 0, and the Calmar ratio and the recovery factor, whose divisions
    are guarded by [max_drawdown != 0], are both reported as 0 whatever
    the return earned. *)
Theorem no_drawdown_zero_ratios (pow : Q -> Q -> xfloat) (returns : list Q) :
  returns <> [] ->
  Forall (fun r => 0 <= r) returns ->
  xzero (PerformanceAnalytics._calculate_max_drawdown returns) /\
  PerformanceAnalytics._calculate_calmar_ratio pow returns = Fin 0 /\
  PerformanceAnalytics._calculate_recovery_factor returns = Fin 0.
Proof.
  intros Hne H. pose proof (no_loss_no_drawdown returns Hne H) as Z.
  split; [exact Z|].
  unfold PerformanceAnalytics._calculate_calmar_ratio,
    PerformanceAnalytics._calculate_recovery_factor. cbv zeta.
  destruct (PerformanceAnalytics._calculate_max_drawdown returns) as [q| | |];
    simpl in Z; try contradiction.
  assert (E : xnonzero (xabs (Fin q)) = false).
  { simpl. apply negb_false_iff. apply Qeq_bool_iff. rewrite Z. reflexivity. }
  rewrite E. split; reflexivity.
Qed.

Lemma no_drawdown_zero_ratios_witness :
  let returns := [1 # 10; 0; 1 # 5] in
  returns <> [] /\ Forall (fun r => 0 <= r) returns /\
  PerformanceAnalytics._calculate_total_return returns == 32 # 100 /\
  PerformanceAnalytics._calculate_recovery_factor returns = Fin 0.
Proof.
  intros returns.
  assert (H1 : returns <> []) by discriminate.
  assert (H2 : Forall (fun r => 0 <= r) returns)
    by (repeat (constructor; try discriminate)).
  split; [exact H1|]. split; [exact H2|]. split; [vm_compute; reflexivity|].
  exact (proj2 (proj2 (no_drawdown_zero_ratios (fun _ _ => NaN) returns H1 H2))).
Defined.

(** *** Compounding *)

Lemma fold_mult_acc (xs : list Q) (a : Q) :
  fold_left Qmult xs a == a * fold_left Qmult xs 1.
Proof.
  revert a. induction xs as [|x xs IH]; intros a; simpl.
  - ring.
  - rewrite (IH (a * x)), (IH (1 * x)). ring.
Qed.

Lemma prod_app (xs ys : list Q) : prod (xs ++ ys) == prod xs * prod ys.
Proof.
  unfold prod. rewrite fold_left_app. apply fold_mult_acc.
Qed.

(** X15: total returns compound: over two consecutive periods,
    1 + total = (1 + total of the first) x (1 + total of the second); the
    total return of no period at all is 0. *)
Theorem total_return_compounds (first second : list Q) :
  1 + PerformanceAnalytics._calculate_total_return (first ++ second)
  == (1 + PerformanceAnalytics._calculate_total_return first)
     * (1 + PerformanceAnalytics._calculate_total_return second)
  /\ PerformanceAnalytics._calculate_total_return [] == 0.
Proof.
  unfold PerformanceAnalytics._calculate_total_return.
  split; [|reflexivity].
  rewrite map_app, prod_app. ring.
Qed.

End AnalyticsFacts.

(** ** Risk report *)

Module ReportingFacts.

Import Series EnhancedReporting.

Lemma xltb_not_xgtb (a : xfloat) (x y : Q) :
  xltb a (Fin x) = true -> x <= y -> xgtb a (Fin y) = false.
Proof.
  destruct a as [q| | |]; simpl; try reflexivity; try discriminate.
  unfold xltb. simpl. intros H Hxy. apply PyFacts.Qltb_lt in H.
  destruct (Py.Qltb y q) eqn:E; [|reflexivity].
  apply PyFacts.Qltb_lt in E. lra.
Qed.

Lemma xgtb_not_xltb (a : xfloat) (x y : Q) :
  xgtb a (Fin x) = true -> y <= x -> xltb a (Fin y) = false.
Proof.
  destruct a as [q| | |]; simpl; try reflexivity; try discriminate.
  unfold xltb. simpl. intros H Hxy. apply PyFacts.Qltb_lt in H.
  destruct (Py.Qltb q y) eqn:E; [|reflexivity].
  apply PyFacts.Qltb_lt in E. lra.
Qed.

Lemma xltb_weaken (a : xfloat) (x y : Q) :
  xltb a (Fin x) = true -> x <= y -> xltb a (Fin y) = true.
Proof.
  destruct a as [q| | |]; unfold xltb; simpl; try reflexivity; try discriminate.
  intros H Hxy. apply PyFacts.Qltb_lt in H. apply PyFacts.Qltb_lt. lra.
Qed.

Lemma xgtb_weaken (a : xfloat) (x y : Q) :
  xgtb a (Fin x) = true -> y <= x -> xgtb a (Fin y) = true.
Proof.
  destruct a as [q| | |]; simpl; try reflexivity; try discriminate.
  intros H Hxy. apply PyFacts.Qltb_lt in H. apply PyFacts.Qltb_lt. lra.
Qed.

(** X4: whenever the risk level of a performance dict is assessed as
    'Low' or 'Medium', the risk recommendations consist of the single
    sentence that the metrics are within acceptable ranges; this holds for
    absent keys and for nan or infinite metrics as well. *)
Theorem risk_level_recommendations (p : performance) :
  _assess_risk_level p <> "High"%string ->
  _generate_risk_recommendations p
  = ["Risk metrics are within acceptable ranges."%string].
Proof.
  unfold _assess_risk_level, _generate_risk_recommendations. cbv zeta.
  set (v := get0 (volatility p)).
  set (d := xabs (get0 (max_drawdown p))).
  set (s := get0 (sharpe_ratio p)).
  intros H.
  assert (B : xltb v (Fin (25 # 100)) = true /\ xltb d (Fin (20 # 100)) = true
              /\ xgtb s (Fin (5 # 10)) = true).
  { destruct (xltb v (Fin (15 # 100)) && xltb d (Fin (10 # 100))
              && xgtb s (Fin 1)) eqn:L.
    - apply andb_true_iff in L. destruct L as [L L3].
      apply andb_true_iff in L. destruct L as [L1 L2].
      split; [apply (xltb_weaken v _ _ L1); discriminate|].
      split; [apply (xltb_weaken d _ _ L2); discriminate|].
      apply (xgtb_weaken s _ _ L3); discriminate.
    - destruct (xltb v (Fin (25 # 100)) && xltb d (Fin (20 # 100))
                && xgtb s (Fin (5 # 10))) eqn:M; [|contradiction H; reflexivity].
      apply andb_true_iff in M. destruct M as [M M3].
      apply andb_true_iff in M. destruct M as [M1 M2]. auto. }
  destruct B as (B1 & B2 & B3).
  rewrite (xltb_not_xgtb v _ (25 # 100) B1) by apply Qle_refl.
  rewrite (xltb_not_xgtb d _ (20 # 100) B2) by apply Qle_refl.
  rewrite (xgtb_not_xltb s _ (5 # 10) B3) by apply Qle_refl.
  reflexivity.
Qed.

Lemma risk_level_recommendations_witness :
  let p := {| volatility := Some (Fin (10 # 100));
              max_drawdown := Some (Fin (- (5 # 100)));
              sharpe_ratio := Some (Fin (15 # 10)) |} in
  _assess_risk_level p = "Low"%string /\
  _generate_risk_recommendations p
  = ["Risk metrics are within acceptable ranges."%string].
Proof.
  intros p. split; [reflexivity|].
  apply (risk_level_recommendations p). discriminate.
Defined.

End ReportingFacts.

(** ** Monte Carlo simulation: what a run returns *)

Module SimulationFacts.

Import Series MonteCarloSimulator.

Lemma counter_choice_sized : @choice_sized counter_numpy.
Proof. intros g n k. simpl. rewrite length_map, length_seq. reflexivity. Qed.

Lemma last_cumprod_from (acc d : Q) (fs : list Q) :
  fs <> [] -> last (cumprod_from acc fs) d == acc * prod fs.
Proof.
  revert acc. induction fs as [|f fs IH]; intros acc Hne; [contradiction|].
  destruct fs as [|f' fs'].
  - simpl. unfold prod. simpl. ring.
  - change (last (cumprod_from (acc * f) (f' :: fs')) d
            == acc * prod (f :: f' :: fs')).
    rewrite IH by discriminate.
    unfold prod. simpl. rewrite (AnalyticsFacts.fold_mult_acc fs' (1 * f * f')),
      (AnalyticsFacts.fold_mult_acc fs' (1 * f')). ring.
Qed.

Lemma last_cumprod (d : Q) (fs : list Q) :
  fs <> [] -> last (cumprod fs) d == prod fs.
Proof.
  destruct fs as [|f fs]; [contradiction|]. intros _.
  destruct fs as [|f' fs'].
  - simpl. unfold prod. simpl. ring.
  - change (last (cumprod_from f (f' :: fs')) d == prod (f :: f' :: fs')).
    rewrite last_cumprod_from by discriminate.
    unfold prod. simpl. rewrite (AnalyticsFacts.fold_mult_acc fs' (1 * f * f')),
      (AnalyticsFacts.fold_mult_acc fs' (1 * f')). ring.
Qed.

Lemma last_map {A B} (f : A -> B) (l : list A) (d : A) :
  last (map f l) (f d) = f (last l d).
Proof.
  induction l as [|x l IH]; [reflexivity|].
  destruct l; [reflexivity|]. exact IH.
Qed.

Lemma rev_head_last {A} (l : list A) (x d : A) (t : list A) :
  rev l = x :: t -> last l d = x.
Proof.
  intros H. rewrite <- (rev_involutive l), H. simpl. apply last_last.
Qed.

Section Runs.

Context {numpy : Numpy}.
Hypothesis sized : choice_sized.

Lemma sample_length (returns : list Q) (g : rng) :
  List.length (fst (sample returns g)) = List.length returns.
Proof.
  unfold sample. pose proof (sized g (List.length returns) (List.length returns)) as L.
  destruct (np_choice g _ _) as [idx g']. simpl in *.
  rewrite length_map. exact L.
Qed.

(** What a simulation computes from the returns it drew. *)
Lemma simulate_spec (returns : list Q) (initial_capital : Q) (i : Z) (g : rng) :
  let boot := fst (sample returns g) in
  let pv := map (fun c => initial_capital * c)
                (cumprod (map (fun r => 1 + r) boot)) in
  fst (simulate returns initial_capital i g)
  = match rev pv with
    | [] => None
    | final_value :: _ =>
        Some {| simulation := i;
                final_value := final_value;
                total_return :=
                  fdiv (final_value - initial_capital) initial_capital;
                max_drawdown := _calculate_max_drawdown pv |}
    end.
Proof.
  unfold simulate. destruct (sample returns g) as [boot g']. simpl.
  destruct (rev _); reflexivity.
Qed.

Lemma curve_nonempty (initial_capital : Q) (boot : list Q) :
  boot <> [] ->
  rev (map (fun c => initial_capital * c) (cumprod (map (fun r => 1 + r) boot)))
  <> [].
Proof.
  destruct boot as [|b boot]; [contradiction|]. intros _ H.
  apply (f_equal (@List.length Q)) in H. rewrite length_rev in H.
  simpl in H. discriminate.
Qed.

Lemma simulate_some (returns : list Q) (initial_capital : Q) (i : Z) (g : rng) :
  returns <> [] ->
  exists r, fst (simulate returns initial_capital i g) = Some r.
Proof.
  intros Hne. rewrite simulate_spec. cbv zeta.
  pose proof (sample_length returns g) as L.
  assert (Hb : fst (sample returns g) <> []).
  { intros E. rewrite E in L. destruct returns; [contradiction|discriminate]. }
  pose proof (curve_nonempty initial_capital _ Hb) as C.
  destruct (rev _) as [|fv t]; [contradiction|]. eexists. reflexivity.
Qed.

Lemma simulate_none (initial_capital : Q) (i : Z) (g : rng) :
  fst (simulate [] initial_capital i g) = None.
Proof.
  rewrite simulate_spec. cbv zeta.
  pose proof (sample_length [] g) as L.
  destruct (fst (sample [] g)); [reflexivity|discriminate].
Qed.

Lemma simulations_length (returns : list Q) (initial_capital : Q)
    (ixs : list Z) (results : list sim_result) (g : rng) :
  returns <> [] ->
  exists rs,
    fst (simulations returns initial_capital ixs results g) = Some rs /\
    List.length rs = (List.length results + List.length ixs)%nat.
Proof.
  intros Hne. revert results g.
  induction ixs as [|i ixs IH]; intros results g; simpl.
  - exists results. split; [reflexivity|lia].
  - destruct (simulate_some returns initial_capital i g Hne) as [r Hr].
    destruct (simulate returns initial_capital i g) as [[r'|] g']; simpl in Hr;
      [|discriminate].
    destruct (IH (results ++ [r']) g') as (rs & H1 & H2).
    exists rs. split; [exact H1|]. rewrite H2, length_app. simpl. lia.
Qed.

(** X5: [run_monte_carlo] returns the empty dict when it is asked for no
    simulation or when the return series is empty (the final value of an
    empty curve cannot be read); otherwise it returns an analysis that
    reports exactly the requested number of simulations. *)
Theorem run_monte_carlo_result (n_simulations : Z) (returns : list Q)
    (initial_capital : Q) (g : rng) :
  ((n_simulations <= 0)%Z \/ returns = [] ->
   fst (run_monte_carlo n_simulations returns initial_capital g) = None) /\
  ((0 < n_simulations)%Z -> returns <> [] ->
   exists a,
     fst (run_monte_carlo n_simulations returns initial_capital g) = Some a /\
     n_simulations_done a = n_simulations).
Proof.
  unfold run_monte_carlo. split.
  - intros [Hn|He].
    + replace (Z.to_nat n_simulations) with O by lia. reflexivity.
    + subst returns. destruct (Z.to_nat n_simulations) as [|k]; [reflexivity|].
      simpl. pose proof (simulate_none initial_capital 0 g) as N.
      destruct (simulate [] initial_capital 0%Z g) as [[r|] g']; simpl in N;
        [discriminate|reflexivity].
  - intros Hn Hne.
    destruct (simulations_length returns initial_capital
                (map Z.of_nat (seq 0 (Z.to_nat n_simulations))) [] g Hne)
      as (rs & H1 & H2).
    rewrite length_map, length_seq in H2. simpl in H2.
    destruct (simulations _ _ _ _ _) as [[rs'|] g']; simpl in H1;
      [|discriminate].
    injection H1 as ->. simpl.
    destruct rs as [|r rs]; [simpl in H2; lia|].
    eexists. split; [reflexivity|]. simpl. unfold Py.len. rewrite H2. lia.
Qed.

(** X6: the final value of a simulation is the initial capital compounded
    by the returns it drew, initial_capital x (1 + total return of the
    drawn series); for a non-zero capital the recorded total return is the
    total return of the drawn series. *)
Theorem simulation_final_value (returns : list Q) (initial_capital : Q)
    (i : Z) (g : rng) (r : sim_result) :
  fst (simulate returns initial_capital i g) = Some r ->
  let drawn := fst (sample returns g) in
  final_value r
  == initial_capital * (1 + PerformanceAnalytics._calculate_total_return drawn)
  /\ (~ initial_capital == 0 ->
      xeq (total_return r)
          (Fin (PerformanceAnalytics._calculate_total_return drawn))).
Proof.
  rewrite simulate_spec. cbv zeta. intros H.
  set (drawn := fst (sample returns g)) in *.
  destruct (rev _) as [|fv t] eqn:R; [discriminate|].
  injection H as <-. simpl.
  assert (Hd : drawn <> []).
  { intros E. rewrite E in R. discriminate. }
  apply (rev_head_last _ _ (initial_capital * 0)) in R.
  rewrite last_map in R.
  assert (Hfv : fv == initial_capital
                      * (1 + PerformanceAnalytics._calculate_total_return drawn)).
  { rewrite <- R. rewrite last_cumprod
      by (destruct drawn; [contradiction|discriminate]).
    unfold PerformanceAnalytics._calculate_total_return. ring. }
  split; [exact Hfv|]. intros Hc. unfold fdiv.
  destruct (Qeq_bool initial_capital 0) eqn:Z;
    [apply Qeq_bool_iff in Z; contradiction|].
  simpl. rewrite Hfv. field. exact Hc.
Qed.


End Runs.

Lemma run_monte_carlo_result_witness :
  exists a,
    fst (@run_monte_carlo counter_numpy 3 [1 # 10; - (1 # 5)] 1000 O) = Some a /\
    n_simulations_done a = 3%Z.
Proof.
  destruct (@run_monte_carlo_result counter_numpy counter_choice_sized 3
              [1 # 10; - (1 # 5)] 1000 O) as [_ H].
  apply H; [reflexivity|discriminate].
Defined.

Lemma simulation_final_value_witness :
  exists r,
    fst (@simulate counter_numpy [1 # 10; - (1 # 5)] 1000 0 O) = Some r /\
    final_value r == 880.
Proof.
  eexists. split; [reflexivity|].
  destruct (@simulation_final_value counter_numpy [1 # 10; - (1 # 5)] 1000 0 O
              _ eq_refl) as [H _].
  rewrite H. vm_compute. reflexivity.
Defined.


End SimulationFacts.

(** ** The momentum back-test: positions, trades and the recorded curve *)

Module LedgerFacts.

Import Series PolygonBacktestingEngine.

Lemma length_insert_le {A} (k : string) (v : A) (m : Dict.t A) :
  (List.length (Dict.insert k v m) <= S (List.length m))%nat.
Proof.
  induction m as [|[k' v'] m IH]; simpl; [lia|].
  destruct (String.eqb k' k); simpl; lia.
Qed.

Lemma length_remove_le {A} (k : string) (m : Dict.t A) :
  (List.length (Dict.remove k m) <= List.length m)%nat.
Proof.
  induction m as [|[k' v'] m IH]; simpl; [lia|].
  destruct (String.eqb k' k); simpl; lia.
Qed.

Lemma exit_symbol_positions_length (data : Dict.t frame) (params : Params.t)
    (cfg : config) (d : Z) (r : results) (sym : string) :
  (List.length (positions (exit_symbol data params cfg d r sym))
   <= List.length (positions r))%nat.
Proof.
  unfold exit_symbol.
  destruct (Dict.lookup sym (positions r)); [|lia].
  destruct (Dict.lookup sym data); [|lia].
  destruct (loc _ d); [|lia].
  destruct (_ <=? _)%Z; [|lia]. simpl. apply length_remove_le.
Qed.

Lemma exits_positions_length (data : Dict.t frame) (params : Params.t)
    (cfg : config) (d : Z) (syms : list string) (r : results) :
  (List.length (positions (fold_left (exit_symbol data params cfg d) syms r))
   <= List.length (positions r))%nat.
Proof.
  revert r. induction syms as [|sym syms IH]; intros r; simpl; [lia|].
  etransitivity; [apply IH|]. apply exit_symbol_positions_length.
Qed.

Lemma enter_positions_length (params : Params.t) (d : Z) (r : results)
    (c : candidate) :
  (List.length (positions (enter params d r c)) <= S (List.length (positions r)))%nat.
Proof.
  unfold enter. destruct (Qeq_bool _ 0); [lia|].
  destruct (Py.Qgtb _ 0); [|lia]. destruct (Qle_bool _ _); [|lia].
  simpl. apply length_insert_le.
Qed.

Lemma enters_positions_length (params : Params.t) (d : Z) (cs : list candidate)
    (r : results) :
  (List.length (positions (fold_left (enter params d) cs r))
   <= List.length (positions r) + List.length cs)%nat.
Proof.
  revert r. induction cs as [|c cs IH]; intros r; simpl; [lia|].
  etransitivity; [apply IH|].
  pose proof (enter_positions_length params d r c). lia.
Qed.

Lemma step_positions_bound (data : Dict.t frame) (params : Params.t)
    (cfg : config) (r : results) (d : Z) :
  (Py.len (positions r) <= Z.max 0 (Params.max_positions params))%Z ->
  (Py.len (positions (step data params cfg r d))
   <= Z.max 0 (Params.max_positions params))%Z.
Proof.
  intros H. unfold step, entries, exits.
  set (r1 := mark_to_market data d r).
  set (r2 := fold_left _ _ r1).
  assert (H2 : (List.length (positions r2) <= List.length (positions r1))%nat)
    by (apply exits_positions_length).
  change (positions r1) with (positions r) in H2.
  unfold Py.len in *.
  destruct (Z.ltb_spec (Z.of_nat (List.length (positions r2)))
                       (Params.max_positions params)) as [Hlt|Hge]; [|lia].
  set (cs := firstn _ _).
  pose proof (enters_positions_length params d cs r2) as E.
  assert (Hcs : (List.length cs
                 <= Z.to_nat (Params.max_positions params
                              - Z.of_nat (List.length (positions r2))))%nat)
    by (unfold cs; apply firstn_le_length).
  lia.
Qed.

(** X9: the momentum back-test never holds more than [max_positions]
    positions: after every simulated date the number of open positions is
    at most [max_positions] (none when [max_positions] is not positive). *)
Theorem momentum_respects_max_positions (data : Dict.t frame)
    (params : Params.t) (cfg : config) :
  Forall (fun r =>
            (Py.len (positions r) <= Z.max 0 (Params.max_positions params))%Z)
         (run_states data params cfg (initial_results params) (all_dates data)).
Proof.
  assert (G : forall ds r,
            (Py.len (positions r) <= Z.max 0 (Params.max_positions params))%Z ->
            Forall (fun r =>
                      (Py.len (positions r)
                       <= Z.max 0 (Params.max_positions params))%Z)
                   (run_states data params cfg r ds)).
  { induction ds as [|d ds IH]; intros r H; simpl; constructor.
    - apply step_positions_bound. exact H.
    - apply IH. apply step_positions_bound. exact H. }
  apply G. unfold Py.len. simpl. lia.
Qed.

(** *** Holding period *)

Lemma exit_held_long_enough (data : Dict.t frame) (params : Params.t)
    (cfg : config) (d : Z) (r : results) (sym : string) :
  held_long_enough cfg r ->
  held_long_enough cfg (exit_symbol data params cfg d r sym).
Proof.
  intros H. unfold exit_symbol.
  destruct (Dict.lookup sym (positions r)) as [p|]; [|exact H].
  destruct (Dict.lookup sym data) as [df|]; [|exact H].
  destruct (loc df d) as [price|]; [|exact H].
  destruct (Z.leb_spec (holding_period cfg) (d - Position.entry_date p));
    [|exact H].
  unfold held_long_enough. simpl. apply Forall_app. split; [exact H|].
  constructor; [|constructor]. simpl. assumption.
Qed.

Lemma enter_held_long_enough (params : Params.t) (cfg : config) (d : Z)
    (r : results) (c : candidate) :
  held_long_enough cfg r -> held_long_enough cfg (enter params d r c).
Proof.
  intros H. unfold enter. destruct (Qeq_bool _ 0); [exact H|].
  destruct (Py.Qgtb _ 0); [|exact H]. destruct (Qle_bool _ _); exact H.
Qed.

(** X10: every trade of the momentum back-test was held for at least the
    holding period: exit_date - entry_date >= holding_period days; with a
    holding period of at least one day every exit date is after its entry
    date. *)
Theorem momentum_trades_held (data : Dict.t frame) (params : Params.t)
    (cfg : config) (t : Trade.t) :
  In t (trades (_run_momentum_strategy data params cfg)) ->
  (holding_period cfg <= Trade.exit_date t - Trade.entry_date t)%Z /\
  ((1 <= holding_period cfg)%Z -> (Trade.entry_date t < Trade.exit_date t)%Z).
Proof.
  intros Hin.
  assert (H : held_long_enough cfg (_run_momentum_strategy data params cfg)).
  { apply (PolygonFacts.run_invariant data params cfg (held_long_enough cfg)).
    - intros d r Hr. exact Hr.
    - intros. apply exit_held_long_enough. assumption.
    - intros. apply enter_held_long_enough. assumption.
    - constructor. }
  unfold held_long_enough in H. rewrite Forall_forall in H.
  specialize (H _ Hin). split; [exact H|lia].
Qed.

Lemma momentum_trades_held_witness :
  exists t,
    In t (trades (_run_momentum_strategy scenario_data Params.default_params
                                         one_day_config)) /\
    Trade.entry_date t = 1%Z /\ Trade.exit_date t = 2%Z /\
    (holding_period one_day_config
     <= Trade.exit_date t - Trade.entry_date t)%Z.
Proof.
  eexists. split; [left; reflexivity|]. split; [reflexivity|].
  split; [reflexivity|].
  apply (momentum_trades_held scenario_data Params.default_params one_day_config).
  left. reflexivity.
Defined.

(** *** The recorded curve *)

Lemma exit_same_record (data : Dict.t frame) (params : Params.t) (cfg : config)
    (d : Z) (r0 r : results) (sym : string) :
  same_record r r0 -> same_record (exit_symbol data params cfg d r sym) r0.
Proof.
  intros H. unfold exit_symbol.
  destruct (Dict.lookup sym (positions r)); [|exact H].
  destruct (Dict.lookup sym data); [|exact H].
  destruct (loc _ d); [|exact H].
  destruct (_ <=? _)%Z; exact H.
Qed.

Lemma enter_same_record (params : Params.t) (d : Z) (r0 r : results)
    (c : candidate) :
  same_record r r0 -> same_record (enter params d r c) r0.
Proof.
  intros H. unfold enter. destruct (Qeq_bool _ 0); [exact H|].
  destruct (Py.Qgtb _ 0); [|exact H]. destruct (Qle_bool _ _); exact H.
Qed.

Lemma step_record (data : Dict.t frame) (params : Params.t) (cfg : config)
    (r : results) (d : Z) :
  same_record (step data params cfg r d) (mark_to_market data d r).
Proof.
  unfold step, entries, exits.
  set (r1 := mark_to_market data d r).
  set (r2 := fold_left _ _ r1).
  assert (H2 : same_record r2 r1).
  { apply (PolygonFacts.fold_left_invariant (fun x => same_record x r1)).
    - intros a x Ha. apply exit_same_record. exact Ha.
    - repeat split. }
  destruct (_ <? _)%Z; [|exact H2].
  apply (PolygonFacts.fold_left_invariant (fun x => same_record x r1));
    [|exact H2].
  intros a x Ha. apply enter_same_record. exact Ha.
Qed.

Lemma last_default {A} (l : list A) (x a b : A) :
  last (x :: l) a = last (x :: l) b.
Proof.
  revert x. induction l as [|y l IH]; intros x; [reflexivity|].
  change (last (y :: l) a = last (y :: l) b). apply IH.
Qed.

Lemma run_record (data : Dict.t frame) (params : Params.t) (cfg : config)
    (ds : list Z) (r : results) :
  let r' := fold_left (step data params cfg) ds r in
  dates r' = dates r ++ ds /\
  exists vs,
    portfolio_value r' = portfolio_value r ++ vs /\
    List.length vs = List.length ds /\
    total_value r' = last vs (total_value r) /\
    (positions r = [] -> forall v vs', vs = v :: vs' -> v = cash r).
Proof.
  revert r. induction ds as [|d ds IH]; intros r; cbv zeta.
  - simpl. rewrite app_nil_r. split; [reflexivity|].
    exists []. rewrite app_nil_r. repeat split. intros _ v vs' E. discriminate.
  - simpl. destruct (IH (step data params cfg r d)) as (Hd & vs & Hv & Hl & Ht & _).
    destruct (step_record data params cfg r d) as (Sp & Sd & St).
    rewrite Sd in Hd. rewrite Sp in Hv. rewrite St in Ht. simpl in Hd, Hv, Ht.
    split; [rewrite Hd, <- app_assoc; reflexivity|].
    eexists (_ :: vs). split; [rewrite Hv, <- app_assoc; reflexivity|].
    split; [simpl; rewrite Hl; reflexivity|]. split.
    + rewrite Ht. destruct vs as [|q vs]; [reflexivity|].
      change (last (q :: vs) (total_value (mark_to_market data d r))
              = last (q :: vs) (total_value r)).
      apply last_default.
    + intros Hp v vs' [= <- _]. rewrite Hp. reflexivity.
Qed.

(** X11: the momentum back-test records one portfolio value and one date
    per simulated date, in order; the first recorded value is the initial
    capital (which the validator and the performance report read back as
    the initial capital), and [total_value] is the last recorded value. *)
Theorem momentum_curve_record (data : Dict.t frame) (params : Params.t)
    (cfg : config) :
  let r := _run_momentum_strategy data params cfg in
  dates r = all_dates data /\
  List.length (portfolio_value r) = List.length (all_dates data) /\
  hd (Params.initial_capital params) (portfolio_value r)
  = Params.initial_capital params /\
  total_value r = last (portfolio_value r) (Params.initial_capital params).
Proof.
  cbv zeta. unfold _run_momentum_strategy.
  destruct (run_record data params cfg (all_dates data) (initial_results params))
    as (Hd & vs & Hv & Hl & Ht & Hh).
  simpl in Hd, Hv, Ht, Hh.
  split; [exact Hd|]. rewrite Hv. split; [exact Hl|]. split.
  - destruct vs as [|v vs']; [reflexivity|]. simpl.
    apply (Hh eq_refl v vs'). reflexivity.
  - exact Ht.
Qed.

(** *** The books balance *)

Lemma lookup_None_keys {A} (k : string) (m : Dict.t A) :
  Dict.lookup k m = None -> ~ In k (map fst m).
Proof.
  induction m as [|[k' v] m IH]; simpl; [tauto|].
  destruct (String.eqb_spec k' k); [discriminate|].
  intros H [E|Hin]; [congruence|]. exact (IH H Hin).
Qed.

Lemma remove_fresh {A} (k : string) (m : Dict.t A) :
  ~ In k (map fst m) -> Dict.remove k m = m.
Proof.
  induction m as [|[k' v] m IH]; simpl; [reflexivity|].
  intros H. destruct (String.eqb_spec k' k); [exfalso; apply H; left; assumption|].
  f_equal. apply IH. tauto.
Qed.

Lemma insert_fresh {A} (k : string) (v : A) (m : Dict.t A) :
  ~ In k (map fst m) -> Dict.insert k v m = m ++ [(k, v)].
Proof.
  induction m as [|[k' v'] m IH]; simpl; [reflexivity|].
  intros H. destruct (String.eqb_spec k' k); [exfalso; apply H; left; assumption|].
  f_equal. apply IH. tauto.
Qed.

Lemma remove_keys_incl {A} (k x : string) (m : Dict.t A) :
  In x (map fst (Dict.remove k m)) -> In x (map fst m).
Proof.
  induction m as [|[k' v] m IH]; simpl; [tauto|].
  destruct (String.eqb k' k); simpl; tauto.
Qed.

Lemma remove_NoDup {A} (k : string) (m : Dict.t A) :
  NoDup (map fst m) -> NoDup (map fst (Dict.remove k m)).
Proof.
  induction m as [|[k' v] m IH]; simpl; [constructor|].
  intros H. inversion H as [|? ? Hn Hd]; subst.
  destruct (String.eqb k' k); [apply IH; exact Hd|].
  simpl. constructor; [|apply IH; exact Hd].
  intros Hin. apply Hn. eapply remove_keys_incl. exact Hin.
Qed.

Lemma remove_cost (f : Position.t -> Q) (k : string) (m : Dict.t Position.t)
    (p : Position.t) :
  NoDup (map fst m) -> Dict.lookup k m = Some p ->
  fold_right Qplus 0 (map (fun sp => f (snd sp)) (Dict.remove k m))
  == fold_right Qplus 0 (map (fun sp => f (snd sp)) m) - f p.
Proof.
  induction m as [|[k' v] m IH]; simpl; [discriminate|].
  intros H L. inversion H as [|? ? Hn Hd]; subst.
  destruct (String.eqb_spec k' k) as [E|E].
  - injection L as ->. subst k'. rewrite remove_fresh by exact Hn. ring.
  - simpl. rewrite (IH Hd L). ring.
Qed.

Lemma sum_app (xs ys : list Q) :
  fold_right Qplus 0 (xs ++ ys)
  == fold_right Qplus 0 xs + fold_right Qplus 0 ys.
Proof.
  induction xs as [|x xs IH]; simpl; [ring|]. rewrite IH. ring.
Qed.

Lemma exit_ledger_ok (data : Dict.t frame) (params : Params.t) (cfg : config)
    (d : Z) (r : results) (sym : string) :
  ledger_ok params r -> ledger_ok params (exit_symbol data params cfg d r sym).
Proof.
  intros [Hb Hn]. unfold exit_symbol.
  destruct (Dict.lookup sym (positions r)) as [p|] eqn:Lp; [|split; assumption].
  destruct (Dict.lookup sym data) as [df|]; [|split; assumption].
  destruct (loc df d) as [price|]; [|split; assumption].
  destruct (_ <=? _)%Z; [|split; assumption].
  split; [|simpl; apply remove_NoDup; exact Hn].
  unfold balanced, open_cost, realised_pnl in *. simpl.
  rewrite (remove_cost Position.cost sym (positions r) p Hn Lp).
  rewrite map_app, sum_app. simpl.
  setoid_replace (cash r + Position.quantity p * price * (1 - Params.commission params)
                  + (fold_right Qplus 0
                       (map (fun sp => Position.cost (snd sp)) (positions r))
                     - Position.cost p))
    with (cash r
          + fold_right Qplus 0
              (map (fun sp => Position.cost (snd sp)) (positions r))
          + (Position.quantity p * price * (1 - Params.commission params)
             - Position.cost p)) by ring.
  rewrite Hb. ring.
Qed.

Lemma enter_ledger_ok (params : Params.t) (d : Z) (r : results) (c : candidate) :
  ledger_ok params r -> ~ In (c_symbol c) (map fst (positions r)) ->
  ledger_ok params (enter params d r c) /\
  (forall k, In k (map fst (positions (enter params d r c))) ->
             In k (map fst (positions r)) \/ k = c_symbol c).
Proof.
  intros [Hb Hn] Hfresh. unfold enter.
  destruct (Qeq_bool _ 0); [split; [split; assumption|auto]|].
  destruct (Py.Qgtb _ 0); [|split; [split; assumption|auto]].
  destruct (Qle_bool _ _); [|split; [split; assumption|auto]].
  simpl. rewrite insert_fresh by exact Hfresh. split; [split|].
  - unfold balanced, open_cost, realised_pnl in *. simpl.
    rewrite map_app, sum_app. simpl.
    set (cost := cash r * Params.position_size params / c_price c * c_price c
                 * (1 + Params.commission params)) in *.
    setoid_replace (cash r - cost
                    + (fold_right Qplus 0
                         (map (fun sp => Position.cost (snd sp)) (positions r))
                       + (cost + 0)))
      with (cash r
            + fold_right Qplus 0
                (map (fun sp => Position.cost (snd sp)) (positions r)))
      by ring.
    exact Hb.
  - simpl. rewrite map_app. simpl. apply NoDup_app; [exact Hn| |].
    + constructor; [simpl; tauto|constructor].
    + intros x Hx [E|[]]. subst x. exact (Hfresh Hx).
  - intros k. simpl. rewrite map_app, in_app_iff. simpl.
    intros [H|[H|[]]]; auto.
Qed.

Lemma enters_ledger_ok (params : Params.t) (d : Z) (cs : list candidate)
    (r : results) :
  ledger_ok params r ->
  NoDup (map c_symbol cs) ->
  (forall c, In c cs -> ~ In (c_symbol c) (map fst (positions r))) ->
  ledger_ok params (fold_left (enter params d) cs r).
Proof.
  revert r. induction cs as [|c cs IH]; intros r Hr Hn Hf; simpl; [exact Hr|].
  inversion Hn as [|? ? Hc Hn']; subst.
  destruct (enter_ledger_ok params d r c Hr (Hf c (or_introl eq_refl)))
    as [Hr' Hk].
  apply IH; [exact Hr'|exact Hn'|].
  intros c' Hin Hin'. destruct (Hk _ Hin') as [H|H].
  - exact (Hf c' (or_intror Hin) H).
  - apply Hc. rewrite <- H. apply in_map. exact Hin.
Qed.

Lemma momentum_candidate_symbol (cfg : config) (d : Z) (r : results)
    (sf : string * frame) (c : candidate) :
  momentum_candidate cfg d r sf = Some c ->
  c_symbol c = fst sf /\ Dict.lookup (fst sf) (positions r) = None.
Proof.
  unfold momentum_candidate. destruct sf as [sym df]. simpl.
  destruct (Dict.lookup sym (positions r)); [discriminate|].
  destruct (loc df d); [|discriminate].
  destruct (get_loc df d); [|discriminate].
  destruct (_ <=? _)%nat; [|discriminate].
  destruct (index df _) as [[? ?]|]; [|discriminate].
  destruct (xgtb _ _); [|discriminate].
  intros [= <-]. split; reflexivity.
Qed.

Lemma candidates_symbols (cfg : config) (d : Z) (r : results)
    (data : Dict.t frame) (c : candidate) :
  In c (candidates cfg d r data) ->
  In (c_symbol c) (map fst data) /\
  ~ In (c_symbol c) (map fst (positions r)).
Proof.
  induction data as [|sf data IH]; simpl; [tauto|].
  destruct (momentum_candidate cfg d r sf) as [c'|] eqn:E.
  - intros [<-|Hin].
    + destruct (momentum_candidate_symbol _ _ _ _ _ E) as [-> L].
      split; [left; reflexivity|apply lookup_None_keys; exact L].
    + destruct (IH Hin). split; [right|]; assumption.
  - intros Hin. destruct (IH Hin). split; [right|]; assumption.
Qed.

Lemma candidates_NoDup (cfg : config) (d : Z) (r : results)
    (data : Dict.t frame) :
  NoDup (map fst data) -> NoDup (map c_symbol (candidates cfg d r data)).
Proof.
  induction data as [|sf data IH]; simpl; [constructor|].
  intros H. inversion H as [|? ? Hn Hd]; subst.
  destruct (momentum_candidate cfg d r sf) as [c|] eqn:E; [|apply IH; exact Hd].
  simpl. constructor; [|apply IH; exact Hd].
  destruct (momentum_candidate_symbol _ _ _ _ _ E) as [-> _].
  intros Hin. apply in_map_iff in Hin. destruct Hin as (c' & Ec & Hc).
  apply candidates_symbols in Hc. destruct Hc as [Hc _].
  rewrite Ec in Hc. exact (Hn Hc).
Qed.

Lemma insert_desc_perm (c : candidate) (l : list candidate) :
  Permutation (insert_desc c l) (c :: l).
Proof.
  induction l as [|e l IH]; simpl; [apply Permutation_refl|].
  destruct (xltb _ _); [|apply Permutation_refl].
  eapply Permutation_trans; [apply perm_skip; exact IH|apply perm_swap].
Qed.

Lemma sort_desc_perm (l : list candidate) : Permutation (sort_desc l) l.
Proof.
  unfold sort_desc. induction l as [|c l IH]; simpl; [constructor|].
  eapply Permutation_trans; [apply insert_desc_perm|].
  apply perm_skip. exact IH.
Qed.

Lemma firstn_In {A} (n : nat) (l : list A) (x : A) :
  In x (firstn n l) -> In x l.
Proof.
  revert n. induction l as [|y l IH]; intros n;
    [rewrite firstn_nil; tauto|].
  destruct n; simpl; [tauto|]. intros [H|H]; [left; exact H|right; eauto].
Qed.

Lemma firstn_NoDup {A} (n : nat) (l : list A) : NoDup l -> NoDup (firstn n l).
Proof.
  revert n. induction l as [|x l IH]; intros n H;
    [rewrite firstn_nil; constructor|].
  destruct n; simpl; [constructor|].
  inversion H as [|? ? Hn Hd]; subst. constructor; [|apply IH; exact Hd].
  intros Hin. apply Hn. eapply firstn_In. exact Hin.
Qed.

Lemma mark_ledger_ok (data : Dict.t frame) (params : Params.t) (d : Z)
    (r : results) :
  ledger_ok params r -> ledger_ok params (mark_to_market data d r).
Proof. intros H. exact H. Qed.

Lemma exits_ledger_ok (data : Dict.t frame) (params : Params.t) (cfg : config)
    (d : Z) (r : results) :
  ledger_ok params r -> ledger_ok params (exits data params cfg d r).
Proof.
  unfold exits. generalize (map fst (positions r)). intros syms. revert r.
  induction syms as [|s syms IH]; intros r H; simpl; [exact H|].
  apply IH. apply exit_ledger_ok. exact H.
Qed.

Lemma entries_ledger_ok (data : Dict.t frame) (params : Params.t)
    (cfg : config) (d : Z) (r : results) :
  NoDup (map fst data) ->
  ledger_ok params r -> ledger_ok params (entries data params cfg d r).
Proof.
  intros Hd H. unfold entries. destruct (_ <? _)%Z; [|exact H].
  apply enters_ledger_ok; [exact H| |].
  - rewrite <- firstn_map. apply firstn_NoDup.
    eapply Permutation_NoDup;
      [apply Permutation_map, Permutation_sym, sort_desc_perm|].
    apply candidates_NoDup. exact Hd.
  - intros c Hin. apply firstn_In in Hin.
    apply (Permutation_in _ (sort_desc_perm _)) in Hin.
    apply candidates_symbols in Hin. tauto.
Qed.

Lemma step_ledger_ok (data : Dict.t frame) (params : Params.t) (cfg : config)
    (r : results) (d : Z) :
  NoDup (map fst data) ->
  ledger_ok params r -> ledger_ok params (step data params cfg r d).
Proof.
  intros Hd H. unfold step.
  apply entries_ledger_ok, exits_ledger_ok, mark_ledger_ok; assumption.
Qed.

Lemma initial_ledger_ok (params : Params.t) :
  ledger_ok params (initial_results params).
Proof.
  split; [|constructor].
  unfold balanced, open_cost, realised_pnl. simpl. ring.
Qed.

(** X12: the books of the momentum back-test balance.  For a data set with
    one frame per symbol, after every simulated date and in the returned
    ledger the cash plus the cost basis of the open positions equals the
    initial capital plus the sum of the recorded trades' P&L: no money is
    created or lost by an entry or an exit. *)
Theorem momentum_books_balance (data : Dict.t frame) (params : Params.t)
    (cfg : config) :
  NoDup (map fst data) ->
  Forall (balanced params)
    (run_states data params cfg (initial_results params) (all_dates data)) /\
  balanced params (_run_momentum_strategy data params cfg).
Proof.
  intros Hd. unfold _run_momentum_strategy.
  generalize (initial_ledger_ok params).
  generalize (initial_results params). generalize (all_dates data).
  intros ds. induction ds as [|d ds IH]; intros r H; simpl.
  - split; [constructor|apply H].
  - pose proof (step_ledger_ok data params cfg r d Hd H) as H'.
    destruct (IH _ H') as [F B]. split; [constructor; [apply H'|exact F]|exact B].
Qed.

Lemma momentum_books_balance_witness :
  NoDup (map fst scenario_data) /\
  balanced Params.default_params
    (_run_momentum_strategy scenario_data Params.default_params one_day_config).
Proof.
  assert (H : NoDup (map fst scenario_data))
    by (repeat constructor; simpl; tauto).
  split; [exact H|].
  exact (proj2 (momentum_books_balance scenario_data Params.default_params
                  one_day_config H)).
Defined.

End LedgerFacts.

(** ** EnhancedBacktester._execute_trades: the cash account *)

Module EnhancedLedgerFacts.

Import Series EnhancedBacktester.

Lemma total_cash_effect_app (parameters : Params.t) (ts : list trade)
    (t : trade) :
  total_cash_effect parameters (ts ++ [t])
  == total_cash_effect parameters ts + cash_effect parameters t.
Proof.
  unfold total_cash_effect. induction ts as [|x ts IH]; simpl; [ring|].
  rewrite IH. ring.
Qed.

Lemma Qeq_bool_true_eq (a b : Q) : Qeq_bool a b = true -> a == b.
Proof. apply Qeq_bool_iff. Qed.

Lemma Qeq_bool_false_neq (a b : Q) : Qeq_bool a b = false -> ~ a == b.
Proof.
  intros E H. apply Qeq_bool_iff in H. congruence.
Qed.

Lemma Qabs_zero (a : Q) : a == 0 -> Qabs a == 0.
Proof. intros ->. reflexivity. Qed.

Lemma close_cash_ledger (sym : string) (parameters : Params.t) (d : Z)
    (signal ep : Q) (st : state) :
  cash_ledger parameters st ->
  cash_ledger parameters (close_position sym parameters d signal ep st).
Proof.
  intros [Ha Hb]. unfold close_position.
  destruct (negb _ && negb _); [|split; assumption].
  split; simpl.
  - rewrite total_cash_effect_app. unfold cash_effect. simpl.
    set (q := Qabs (cur_position st)) in *.
    set (c := Params.commission parameters) in *.
    setoid_replace (cash st + (ep * q - ep * q * c)
                    + cur_entry_price st * 0 * (1 + c))
      with (cash st + cur_entry_price st * q * (1 + c)
            + ((ep - cur_entry_price st) * q - ep * q * c
               - cur_entry_price st * q * c)) by ring.
    rewrite Ha. ring.
  - intros _ ts t E. apply app_inj_tail in E. destruct E as [_ <-].
    simpl. reflexivity.
Qed.

Lemma open_cash_ledger (parameters : Params.t) (d : Z) (signal ep : Q)
    (st st' : state) :
  signal == 1 \/ signal == - (1) \/ signal == 0 ->
  cash_ledger parameters st ->
  open_position parameters d signal ep st = Some st' ->
  cash_ledger parameters st'.
Proof.
  intros Hs [Ha Hb]. unfold open_position.
  destruct (negb (Qeq_bool signal 0)) eqn:Es; simpl;
    [|intros [= <-]; split; assumption].
  destruct (Qeq_bool (cur_position st) 0) eqn:Ep; simpl;
    [|intros [= <-]; split; assumption].
  destruct (entry_shares parameters (cash st) ep) as [n|]; [|discriminate].
  destruct (0 <? n)%Z eqn:En; intros [= <-]; [|split; assumption].
  apply Qeq_bool_true_eq in Ep. apply negb_true_iff, Qeq_bool_false_neq in Es.
  apply Z.ltb_lt in En.
  assert (Hn : 0 < inject_Z n) by (unfold Qlt; simpl; lia).
  assert (Habs : Qabs (signal * inject_Z n) == inject_Z n).
  { rewrite Qabs_Qmult. rewrite (Qabs_pos (inject_Z n)) by (apply Qlt_le_weak; exact Hn).
    destruct Hs as [->|[->|H0]]; [| |contradiction].
    - setoid_replace (Qabs 1) with 1 by reflexivity. ring.
    - setoid_replace (Qabs (- (1))) with 1 by reflexivity. ring. }
  split; simpl.
  - rewrite Habs. rewrite <- Ha. rewrite (Qabs_zero _ Ep). ring.
  - intros H0. exfalso. rewrite <- Habs in Hn. rewrite H0 in Hn.
    revert Hn. apply Qlt_irrefl.
Qed.

Lemma step_cash_ledger (sym : string) (parameters : Params.t) (st st' : state)
    (row : signal_row) :
  unit_signal row ->
  cash_ledger parameters st ->
  step sym parameters st row = Some st' ->
  cash_ledger parameters st'.
Proof.
  unfold unit_signal, step. destruct (Signal row) as [signal|].
  - intros Hs H E. eapply open_cash_ledger; [exact Hs| |exact E].
    apply close_cash_ledger. exact H.
  - intros _ H [= <-]. exact H.
Qed.

Lemma run_cash_ledger (sym : string) (parameters : Params.t)
    (signals : list signal_row) (st st' : state) :
  Forall unit_signal signals ->
  cash_ledger parameters st ->
  run sym parameters st signals = Some st' ->
  cash_ledger parameters st'.
Proof.
  revert st. induction signals as [|row rest IH]; intros st Hs H; simpl.
  - intros [= <-]. exact H.
  - inversion Hs as [|? ? Hrow Hrest]; subst.
    destruct (step sym parameters st row) as [st1|] eqn:E; [|discriminate].
    apply IH; [exact Hrest|]. eapply step_cash_ledger; eassumption.
Qed.

Lemma initial_cash_ledger (parameters : Params.t) :
  cash_ledger parameters (initial_state parameters).
Proof.
  split; simpl.
  - unfold total_cash_effect. simpl. ring.
  - intros _ ts t E. destruct ts; discriminate.
Qed.

(** X16: the cash of the last recorded trade is the initial capital plus, over
    all recorded trades, the net P&L less the commission of the entry:
    for signals in {1, -1, 0, nan} the account adds up, and the sum of the
    net P&L overstates the final cash by the entry commissions. *)
Theorem enhanced_final_cash (signals : list signal_row) (sym : string)
    (parameters : Params.t) (ts : list trade) (t : trade) :
  Forall unit_signal signals ->
  _execute_trades signals sym parameters = ts ++ [t] ->
  cash_after t
  == Params.initial_capital parameters
     + total_cash_effect parameters (ts ++ [t]).
Proof.
  intros Hs. unfold _execute_trades.
  destruct (run sym parameters (initial_state parameters) signals) as [st|] eqn:E;
    [|intros H; destruct ts; discriminate].
  pose proof (run_cash_ledger sym parameters signals _ _ Hs
                (initial_cash_ledger parameters) E) as [Ha Hb].
  unfold close_final.
  destruct (negb (Qeq_bool (cur_position st) 0)) eqn:Ep.
  - destruct (rev signals) as [|lst ?] eqn:Er.
    + apply negb_true_iff, Qeq_bool_false_neq in Ep.
      intros H. exfalso. clear Ha Hb.
      apply (f_equal (@rev _)) in Er. rewrite rev_involutive in Er.
      subst signals. simpl in E. injection E as <-. apply Ep. reflexivity.
    + intros H. apply app_inj_tail in H. destruct H as [<- <-].
      rewrite total_cash_effect_app. unfold cash_effect. simpl.
      set (q := Qabs (cur_position st)) in *.
      set (c := Params.commission parameters) in *.
      set (x := Price lst * (1 - Params.slippage parameters)).
      setoid_replace (cash st + x * q - x * q * c)
        with (cash st + cur_entry_price st * q * (1 + c)
              + ((x - cur_entry_price st) * q - x * q * c
                 - cur_entry_price st * q * c)) by ring.
      rewrite Ha. ring.
  - apply negb_false_iff, Qeq_bool_true_eq in Ep. intros H.
    rewrite (Hb Ep _ _ H). rewrite <- H, <- Ha.
    rewrite (Qabs_zero _ Ep). ring.
Qed.

Lemma enhanced_final_cash_witness :
  exists t,
    _execute_trades round_trip_signals "TEST" Params.default_params = [] ++ [t]
    /\ cash_after t
       == Params.initial_capital Params.default_params
          + total_cash_effect Params.default_params ([] ++ [t])
    /\ cash_after t == 10096425505 # 100000.
Proof.
  assert (Hs : Forall unit_signal round_trip_signals).
  { constructor; [left; reflexivity|].
    constructor; [right; right; reflexivity|constructor]. }
  eexists. split; [reflexivity|]. split.
  - apply (enhanced_final_cash round_trip_signals "TEST" Params.default_params
             [] _ Hs).
    reflexivity.
  - vm_compute. reflexivity.
Defined.

(** *** The cash is never negative *)

Lemma int_nonpositive (x : Q) : x <= 0 -> (Py.int x <= 0)%Z.
Proof.
  destruct x as [n d]. unfold Qle, Py.int. simpl. intros H.
  assert (Hn : (n <= 0)%Z) by lia.
  rewrite <- (Z.opp_involutive n). rewrite Z.quot_opp_l by lia.
  assert (0 <= Z.quot (- n) (Z.pos d))%Z by (apply Z.quot_pos; lia). lia.
Qed.

Lemma execution_price_nonnegative (parameters : Params.t) (signal price : Q) :
  0 <= Params.slippage parameters -> Params.slippage parameters <= 1 ->
  0 <= price -> 0 <= execution_price parameters signal price.
Proof.
  intros H0 H1 Hp. unfold execution_price.
  destruct (Py.Qgtb signal 0); [|destruct (Py.Qltb signal 0)].
  - apply Qmult_le_0_compat; [exact Hp|lra].
  - apply Qmult_le_0_compat; [exact Hp|lra].
  - exact Hp.
Qed.

Lemma exit_proceeds_nonnegative (x q c : Q) :
  0 <= x -> 0 <= q -> 0 <= c -> c <= 1 -> 0 <= x * q - x * q * c.
Proof.
  intros Hx Hq H0 H1.
  setoid_replace (x * q - x * q * c) with (x * q * (1 - c)) by ring.
  apply Qmult_le_0_compat; [apply Qmult_le_0_compat; assumption|lra].
Qed.

Lemma close_solvent (sym : string) (parameters : Params.t) (d : Z)
    (signal ep : Q) (st : state) :
  0 <= Params.commission parameters -> Params.commission parameters <= 1 ->
  0 <= ep ->
  solvent st -> solvent (close_position sym parameters d signal ep st).
Proof.
  intros H0 H1 Hep [Hc Ht]. unfold close_position.
  destruct (negb _ && negb _); [|split; assumption].
  pose proof (exit_proceeds_nonnegative ep (Qabs (cur_position st))
                (Params.commission parameters) Hep (Qabs_nonneg _) H0 H1) as Hx.
  assert (Hc' : 0 <= cash st
                     + (ep * Qabs (cur_position st)
                        - ep * Qabs (cur_position st)
                          * Params.commission parameters)) by lra.
  split; simpl; [exact Hc'|].
  apply Forall_app. split; [exact Ht|]. constructor; [exact Hc'|constructor].
Qed.

Lemma affordable_entry (cash ps ep c : Q) (n : Z) :
  0 <= cash -> 0 < ep -> 0 <= c -> ps * (1 + c) <= 1 ->
  (0 < n)%Z -> n = Py.int (cash * ps / ep) ->
  0 <= cash - (ep * inject_Z n + ep * inject_Z n * c).
Proof.
  intros Hcash Hep Hc Hps Hn ->.
  destruct (Qlt_le_dec (cash * ps / ep) 0) as [Hneg|Hpos].
  - apply Qlt_le_weak, int_nonpositive in Hneg. lia.
  - rewrite (PyFacts.int_floor _ Hpos).
    pose proof (Qfloor_le (cash * ps / ep)) as Hfl.
    set (k := inject_Z (Qfloor (cash * ps / ep))) in *.
    assert (Hk : ep * k <= cash * ps).
    { setoid_replace (cash * ps) with (ep * (cash * ps / ep))
        by (field; intros E; rewrite E in Hep; revert Hep; apply Qlt_irrefl).
      apply Qmult_le_l; assumption. }
    assert (H1 : ep * k * (1 + c) <= cash * ps * (1 + c))
      by (apply Qmult_le_compat_r; [exact Hk|lra]).
    assert (H2 : cash * (ps * (1 + c)) <= cash * 1).
    { destruct (Qle_lt_or_eq _ _ Hcash) as [Hlt|Heq].
      - apply Qmult_le_l; assumption.
      - rewrite <- Heq. lra. }
    lra.
Qed.

Lemma open_solvent (parameters : Params.t) (d : Z) (signal ep : Q)
    (st st' : state) :
  0 <= Params.commission parameters ->
  Params.position_size parameters * (1 + Params.commission parameters) <= 1 ->
  0 <= ep ->
  solvent st ->
  open_position parameters d signal ep st = Some st' -> solvent st'.
Proof.
  intros Hc Hps Hep [Hcash Ht]. unfold open_position.
  destruct (negb _ && _); [|intros [= <-]; split; assumption].
  unfold entry_shares. destruct (Qeq_bool ep 0) eqn:E0; [discriminate|].
  destruct (0 <? _)%Z eqn:En; intros [= <-]; [|split; assumption].
  split; simpl; [|exact Ht].
  apply Z.ltb_lt in En. apply Qeq_bool_false_neq in E0.
  apply affordable_entry with (ps := Params.position_size parameters);
    try assumption; [|reflexivity].
  destruct (Qle_lt_or_eq _ _ Hep) as [Hlt|Heq]; [exact Hlt|].
  exfalso. apply E0. symmetry. exact Heq.
Qed.

Lemma run_solvent (sym : string) (parameters : Params.t)
    (signals : list signal_row) (st st' : state) :
  0 <= Params.commission parameters -> Params.commission parameters <= 1 ->
  0 <= Params.slippage parameters -> Params.slippage parameters <= 1 ->
  Params.position_size parameters * (1 + Params.commission parameters) <= 1 ->
  nonnegative_prices signals ->
  solvent st ->
  run sym parameters st signals = Some st' -> solvent st'.
Proof.
  intros Hc0 Hc1 Hs0 Hs1 Hps. revert st.
  induction signals as [|row rest IH]; intros st Hp H; simpl.
  - intros [= <-]. exact H.
  - inversion Hp as [|? ? Hrow Hrest]; subst.
    destruct (step sym parameters st row) as [st1|] eqn:E; [|discriminate].
    apply IH; [exact Hrest|]. unfold step in E.
    destruct (Signal row) as [signal|]; [|injection E as <-; exact H].
    pose proof (execution_price_nonnegative parameters signal (Price row)
                  Hs0 Hs1 Hrow) as Hep.
    eapply open_solvent; [exact Hc0|exact Hps|exact Hep| |exact E].
    apply close_solvent; assumption.
Qed.

(** X17: with a non-negative initial capital, commission and slippage rates in
    [0, 1], position_size x (1 + commission) <= 1 and no negative price,
    the cash recorded after every trade of [_execute_trades] is not
    negative: an entry never costs more than the cash at hand. *)
Theorem enhanced_cash_never_negative (signals : list signal_row)
    (sym : string) (parameters : Params.t) :
  0 <= Params.initial_capital parameters ->
  0 <= Params.commission parameters -> Params.commission parameters <= 1 ->
  0 <= Params.slippage parameters -> Params.slippage parameters <= 1 ->
  Params.position_size parameters * (1 + Params.commission parameters) <= 1 ->
  nonnegative_prices signals ->
  Forall (fun t => 0 <= cash_after t) (_execute_trades signals sym parameters).
Proof.
  intros Hi Hc0 Hc1 Hs0 Hs1 Hps Hp. unfold _execute_trades.
  destruct (run sym parameters (initial_state parameters) signals) as [st|] eqn:E;
    [|constructor].
  assert (H0 : solvent (initial_state parameters)) by (split; [exact Hi|constructor]).
  destruct (run_solvent sym parameters signals _ _ Hc0 Hc1 Hs0 Hs1 Hps Hp H0 E)
    as [Hcash Ht].
  unfold close_final. destruct (negb _); [|exact Ht].
  destruct (rev signals) as [|lst l] eqn:Er; [exact Ht|].
  apply Forall_app. split; [exact Ht|]. constructor; [|constructor]. simpl.
  assert (Hl : 0 <= Price lst).
  { unfold nonnegative_prices in Hp. rewrite Forall_forall in Hp. apply Hp.
    apply in_rev. rewrite Er. left. reflexivity. }
  assert (Hx : 0 <= Price lst * (1 - Params.slippage parameters))
    by (apply Qmult_le_0_compat; [exact Hl|lra]).
  pose proof (exit_proceeds_nonnegative _ (Qabs (cur_position st))
                (Params.commission parameters) Hx (Qabs_nonneg _) Hc0 Hc1).
  lra.
Qed.

Lemma enhanced_cash_never_negative_witness :
  Forall (fun t => 0 <= cash_after t)
    (_execute_trades round_trip_signals "TEST" Params.default_params).
Proof.
  apply enhanced_cash_never_negative.
  - vm_compute. discriminate.
  - vm_compute. discriminate.
  - vm_compute. discriminate.
  - vm_compute. discriminate.
  - vm_compute. discriminate.
  - vm_compute. discriminate.
  - repeat (constructor; try (vm_compute; discriminate)).
Defined.

End EnhancedLedgerFacts.

(** ** The calculation checks on the ledgers of the engines *)

Module CalculationCheckFacts.

Import Series Validation.

Lemma count_all {A} (p : A -> bool) (l : list A) :
  (forall x, In x l -> p x = true) -> Py.count p l = Py.len l.
Proof.
  intros H. unfold Py.count. f_equal.
  induction l as [|x l IH]; simpl; [reflexivity|].
  rewrite (H x (or_introl eq_refl)). simpl. rewrite IH at 1; [reflexivity|].
  intros y Hy. apply H. right. exact Hy.
Qed.

Lemma filter_none {A} (p : A -> bool) (l : list A) :
  (forall x, In x l -> p x = false) -> filter p l = [].
Proof.
  intros H. induction l as [|x l IH]; simpl; [reflexivity|].
  rewrite (H x (or_introl eq_refl)). apply IH.
  intros y Hy. apply H. right. exact Hy.
Qed.

Lemma count_none {A} (p : A -> bool) (l : list A) :
  (forall x, In x l -> p x = false) -> Py.count p l = 0%Z.
Proof.
  intros H. unfold Py.count. rewrite filter_none by exact H. reflexivity.
Qed.

Lemma enumerate_from_In {A} (i : Z) (l : list A) (it : Z * A) :
  In it (enumerate_from i l) -> In (snd it) l.
Proof.
  revert i. induction l as [|x l IH]; intros i; simpl; [tauto|].
  intros [<-|H]; [left; reflexivity|right; eapply IH; exact H].
Qed.

Lemma len_pos {A} (x : A) (l : list A) : 0 < inject_Z (Py.len (x :: l)).
Proof.
  unfold Py.len, Qlt. simpl. lia.
Qed.

(** A trade whose recorded P&L is the expected one passes the check,
    whatever the tolerance. *)
Lemma trade_ok_exact (expected : trade -> Q) (tol : Q) (t : trade) :
  0 <= tol -> pnl t == expected t -> trade_ok expected tol t = true.
Proof.
  intros Htol E. unfold trade_ok, relative_error.
  apply Qle_bool_iff. destruct (negb _); [|exact Htol].
  setoid_replace (expected t - pnl t) with 0 by (rewrite E; ring).
  setoid_replace (Qabs 0 / Qabs (expected t)) with 0
    by (unfold Qdiv; setoid_replace (Qabs 0) with 0 by reflexivity; ring).
  exact Htol.
Qed.

Lemma all_trades_ok (expected : trade -> Q) (tol : Q) (t : trade)
    (ts : list trade) :
  (forall x, In x (t :: ts) -> trade_ok expected tol x = true) ->
  let chk := _validate_trade_calculations expected tol (t :: ts) in
  check_score chk == 1 /\ issues chk = [] /\
  check_correct chk = Some (Py.len (t :: ts)).
Proof.
  intros H. unfold _validate_trade_calculations.
  cbv zeta. cbn [check_score issues check_correct].
  rewrite (count_all _ _ H). split; [|split; [|reflexivity]].
  - field. intros E. pose proof (len_pos t ts) as Hp. rewrite E in Hp.
    revert Hp. apply Qlt_irrefl.
  - rewrite filter_none; [reflexivity|]. intros it Hit.
    apply enumerate_from_In in Hit. rewrite (H _ Hit). reflexivity.
Qed.

Lemma no_trade_ok (expected : trade -> Q) (tol : Q) (t : trade)
    (ts : list trade) :
  (forall x, In x (t :: ts) -> trade_ok expected tol x = false) ->
  let chk := _validate_trade_calculations expected tol (t :: ts) in
  check_score chk == 0 /\ check_correct chk = Some 0%Z.
Proof.
  intros H. unfold _validate_trade_calculations.
  cbv zeta. cbn [check_score issues check_correct].
  rewrite (count_none _ _ H). split; [|reflexivity].
  unfold Qdiv. ring.
Qed.

Lemma run_pnl_invariant (data : Dict.t PolygonBacktestingEngine.frame)
    (params : Params.t) (cfg : PolygonBacktestingEngine.config) :
  PolygonBacktestingEngine.pnl_invariant params
    (PolygonBacktestingEngine._run_momentum_strategy data params cfg).
Proof.
  apply (PolygonFacts.run_invariant data params cfg
           (PolygonBacktestingEngine.pnl_invariant params)).
  - intros d r Hr. exact Hr.
  - intros. apply PnlFacts.exit_pnl_invariant. assumption.
  - intros. apply PnlFacts.enter_pnl_invariant. assumption.
  - split; constructor.
Qed.

(** X18: the momentum back-test run at the commission rate the validator
    assumes (0.1 %) passes the trade check of backtest_validator.py: when
    the run records a trade, every trade is counted as correct, the score
    is 1 and no issue is reported. *)
Theorem momentum_trades_pass_trade_check
    (data : Dict.t PolygonBacktestingEngine.frame) (params : Params.t)
    (cfg : PolygonBacktestingEngine.config) :
  let r := PolygonBacktestingEngine._run_momentum_strategy data params cfg in
  let chk :=
    _validate_trade_calculations BacktestValidator.expected_pnl
      BacktestValidator.tolerance
      (get (br_trades (validator_results r)) []) in
  Params.commission params == 1 # 1000 ->
  PolygonBacktestingEngine.trades r <> [] ->
  check_score chk == 1 /\ issues chk = [] /\
  check_correct chk = check_total chk.
Proof.
  intros r chk Hc Hne. subst chk. simpl get.
  pose proof (run_pnl_invariant data params cfg) as [_ Htr]. fold r in Htr.
  destruct (PolygonBacktestingEngine.trades r) as [|t ts]; [contradiction|].
  simpl map.
  apply (all_trades_ok BacktestValidator.expected_pnl
           BacktestValidator.tolerance (validator_trade t)
           (map validator_trade ts)).
  intros x Hx. change (In x (map validator_trade (t :: ts))) in Hx.
  apply in_map_iff in Hx. destruct Hx as (t0 & <- & Hin).
  apply trade_ok_exact; [unfold BacktestValidator.tolerance; lra|].
  rewrite Forall_forall in Htr. specialize (Htr _ Hin). simpl in Htr.
  unfold BacktestValidator.expected_pnl. simpl. rewrite Htr.
  unfold PolygonBacktestingEngine.spec_net_pnl. rewrite Hc. ring.
Qed.

Lemma momentum_trades_pass_trade_check_witness :
  let r :=
    PolygonBacktestingEngine._run_momentum_strategy
      PolygonBacktestingEngine.scenario_data Params.default_params
      PolygonBacktestingEngine.one_day_config in
  Params.commission Params.default_params == 1 # 1000 /\
  PolygonBacktestingEngine.trades r <> [] /\
  check_score
    (_validate_trade_calculations BacktestValidator.expected_pnl
       BacktestValidator.tolerance
       (get (br_trades (validator_results r)) [])) == 1.
Proof.
  intros r.
  assert (Hc : Params.commission Params.default_params == 1 # 1000)
    by reflexivity.
  assert (Hne : PolygonBacktestingEngine.trades r <> [])
    by (vm_compute; discriminate).
  split; [exact Hc|]. split; [exact Hne|].
  exact (proj1 (momentum_trades_pass_trade_check
                  PolygonBacktestingEngine.scenario_data Params.default_params
                  PolygonBacktestingEngine.one_day_config Hc Hne)).
Defined.

Lemma commissioned_trade_rejected (t : trade) :
  commissioned_trade t ->
  trade_ok ValidationFramework.expected_pnl ValidationFramework.tolerance t
  = false.
Proof.
  intros (Hn & Hx & Hq & Hne & Hp).
  unfold trade_ok, relative_error, ValidationFramework.expected_pnl,
    ValidationFramework.tolerance.
  unfold BacktestValidator.expected_pnl in Hp.
  set (n := entry_price t) in *. set (x := exit_price t) in *.
  set (q := quantity t) in *.
  assert (He : ~ (x - n) * q == 0).
  { intros E. apply Qmult_integral in E. destruct E as [E|E].
    - apply Hne. lra.
    - rewrite E in Hq. revert Hq. apply Qlt_irrefl. }
  rewrite (SizingFacts.Qeq_bool_false _ He). cbn [negb].
  destruct (Qle_bool _ _) eqn:E; [|reflexivity]. exfalso.
  apply Qle_bool_iff in E. rewrite Hp in E.
  assert (Hd : (x - n) * q
               - (x * q * (1 - (1 # 1000)) - n * q * (1 + (1 # 1000)))
               == (x + n) * q * (1 # 1000)) by ring.
  rewrite Hd in E.
  assert (Hxq : 0 < (x + n) * q) by (apply Qmult_lt_0_compat; lra).
  rewrite (Qabs_pos ((x + n) * q * (1 # 1000))) in E by lra.
  assert (Hpos : 0 < Qabs ((x - n) * q)).
  { destruct (Qle_lt_or_eq _ _ (Qabs_nonneg ((x - n) * q))) as [H|H];
      [exact H|].
    exfalso. apply He. symmetry in H. revert H. apply Qabs_case; intros; lra. }
  apply (Qmult_le_compat_r _ _ (Qabs ((x - n) * q))) in E;
    [|apply Qlt_le_weak; exact Hpos].
  setoid_replace ((x + n) * q * (1 # 1000) / Qabs ((x - n) * q)
                  * Qabs ((x - n) * q))
    with ((x + n) * q * (1 # 1000)) in E
    by (field; intros H; rewrite H in Hpos; revert Hpos; apply Qlt_irrefl).
  rewrite Qabs_Qmult, (Qabs_pos q) in E by lra.
  assert (Hlt : Qabs (x - n) * q < (x + n) * q).
  { apply Qmult_lt_compat_r; [exact Hq|]. apply Qabs_case; intros; lra. }
  lra.
Qed.

(** X19: the trade check of backtest_validation_framework.py compares the
    recorded P&L with the gross (exit - entry) x quantity at a tolerance
    of 0.1 %: a round trip at positive prices whose P&L is net of a 0.1 %
    commission on each leg is never counted as correct, so a list of such
    trades scores 0. *)
Theorem framework_rejects_commissioned_trades (t : trade) (ts : list trade) :
  Forall commissioned_trade (t :: ts) ->
  let chk :=
    _validate_trade_calculations ValidationFramework.expected_pnl
      ValidationFramework.tolerance (t :: ts) in
  check_score chk == 0 /\ check_correct chk = Some 0%Z.
Proof.
  intros H. apply no_trade_ok. intros x Hx.
  rewrite Forall_forall in H. apply commissioned_trade_rejected, H, Hx.
Qed.

(** X20: without a ['performance'] entry, as in the ledger that [run_backtest]
    passes on, the performance check of both validators cannot confirm the
    number of trades: with at least one trade it reports the mismatch and
    scores at most 2/3. *)
Theorem performance_check_without_metrics (tol : Q)
    (r : PolygonBacktestingEngine.results) :
  PolygonBacktestingEngine.trades r <> [] ->
  let chk := _validate_performance_metrics tol (validator_results r) in
  check_score chk <= 2 # 3 /\
  In (TotalTradesMismatch
        (Py.len (PolygonBacktestingEngine.trades r)) 0) (issues chk).
Proof.
  intros Hne. unfold _validate_performance_metrics, validator_results.
  cbn [br_performance br_trades get total_trades winning_trades total_pnl].
  destruct (PolygonBacktestingEngine.trades r) as [|t ts] eqn:Et;
    [contradiction|].
  cbn [map]. cbv zeta. cbn [check_score issues].
  assert (E1 : (Py.len (validator_trade t :: map validator_trade ts) =? 0)%Z
               = false).
  { apply Z.eqb_neq. unfold Py.len. simpl. lia. }
  rewrite E1. split.
  - destruct (Py.count _ _ =? 0)%Z; destruct (Qle_bool _ tol);
      unfold Qle; simpl; lia.
  - left. f_equal. unfold Py.len. simpl. rewrite length_map. reflexivity.
Qed.

Lemma framework_rejects_commissioned_trades_witness :
  let t := {| entry_price := 100; exit_price := 110; quantity := 100;
              pnl := 979 |} in
  Forall commissioned_trade [t] /\
  check_score
    (_validate_trade_calculations ValidationFramework.expected_pnl
       ValidationFramework.tolerance [t]) == 0.
Proof.
  intros t.
  assert (H : Forall commissioned_trade [t]).
  { constructor; [|constructor]. unfold commissioned_trade. simpl.
    split; [reflexivity|]. split; [reflexivity|]. split; [reflexivity|].
    split; [intros E; vm_compute in E; discriminate E|].
    vm_compute. reflexivity. }
  split; [exact H|].
  exact (proj1 (framework_rejects_commissioned_trades t [] H)).
Defined.

Lemma performance_check_without_metrics_witness :
  let r :=
    PolygonBacktestingEngine._run_momentum_strategy
      PolygonBacktestingEngine.scenario_data Params.default_params
      PolygonBacktestingEngine.one_day_config in
  PolygonBacktestingEngine.trades r <> [] /\
  check_score
    (_validate_performance_metrics BacktestValidator.tolerance
       (validator_results r)) <= 2 # 3.
Proof.
  intros r.
  assert (Hne : PolygonBacktestingEngine.trades r <> [])
    by (vm_compute; discriminate).
  split; [exact Hne|].
  exact (proj1 (performance_check_without_metrics BacktestValidator.tolerance
                  r Hne)).
Defined.

End CalculationCheckFacts.

(** ** PolygonBacktestingEngine: the mean-reversion back-test *)

Module ReversionFacts.

Import Series PolygonBacktestingEngine.

(** A purchase is the entry of the momentum strategy at the same symbol
    and price. *)
Lemma buy_enter (params : Params.t) (d : Z) (r : results) (sym : string)
    (price : Q) :
  buy params d r sym price
  = enter params d r {| c_symbol := sym; c_momentum := NaN; c_price := price |}.
Proof. reflexivity. Qed.

(** An exit of the mean-reversion strategy leaves the ledger as it is or
    is an exit of the momentum strategy at a holding period already
    reached. *)
Lemma reversion_exit_cases (rsi : string -> Z -> xfloat)
    (data : Dict.t frame) (params : Params.t) (cfg : reversion_config)
    (d : Z) (r : results) (sym : string) :
  reversion_exit_symbol rsi data params cfg d r sym = r \/
  exists cfg',
    reversion_exit_symbol rsi data params cfg d r sym
    = exit_symbol data params cfg' d r sym.
Proof.
  unfold reversion_exit_symbol, exit_symbol.
  destruct (Dict.lookup sym (positions r)) as [p|]; [|left; reflexivity].
  destruct (Dict.lookup sym data) as [df|]; [|left; reflexivity].
  destruct (loc df d) as [price|]; [|left; reflexivity].
  destruct (_ || _); [|left; reflexivity].
  right.
  exists {| lookback_period := 0; momentum_threshold := 0;
            holding_period := d - Position.entry_date p |}.
  cbn [holding_period]. rewrite Z.leb_refl. reflexivity.
Qed.

Lemma reversion_exit_from_momentum (rsi : string -> Z -> xfloat)
    (data : Dict.t frame) (params : Params.t) (cfg : reversion_config)
    (I : results -> Prop) (d : Z) (r : results) (sym : string) :
  (forall cfg', I r -> I (exit_symbol data params cfg' d r sym)) ->
  I r -> I (reversion_exit_symbol rsi data params cfg d r sym).
Proof.
  intros H Hr.
  destruct (reversion_exit_cases rsi data params cfg d r sym) as [->|[cfg' ->]];
    [exact Hr|apply H; exact Hr].
Qed.

(** *** A property kept by the three ledger operations is kept by a run *)

Section Invariant.

Variable rsi : string -> Z -> xfloat.
Variable data : Dict.t frame.
Variable params : Params.t.
Variable cfg : reversion_config.
Variable I : results -> Prop.

Hypothesis I_mark : forall d r, I r -> I (mark_to_market data d r).
Hypothesis I_exit :
  forall d r sym, I r -> I (reversion_exit_symbol rsi data params cfg d r sym).
Hypothesis I_buy :
  forall d r sym price,
    I r -> Dict.lookup sym (positions r) = None -> I (buy params d r sym price).

Lemma reversion_enter_invariant (d : Z) (r : results) (sf : string * frame) :
  I r -> I (reversion_enter rsi params cfg d r sf).
Proof.
  intros H. unfold reversion_enter. destruct sf as [sym df].
  destruct (Dict.lookup sym (positions r)) eqn:L; [exact H|].
  destruct (loc df d); [|exact H].
  destruct (xltb _ _); [|exact H].
  apply I_buy; assumption.
Qed.

Lemma reversion_step_invariant (r : results) (d : Z) :
  I r -> I (reversion_step rsi data params cfg r d).
Proof.
  intros H. unfold reversion_step, reversion_entries, reversion_exits.
  set (r1 := mark_to_market data d r).
  assert (H1 : I r1) by (apply I_mark; exact H).
  set (r2 := fold_left _ _ r1).
  assert (H2 : I r2).
  { apply PolygonFacts.fold_left_invariant; [|exact H1].
    intros; apply I_exit; assumption. }
  destruct (Py.len (positions r2) <? Params.max_positions params)%Z; [|exact H2].
  apply PolygonFacts.fold_left_invariant; [|exact H2].
  intros; apply reversion_enter_invariant; assumption.
Qed.

Lemma reversion_run_states_invariant (ds : list Z) (r : results) :
  I r -> Forall I (reversion_run_states rsi data params cfg r ds).
Proof.
  revert r. induction ds as [|d ds IH]; intros r H; simpl; constructor.
  - apply reversion_step_invariant. exact H.
  - apply IH. apply reversion_step_invariant. exact H.
Qed.

Lemma reversion_run_invariant :
  I (initial_results params) ->
  I (_run_mean_reversion_strategy rsi data params cfg).
Proof.
  intros H. unfold _run_mean_reversion_strategy.
  apply PolygonFacts.fold_left_invariant; [|exact H].
  intros; apply reversion_step_invariant; assumption.
Qed.

End Invariant.

(** X21: with a non-negative initial capital, a commission rate of at
    most 1 and no negative closing price, the cash of the mean-reversion
    back-test is non-negative after every simulated date and in the
    returned ledger. *)
Theorem reversion_cash_never_negative (rsi : string -> Z -> xfloat)
    (data : Dict.t frame) (params : Params.t) (cfg : reversion_config) :
  0 <= Params.initial_capital params ->
  Params.commission params <= 1 ->
  nonnegative_closes data ->
  Forall (fun r => 0 <= cash r)
         (reversion_run_states rsi data params cfg (initial_results params)
                               (all_dates data))
  /\ 0 <= cash (_run_mean_reversion_strategy rsi data params cfg).
Proof.
  intros Hcap Hc Hd.
  assert (I0 : cash_invariant (initial_results params))
    by (split; [exact Hcap|constructor]).
  assert (Hexit : forall d r sym, cash_invariant r ->
            cash_invariant (reversion_exit_symbol rsi data params cfg d r sym)).
  { intros d r sym. apply reversion_exit_from_momentum.
    intros cfg' H. apply PolygonFacts.exit_adds_nonnegative; assumption. }
  assert (Hbuy : forall d r sym price, cash_invariant r ->
            Dict.lookup sym (positions r) = None ->
            cash_invariant (buy params d r sym price)).
  { intros d r sym price H _. rewrite buy_enter.
    apply PolygonFacts.enter_cash_invariant. exact H. }
  split.
  - eapply Forall_impl;
      [|apply (reversion_run_states_invariant rsi data params cfg
                 cash_invariant);
        [apply PolygonFacts.mark_cash_invariant|exact Hexit|exact Hbuy
        |exact I0]].
    intros r [H _]. exact H.
  - apply (reversion_run_invariant rsi data params cfg cash_invariant);
      [apply PolygonFacts.mark_cash_invariant|exact Hexit|exact Hbuy|exact I0].
Qed.

Lemma reversion_cash_never_negative_witness :
  0 <= Params.initial_capital Params.default_params /\
  Params.commission Params.default_params <= 1 /\
  nonnegative_closes scenario_data /\
  0 <= cash (_run_mean_reversion_strategy scenario_rsi scenario_data
               Params.default_params mean_reversion_template).
Proof.
  assert (H0 : 0 <= Params.initial_capital Params.default_params)
    by discriminate.
  assert (H1 : Params.commission Params.default_params <= 1) by discriminate.
  assert (H2 : nonnegative_closes scenario_data)
    by (repeat (constructor; try discriminate)).
  split; [exact H0|]. split; [exact H1|]. split; [exact H2|].
  exact (proj2 (reversion_cash_never_negative scenario_rsi scenario_data
                  Params.default_params mean_reversion_template H0 H1 H2)).
Defined.

(** X22: every trade the mean-reversion back-test records has the net
    P&L (exit - entry) x quantity - entry commission - exit commission,
    each commission being price x quantity x commission rate. *)
Theorem reversion_trade_pnl (rsi : string -> Z -> xfloat)
    (data : Dict.t frame) (params : Params.t) (cfg : reversion_config)
    (t : Trade.t) :
  In t (trades (_run_mean_reversion_strategy rsi data params cfg)) ->
  Trade.pnl t == spec_net_pnl params t.
Proof.
  intros Hin.
  assert (H : pnl_invariant params
                (_run_mean_reversion_strategy rsi data params cfg)).
  { apply (reversion_run_invariant rsi data params cfg (pnl_invariant params)).
    - intros d r Hr. exact Hr.
    - intros d r sym. apply reversion_exit_from_momentum.
      intros cfg' Hr. apply PnlFacts.exit_pnl_invariant. exact Hr.
    - intros d r sym price Hr _. rewrite buy_enter.
      apply PnlFacts.enter_pnl_invariant. exact Hr.
    - split; constructor. }
  destruct H as [_ Htr]. rewrite Forall_forall in Htr. exact (Htr _ Hin).
Qed.

Lemma reversion_trade_pnl_witness :
  exists t,
    In t (trades (_run_mean_reversion_strategy scenario_rsi scenario_data
                    Params.default_params mean_reversion_template)) /\
    Trade.pnl t == spec_net_pnl Params.default_params t /\
    Trade.pnl t == 979.
Proof.
  eexists. split; [left; reflexivity|]. split.
  - apply (reversion_trade_pnl scenario_rsi scenario_data
             Params.default_params mean_reversion_template).
    left. reflexivity.
  - vm_compute. reflexivity.
Defined.

(** X23: the books of the mean-reversion back-test balance: after every
    simulated date and in the returned ledger the cash plus the cost
    basis of the open positions equals the initial capital plus the sum
    of the recorded trades' P&L. *)
Theorem reversion_books_balance (rsi : string -> Z -> xfloat)
    (data : Dict.t frame) (params : Params.t) (cfg : reversion_config) :
  Forall (balanced params)
    (reversion_run_states rsi data params cfg (initial_results params)
                          (all_dates data)) /\
  balanced params (_run_mean_reversion_strategy rsi data params cfg).
Proof.
  assert (Hexit : forall d r sym, ledger_ok params r ->
            ledger_ok params (reversion_exit_symbol rsi data params cfg d r sym)).
  { intros d r sym. apply reversion_exit_from_momentum.
    intros cfg' H. apply LedgerFacts.exit_ledger_ok. exact H. }
  assert (Hbuy : forall d r sym price, ledger_ok params r ->
            Dict.lookup sym (positions r) = None ->
            ledger_ok params (buy params d r sym price)).
  { intros d r sym price H L. rewrite buy_enter.
    apply LedgerFacts.enter_ledger_ok; [exact H|].
    apply LedgerFacts.lookup_None_keys. exact L. }
  split.
  - eapply Forall_impl;
      [|apply (reversion_run_states_invariant rsi data params cfg
                 (ledger_ok params));
        [intros d r H; exact H|exact Hexit|exact Hbuy
        |apply LedgerFacts.initial_ledger_ok]].
    intros r [H _]. exact H.
  - apply (reversion_run_invariant rsi data params cfg (ledger_ok params));
      [intros d r H; exact H|exact Hexit|exact Hbuy
      |apply LedgerFacts.initial_ledger_ok].
Qed.

Lemma reversion_exit_rule_kept (rsi : string -> Z -> xfloat)
    (data : Dict.t frame) (params : Params.t) (cfg : reversion_config)
    (d : Z) (r : results) (sym : string) :
  exit_rule rsi cfg r ->
  exit_rule rsi cfg (reversion_exit_symbol rsi data params cfg d r sym).
Proof.
  intros H. unfold reversion_exit_symbol.
  destruct (Dict.lookup sym (positions r)) as [p|]; [|exact H].
  destruct (Dict.lookup sym data) as [df|]; [|exact H].
  destruct (loc df d) as [price|]; [|exact H].
  destruct (_ || _) eqn:E; [|exact H].
  unfold exit_rule. cbn [trades]. apply Forall_app. split; [exact H|].
  constructor; [|constructor]. cbn.
  apply orb_true_iff in E. destruct E as [E|E]; [left|right; exact E].
  apply Z.leb_le. exact E.
Qed.

(** X24: every trade of the mean-reversion back-test was closed by one of
    its two exit conditions: it was held for at least the holding period,
    or the RSI of its symbol on the exit date was above the overbought
    threshold. *)
Theorem reversion_exit_rule (rsi : string -> Z -> xfloat)
    (data : Dict.t frame) (params : Params.t) (cfg : reversion_config)
    (t : Trade.t) :
  In t (trades (_run_mean_reversion_strategy rsi data params cfg)) ->
  (rv_holding_period cfg <= Trade.exit_date t - Trade.entry_date t)%Z \/
  xgtb (rsi (Trade.symbol t) (Trade.exit_date t))
       (Fin (overbought_threshold cfg)) = true.
Proof.
  intros Hin.
  cut (exit_rule rsi cfg (_run_mean_reversion_strategy rsi data params cfg)).
  { intros H. unfold exit_rule in H. rewrite Forall_forall in H.
    exact (H _ Hin). }
  clear t Hin.
  apply (reversion_run_invariant rsi data params cfg (exit_rule rsi cfg)).
  - intros d r H. exact H.
  - intros d r sym. apply reversion_exit_rule_kept.
  - intros d r sym price H _. unfold buy.
    destruct (Qeq_bool price 0); [exact H|].
    destruct (Py.Qgtb _ 0); [|exact H].
    destruct (Qle_bool _ _); exact H.
  - constructor.
Qed.

Lemma reversion_exit_rule_witness :
  exists t,
    In t (trades (_run_mean_reversion_strategy scenario_rsi scenario_data
                    Params.default_params mean_reversion_template)) /\
    ((rv_holding_period mean_reversion_template
      <= Trade.exit_date t - Trade.entry_date t)%Z \/
     xgtb (scenario_rsi (Trade.symbol t) (Trade.exit_date t))
          (Fin (overbought_threshold mean_reversion_template)) = true) /\
    Trade.exit_date t = 1%Z.
Proof.
  eexists. split; [left; reflexivity|]. split.
  - apply (reversion_exit_rule scenario_rsi scenario_data
             Params.default_params mean_reversion_template).
    left. reflexivity.
  - reflexivity.
Defined.

End ReversionFacts.


(** ** WalkForwardAnalyzer._analyze_walk_forward_results: the summary *)

Module SummaryFacts.

Import WalkForward.














End SummaryFacts.

(** ** The accuracy report of the validators *)

Module AccuracyFacts.

Import Validation.

Lemma confidence_range (o : Q) :
  0 <= o -> o <= 1 ->
  0 <= Qmin 1 (o * (11 # 10)) /\ Qmin 1 (o * (11 # 10)) <= 1 /\
  o <= Qmin 1 (o * (11 # 10)).
Proof.
  intros H0 H1.
  destruct (Q.min_spec 1 (o * (11 # 10))) as [[L E]|[L E]]; rewrite E;
    repeat split; lra.
Qed.

(** X26: when the category scores handed to [_calculate_accuracy_metrics]
    lie in [0, 1], so do the overall accuracy, the confidence level and
    the weighted validation score it reports, in both validators, and the
    confidence level is never below the overall accuracy. *)
Theorem accuracy_metrics_range
    (data_validation calculation_validation strategy_validation
       : ValidationResult) :
  0 <= score data_validation <= 1 ->
  0 <= score calculation_validation <= 1 ->
  0 <= score strategy_validation <= 1 ->
  let in_range (m : AccuracyMetrics) :=
    0 <= overall_accuracy m <= 1 /\
    0 <= validation_score m <= 1 /\
    overall_accuracy m <= confidence_level m <= 1 in
  in_range (BacktestValidator._calculate_accuracy_metrics
              data_validation calculation_validation) /\
  in_range (ValidationFramework._calculate_accuracy_metrics
              data_validation calculation_validation strategy_validation).
Proof.
  intros [Hd0 Hd1] [Hc0 Hc1] [Hs0 Hs1] in_range. subst in_range.
  unfold BacktestValidator._calculate_accuracy_metrics,
    ValidationFramework._calculate_accuracy_metrics.
  cbn [overall_accuracy validation_score confidence_level].
  set (d := score data_validation) in *.
  set (c := score calculation_validation) in *.
  set (s := score strategy_validation) in *.
  assert (Hb0 : 0 <= (d + c) / 2) by (apply Qle_shift_div_l; lra).
  assert (Hb1 : (d + c) / 2 <= 1) by (apply Qle_shift_div_r; lra).
  assert (Hf0 : 0 <= (d + c + s) / 3) by (apply Qle_shift_div_l; lra).
  assert (Hf1 : (d + c + s) / 3 <= 1) by (apply Qle_shift_div_r; lra).
  destruct (confidence_range _ Hb0 Hb1) as (B0 & B1 & B2).
  destruct (confidence_range _ Hf0 Hf1) as (F0 & F1 & F2).
  repeat split; try assumption; lra.
Qed.

Lemma accuracy_metrics_range_witness :
  let d := result_with_score "Data Validation" (1 # 3) false in
  let c := result_with_score "Calculation Validation" (8 # 9) true in
  let s := result_with_score "Strategy Validation" 1 true in
  0 <= overall_accuracy
         (ValidationFramework._calculate_accuracy_metrics d c s) <= 1 /\
  confidence_level (BacktestValidator._calculate_accuracy_metrics d c)
  <= 1.
Proof.
  intros d c s.
  assert (Hd : 0 <= score d <= 1) by (split; discriminate).
  assert (Hc : 0 <= score c <= 1) by (split; discriminate).
  assert (Hs : 0 <= score s <= 1) by (split; discriminate).
  destruct (accuracy_metrics_range d c s Hd Hc Hs) as [Hb Hf].
  split; [exact (proj1 Hf)|exact (proj2 (proj2 (proj2 Hb)))].
Defined.

End AccuracyFacts.

(** ** EnhancedBacktester._execute_trades: an entry at a zero price *)

Module ZeroPriceFacts.

Import Series EnhancedBacktester.

Lemma run_app (sym : string) (parameters : Params.t)
    (pre post : list signal_row) (st : state) :
  run sym parameters st (pre ++ post)
  = match run sym parameters st pre with
    | Some st' => run sym parameters st' post
    | None => None
    end.
Proof.
  revert st. induction pre as [|row pre IH]; intros st; simpl; [reflexivity|].
  destruct (step sym parameters st row); [apply IH|reflexivity].
Qed.

(** X27: the share count of an entry divides by the execution price, and
    the exception of a zero price is caught around the whole loop: when a
    row with a non-zero signal and a zero price is reached with no open
    position, [_execute_trades] returns the empty list, whatever was
    traded before and whatever follows. *)
Theorem zero_price_entry_discards_trades (sym : string)
    (parameters : Params.t) (pre post : list signal_row) (row : signal_row)
    (st : state) (signal : Q) :
  run sym parameters (initial_state parameters) pre = Some st ->
  cur_position st == 0 ->
  Signal row = Some signal -> ~ signal == 0 -> Price row == 0 ->
  _execute_trades (pre ++ row :: post) sym parameters = [].
Proof.
  intros Hpre Hflat Hs Hne Hp. unfold _execute_trades.
  rewrite run_app, Hpre. cbn [run].
  assert (E : step sym parameters st row = None).
  { unfold step. rewrite Hs.
    assert (Hep : execution_price parameters signal (Price row) == 0).
    { unfold execution_price.
      destruct (Py.Qgtb signal 0); [rewrite Hp; ring|].
      destruct (Py.Qltb signal 0); [rewrite Hp; ring|exact Hp]. }
    assert (Hc : close_position sym parameters (date row) signal
                   (execution_price parameters signal (Price row)) st = st).
    { unfold close_position.
      apply Qeq_bool_iff in Hflat. rewrite Hflat. reflexivity. }
    rewrite Hc. unfold open_position, entry_shares.
    apply Qeq_bool_iff in Hflat. rewrite Hflat.
    rewrite (SizingFacts.Qeq_bool_false _ Hne).
    apply Qeq_bool_iff in Hep. rewrite Hep. reflexivity. }
  rewrite E. reflexivity.
Qed.

Lemma zero_price_entry_discards_trades_witness :
  let row := {| date := 2; Signal := Some 1; Price := 0 |} in
  List.length (_execute_trades round_trip_signals "TEST" Params.default_params)
  = 1%nat /\
  _execute_trades (round_trip_signals ++ row :: []) "TEST"
                  Params.default_params = [].
Proof.
  intros row. split; [reflexivity|].
  eapply (zero_price_entry_discards_trades "TEST" Params.default_params
            round_trip_signals [] row _ 1).
  - reflexivity.
  - reflexivity.
  - reflexivity.
  - discriminate.
  - reflexivity.
Defined.

End ZeroPriceFacts.
